(** * browser-mon: the session orchestration server (server.py) and its client

    A shallow embedding of [server.py] (port allocation, browser launch with a
    liveness check, the session registry, the per-session CDP monitoring task
    and the shutdown hook) and of [client.py] (the client of the management
    API and its [main]).

    Conventions.
    - The two module-level dicts [browser_sessions] and [monitoring_tasks] are
      finite maps keyed by the session id.
    - [BrowserSession.events] is a Python list that is mutated in place and
      stays reachable after the session leaves the registry; it is modelled
      as an address into a store of list objects.
    - Everything the server asks of its surroundings (environment variables,
      the uuid and clock, [socket.bind], [subprocess.Popen], [psutil],
      [os.kill], [json.loads], the websocket peer) is an explicit input.
    - A coroutine is cut at its [await]s: each piece between two suspension
      points is one function on the shared state, so that other handlers may
      run in between. The thread that logs a browser's output is cut at its
      reads in the same way.
    - Durations are in milliseconds. *)

From Stdlib Require Import Ascii.
From stdpp Require Import gmap strings list pretty.

Open Scope Z_scope.

(** ** Exceptions *)

Inductive exn :=
  | OSError (what : string)
      (* OSError and its subclasses; IOError is an alias of OSError *)
  | HTTPException (status_code : Z) (detail : string)
  | TimeoutError
      (* asyncio.TimeoutError *)
  | CancelledError
      (* asyncio.CancelledError, a BaseException that is not an Exception *)
  | OtherException (what : string).
      (* every other subclass of Exception *)

(** [except Exception] catches everything but the cancellation error. *)
Definition is_Exception (e : exn) : bool :=
  match e with
  | CancelledError => false
  | _ => true
  end.

Definition is_TimeoutError (e : exn) : bool :=
  match e with
  | TimeoutError => true
  | _ => false
  end.

(** [str(e)], as the log lines interpolate it. *)
Definition exn_str (e : exn) : string :=
  match e with
  | OSError s => s
  | HTTPException c d => pretty c +:+ ": " +:+ d
  | TimeoutError => ""
  | CancelledError => ""
  | OtherException s => s
  end.

(** ** JSON values, as [json.loads] returns them *)

#[warnings="-register-all"]
Inductive json :=
  | JNull
  | JBool (b : bool)
  | JNum (n : Z)
  | JStr (s : string)
  | JArr (l : list json)
  | JObj (items : list (string * json)).

(** [d.get(key, default)] on the items of a dict. *)
Fixpoint dict_get (items : list (string * json)) (key : string) (dflt : json) : json :=
  match items with
  | [] => dflt
  | (k, v) :: rest => if decide (k = key) then v else dict_get rest key dflt
  end.

(** ** Log records and the operations the server awaits or fires *)

Inductive level := INFO | ERROR | WARNING.

Inductive call_site :=
  | VersionEndpoint     (* line 72: websockets.connect(cdp_url) *)
  | DebuggerEndpoint.   (* line 87: websockets.connect(webSocketDebuggerUrl) *)

Inductive action :=
  | ALog (lv : level) (msg : string)
  | AConnect (site : call_site) (url : string)
  | ARecv (timeout_ms : option Z)
  | ASend (payload : json)                  (* websocket.send(json.dumps(payload)) *)
  | ASleep (ms : Z)
  | AThread (target : string) (sid : string). (* threading.Thread(...).start() *)

(** ** The operating system, as far as the server looks at it *)

Inductive signal := SIGTERM | SIGKILL.

(** A child process: [returncode] is [None] while it runs; [pending] holds
    the catchable signals delivered to it and not yet acted upon; [pipe] is
    the part of its combined output that nobody has read yet. An entry stays
    in the table after the process has exited. *)
Record proc := Proc {
  returncode : option Z;
  pending : list signal;
  pipe : string;
}.

(** ** Inputs from the surroundings of one handler run *)

Record Env := {
  environ : gmap string string;            (* os.environ *)
  uuid4 : string;                          (* str(uuid.uuid4()) *)
  now_isoformat : string;                  (* datetime.now().isoformat() *)
  sock_bind : Z -> bool;                   (* s.bind on a port number: true, or OSError *)
  popen : list string -> exn + Z;          (* subprocess.Popen(cmd): the child's pid *)
  pid_exists_fault : Z -> option exn;      (* psutil.pid_exists raising *)
  kill_fault : Z -> signal -> option string; (* os.kill refused by the OS (EPERM, ...) *)
  json_loads : string -> exn + json;       (* json.loads *)
}.

(** [os.environ.get(key, default)] *)
Definition environ_get (env : Env) (key dflt : string) : string :=
  match environ env !! key with
  | Some v => v
  | None => dflt
  end.

(** ** find_free_port *)

(** [except OSError] *)
Definition is_OSError (e : exn) : bool :=
  match e with
  | OSError _ => true
  | _ => false
  end.

(** [s.bind(('', port))] on a fresh socket, which is taken to have been
    made: [None] when it binds. For a number that is no port, outside
    0..65535, it raises OverflowError; otherwise the surroundings decide
    between binding and OSError. *)
Definition socket_bind (bind : Z -> bool) (p : Z) : option exn :=
  if decide (0 <= p <= 65535) then
    if bind p then None else Some (OSError "[Errno 98] Address already in use")
  else Some (OtherException "OverflowError").

(** The [for port in range(start_port, end_port + 1)] loop, [n] candidates
    left, the next one being [p]: the port returned, or the error that is
    not an OSError and so leaves the loop; [None] when the range is used up. *)
Fixpoint scan_ports (bind : Z -> bool) (p : Z) (n : nat) : option (exn + Z) :=
  match n with
  | O => None
  | S n' =>
      match socket_bind bind p with
      | None => Some (inr p)
      | Some e => if is_OSError e then scan_ports bind (p + 1) n' else Some (inl e)
      end
  end.

Definition find_free_port_in (bind : Z -> bool) (start_port end_port : Z) : exn + Z :=
  match scan_ports bind start_port (Z.to_nat (end_port + 1 - start_port)) with
  | Some r => r
  | None =>
      inl (OSError ("No free ports in range " +:+ pretty start_port +:+ "-" +:+ pretty end_port))
  end.

(** The defaults of the keyword arguments. *)
Definition find_free_port (bind : Z -> bool) : exn + Z :=
  find_free_port_in bind 9222 9322.

(** ** The shared state of the server *)

(** The object [subprocess.Popen] returns. [stdout] is the read end of the
    child's output pipe; with [stdout=subprocess.PIPE] it is always there. *)
Record Popen := {
  pid : Z;
  stdout : option Z;   (* the pipe of the process with that pid *)
}.

Record BrowserSession := {
  session_id : string;
  process : Popen;
  port : Z;
  created_at : string;
  events : nat;        (* address of the list object made by [self.events = []] *)
}.

(** A task made by [asyncio.create_task(monitor_browser_session(sid, port))]. *)
Record Task := {
  task_session_id : string;
  task_port : Z;
  cancel_requested : bool;
}.

Record World := {
  browser_sessions : gmap string BrowserSession;
  monitoring_tasks : gmap string nat;      (* session id to task handle *)
  buffers : list (list json);              (* the event list objects, by address *)
  tasks : list Task;                       (* the tasks, by handle *)
  procs : gmap Z proc;                     (* the process table, by pid *)
}.

Definition set_browser_sessions (f : gmap string BrowserSession -> gmap string BrowserSession)
    (w : World) : World :=
  {| browser_sessions := f (browser_sessions w); monitoring_tasks := monitoring_tasks w;
     buffers := buffers w; tasks := tasks w; procs := procs w |}.

Definition set_monitoring_tasks (f : gmap string nat -> gmap string nat) (w : World) : World :=
  {| browser_sessions := browser_sessions w; monitoring_tasks := f (monitoring_tasks w);
     buffers := buffers w; tasks := tasks w; procs := procs w |}.

Definition set_buffers (f : list (list json) -> list (list json)) (w : World) : World :=
  {| browser_sessions := browser_sessions w; monitoring_tasks := monitoring_tasks w;
     buffers := f (buffers w); tasks := tasks w; procs := procs w |}.

Definition set_tasks (f : list Task -> list Task) (w : World) : World :=
  {| browser_sessions := browser_sessions w; monitoring_tasks := monitoring_tasks w;
     buffers := buffers w; tasks := f (tasks w); procs := procs w |}.

Definition set_procs (f : gmap Z proc -> gmap Z proc) (w : World) : World :=
  {| browser_sessions := browser_sessions w; monitoring_tasks := monitoring_tasks w;
     buffers := buffers w; tasks := tasks w; procs := f (procs w) |}.

(** The server right after import: both dicts empty. *)
Definition initial_world : World :=
  {| browser_sessions := ∅; monitoring_tasks := ∅; buffers := []; tasks := []; procs := ∅ |}.

(** A process is alive while it has no return code. *)
Definition alive (w : World) (p : Z) : bool :=
  match procs w !! p with
  | Some pr => bool_decide (returncode pr = None)
  | None => false
  end.

(** ** Process primitives *)

(** [process.poll()]: the return code, [None] while the child runs. A child
    the table does not know has been collected already; [poll] answers 0. *)
Definition poll (w : World) (pr : Popen) : option Z :=
  match procs w !! pid pr with
  | Some p => returncode p
  | None => Some 0
  end.

(** [process.stdout.read()]: everything left in the pipe, which it empties. *)
Definition stdout_read (w : World) (fd : Z) : World * string :=
  match procs w !! fd with
  | Some p =>
      (set_procs <[fd := Proc (returncode p) (pending p) ""]> w, pipe p)
  | None => (w, "")
  end.

(** [psutil.pid_exists(pid)]: zombies count as existing. *)
Definition psutil_pid_exists (env : Env) (w : World) (p : Z) : exn + bool :=
  match pid_exists_fault env p with
  | Some e => inl e
  | None => inr (bool_decide (is_Some (procs w !! p)))
  end.

(** [is_process_running]: the bare [except] turns any error into [False]. *)
Definition is_process_running (env : Env) (w : World) (p : Z) : bool :=
  match psutil_pid_exists env w p with
  | inr b => b
  | inl _ => false
  end.

(** What a delivered signal does: SIGKILL ends a running process at once,
    SIGTERM is left for the process to act upon. *)
Definition deliver (sig : signal) (p : proc) : proc :=
  match sig, returncode p with
  | SIGKILL, None => Proc (Some (-9)) (pending p) (pipe p)
  | SIGTERM, None => Proc None (pending p ++ [SIGTERM]) (pipe p)
  | _, Some _ => p
  end.

(** [os.kill(pid, sig)]: raises when the OS refuses it or knows no such
    process, and delivers the signal otherwise. *)
Definition os_kill (env : Env) (p : Z) (sig : signal) (w : World) : exn + World :=
  match kill_fault env p sig with
  | Some what => inl (OSError what)
  | None =>
      match procs w !! p with
      | None => inl (OSError "No such process")
      | Some pr => inr (set_procs <[p := deliver sig pr]> w)
      end
  end.

(** ** Request and response models *)

Record SessionRequest := {
  user_id : option string;
}.

Module SessionResponse.
Record t := {
  session_id : string;
  cdp_url : string;
  created_at : string;
}.
End SessionResponse.

Module SessionInfo.
Record t := {
  session_id : string;
  created_at : string;
  cdp_url : string;
  alive : bool;
}.
End SessionInfo.

Module Status.
Record t := {
  status : string;
  message : string;
}.
End Status.

(** ** create_session *)

(** The command line handed to [subprocess.Popen]. *)
Definition chrome_cmd (env : Env) (port : Z) : list string :=
  [ environ_get env "CHROME_BIN" "google-chrome";
    "--remote-debugging-port=" +:+ pretty port;
    "--remote-debugging-address=0.0.0.0";
    "--disable-gpu";
    "--headless";
    "--no-sandbox";
    "--disable-setuid-sandbox";
    "--disable-dev-shm-usage" ].

(** The locals that live across [await asyncio.sleep(1)]. *)
Record create_frame := {
  local_session_id : string;
  local_port : Z;
  local_process : Popen;
}.

(** Lines 109-142: up to the settle delay. A started child enters the process
    table running, with nothing written yet. [AThread] is the start of the
    thread that runs [log_output] on the child's pipe, [log_output_step]
    below; from here on it runs beside the handler. *)
Definition create_session_begin (env : Env) (request : SessionRequest) (w : World)
    : World * (exn + create_frame) * list action :=
  let sid := uuid4 env in
  match find_free_port (sock_bind env) with
  | inl e => (w, inl e, [])
  | inr port =>
      match popen env (chrome_cmd env port) with
      | inl e =>
          if is_Exception e then
            (w, inl (HTTPException 500 "Failed to start browser"),
             [ALog ERROR ("Failed to start Chrome: " +:+ exn_str e)])
          else (w, inl e, [])
      | inr child =>
          let process := {| pid := child; stdout := Some child |} in
          (set_procs <[child := Proc None [] ""]> w,
           inr {| local_session_id := sid; local_port := port; local_process := process |},
           [AThread "log_output" sid; ASleep 1000])
      end
  end.

Definition cancel (handle : nat) (w : World) : World :=
  set_tasks (alter (fun t => {| task_session_id := task_session_id t;
                                task_port := task_port t;
                                cancel_requested := true |}) handle) w.

(** Lines 143-163: after the settle delay, on the state found then. *)
Definition create_session_resume (env : Env) (fr : create_frame) (w : World)
    : World * (exn + SessionResponse.t) * list action :=
  let sid := local_session_id fr in
  let process := local_process fr in
  match poll w process with
  | Some _ =>
      let '(w', output) :=
        match stdout process with
        | Some fd => stdout_read w fd
        | None => (w, "Process exited immediately")
        end in
      (w', inl (HTTPException 500 output), [ALog ERROR ("Browser process failed: " +:+ output)])
  | None =>
      let session :=
        {| session_id := sid; process := process; port := local_port fr;
           created_at := now_isoformat env; events := length (buffers w) |} in
      let w1 := set_buffers (fun b => b ++ [[]]) w in
      let w2 := set_browser_sessions <[sid := session]> w1 in
      let handle := length (tasks w2) in
      let w3 := set_tasks (fun t => t ++ [{| task_session_id := sid;
                                             task_port := local_port fr;
                                             cancel_requested := false |}]) w2 in
      let w4 := set_monitoring_tasks <[sid := handle]> w3 in
      let cdp_host := environ_get env "CDP_HOST" "host.docker.internal" in
      let cdp_url := "ws://" +:+ cdp_host +:+ ":" +:+ pretty (local_port fr) in
      match browser_sessions w4 !! sid with
      | Some s =>
          (w4, inr {| SessionResponse.session_id := sid;
                      SessionResponse.cdp_url := cdp_url;
                      SessionResponse.created_at := created_at s |}, [])
      | None => (w4, inl (OtherException "KeyError"), [])
      end
  end.

(** The whole call, [settle] standing for what the OS, the logging thread
    and the other handlers and tasks did to the shared state during the
    settle delay. *)
Definition create_session (env env' : Env) (request : SessionRequest)
    (settle : World -> World) (w : World) : World * (exn + SessionResponse.t) * list action :=
  match create_session_begin env request w with
  | (w1, inl e, a) => (w1, inl e, a)
  | (w1, inr fr, a) =>
      let '(w2, r, a') := create_session_resume env' fr (settle w1) in (w2, r, a ++ a')
  end.

(** ** log_output *)

(** The characters of a [string] are the code points below 256. Of these
    [str.isspace] holds for 9 to 13, 28 to 32, 133 and 160. *)
Definition isspace (c : ascii) : bool :=
  let n := nat_of_ascii c in
  ((9 <=? n) && (n <=? 13) || (28 <=? n) && (n <=? 32) || (n =? 133) || (n =? 160))%nat.

Fixpoint lstrip (s : string) : string :=
  match s with
  | EmptyString => EmptyString
  | String c s' => if isspace c then lstrip s' else s
  end.

Fixpoint rstrip (s : string) : string :=
  match s with
  | EmptyString => EmptyString
  | String c s' =>
      match rstrip s' with
      | EmptyString => if isspace c then EmptyString else String c EmptyString
      | t => String c t
      end
  end.

(** [line.strip()] *)
Definition py_strip (s : string) : string := rstrip (lstrip s).

Definition line_feed : ascii := ascii_of_nat 10.

Fixpoint has_line (s : string) : bool :=
  match s with
  | EmptyString => false
  | String c s' => Ascii.eqb c line_feed || has_line s'
  end.

(** The first line of a text, its line feed included, and what follows it. *)
Fixpoint split_line (s : string) : string * string :=
  match s with
  | EmptyString => (EmptyString, EmptyString)
  | String c s' =>
      if Ascii.eqb c line_feed then (String c EmptyString, s')
      else let '(l, r) := split_line s' in (String c l, r)
  end.

(** [process.stdout.readline()]: the next line of the pipe, taken out of it.
    Once the child has exited the pipe is at its end: what is left comes as
    the last line, and after that the empty string. While the child runs and
    no whole line is there the call blocks, [None]. *)
Definition stdout_readline (w : World) (fd : Z) : option (World * string) :=
  match procs w !! fd with
  | Some p =>
      if has_line (pipe p) || bool_decide (returncode p <> None) then
        let '(l, r) := split_line (pipe p) in
        Some (set_procs <[fd := Proc (returncode p) (pending p) r]> w, l)
      else None
  | None => Some (w, EmptyString)
  end.

Inductive thread_pc :=
  | Reading                 (* in the loop, at [readline] *)
  | ThreadReturned
  | ThreadRaised (e : exn).

(** Lines 56-62, one turn of [for line in iter(process.stdout.readline, '')]:
    [fault] is an error the read raises. The thread reads the same file
    object as the handler that started it. *)
Definition log_output_step (session_id : string) (process : Popen) (fault : option exn)
    (w : World) : World * thread_pc * list action :=
  let failed (what : string) :=
    [ALog ERROR ("Error logging output for " +:+ session_id +:+ ": " +:+ what)] in
  match stdout process with
  | None => (w, ThreadReturned, failed "'NoneType' object has no attribute 'readline'")
  | Some fd =>
      match fault with
      | Some e =>
          if is_Exception e then (w, ThreadReturned, failed (exn_str e))
          else (w, ThreadRaised e, [])
      | None =>
          match stdout_readline w fd with
          | None => (w, Reading, [])
          | Some (w', EmptyString) => (w', ThreadReturned, [])
          | Some (w', line) =>
              (w', Reading,
               [ALog INFO ("Chrome session " +:+ session_id +:+ ": " +:+ py_strip line)])
          end
      end
  end.

(** The thread left to itself for [n] turns, no read failing. *)
Fixpoint log_output_run (n : nat) (session_id : string) (process : Popen) (w : World)
    : World * thread_pc * list action :=
  match n with
  | O => (w, Reading, [])
  | S n' =>
      match log_output_step session_id process None w with
      | (w', Reading, a) =>
          let '(w'', pc, a') := log_output_run n' session_id process w' in (w'', pc, a ++ a')
      | r => r
      end
  end.

(** The child with pid [child] having printed [out] and exited with [rc]. *)
Definition child_exited (child : Z) (out : string) (rc : Z) (w : World) : World :=
  set_procs <[child := Proc (Some rc) [] out]> w.

(** A browser that cannot start: what it prints before it exits with 127. *)
Definition missing_library : string :=
  "google-chrome: error while loading shared libraries: libnss3.so: cannot open shared object file"
    +:+ String line_feed EmptyString.

(** ** get_session *)

Definition get_session (env : Env) (sid : string) (w : World) : exn + SessionInfo.t :=
  match browser_sessions w !! sid with
  | None => inl (HTTPException 404 "Session not found")
  | Some session =>
      inr {| SessionInfo.session_id := session_id session;
             SessionInfo.created_at := created_at session;
             SessionInfo.cdp_url :=
               "ws://" +:+ environ_get env "CDP_HOST" "host.docker.internal" +:+ ":"
                 +:+ pretty (port session);
             SessionInfo.alive := is_process_running env w (pid (process session)) |}
  end.

(** ** delete_session *)

(** Lines 187-192: signal the process if it is there; an [Exception] is
    logged and dropped, anything else leaves the handler. *)
Definition try_kill (env : Env) (sig : signal) (p : Z) (on_ok : list action)
    (on_error : exn -> list action) (w : World) : World * option exn * list action :=
  if is_process_running env w p then
    match os_kill env p sig w with
    | inr w' => (w', None, on_ok)
    | inl e => if is_Exception e then (w, None, on_error e) else (w, Some e, [])
    end
  else (w, None, []).

Definition delete_session (env : Env) (sid : string) (w : World)
    : World * (exn + Status.t) * list action :=
  match browser_sessions w !! sid with
  | None => (w, inl (HTTPException 404 "Session not found"), [])
  | Some session =>
      let p := pid (process session) in
      match try_kill env SIGTERM p
              [ALog INFO ("Terminated process " +:+ pretty p)]
              (fun e => [ALog ERROR ("Error terminating process: " +:+ exn_str e)]) w with
      | (w1, Some e, log) => (w1, inl e, log)
      | (w1, None, log) =>
          let w2 :=
            match monitoring_tasks w1 !! sid with
            | Some handle => set_monitoring_tasks (delete sid) (cancel handle w1)
            | None => w1
            end in
          let w3 := set_browser_sessions (delete sid) w2 in
          (w3, inr {| Status.status := "success";
                      Status.message := "Session " +:+ sid +:+ " terminated" |}, log)
      end
  end.

(** ** shutdown_event *)

(** One turn of the loop over [list(browser_sessions.items())]. *)
Definition shutdown_one (env : Env) (st : World * option exn * list action)
    (item : string * BrowserSession) : World * option exn * list action :=
  match st with
  | (w, Some e, log) => (w, Some e, log)
  | (w, None, log) =>
      let p := pid (process item.2) in
      match try_kill env SIGKILL p []
              (fun e => [ALog ERROR ("Error killing process " +:+ pretty p +:+ ": " +:+ exn_str e)])
              w with
      | (w1, Some e, log1) => (w1, Some e, log ++ log1)
      | (w1, None, log1) =>
          let w2 :=
            match monitoring_tasks w1 !! item.1 with
            | Some handle => cancel handle w1
            | None => w1
            end in
          (w2, None, log ++ log1)
      end
  end.

Definition shutdown_event (env : Env) (w : World) : World * option exn * list action :=
  match foldl (shutdown_one env) (w, None, []) (map_to_list (browser_sessions w)) with
  | (w1, Some e, log) => (w1, Some e, log)
  | (w1, None, log) =>
      (set_monitoring_tasks (fun _ => ∅) (set_browser_sessions (fun _ => ∅) w1), None, log)
  end.

(** ** str.replace *)

Fixpoint starts_with (pre s : string) : bool :=
  match pre, s with
  | EmptyString, _ => true
  | String a pre', String b s' => if decide (a = b) then starts_with pre' s' else false
  | String _ _, EmptyString => false
  end.

(** The left-to-right scan of [s.replace(old, new)] for a non-empty [old]:
    [skip] characters of a match just replaced are still to be passed over;
    the text put in is not scanned again. *)
Fixpoint replace_go (old new : string) (skip : nat) (s : string) : string :=
  match s with
  | EmptyString => EmptyString
  | String c s' =>
      match skip with
      | S k => replace_go old new k s'
      | O =>
          if starts_with old s
          then new +:+ replace_go old new (Nat.pred (String.length old)) s'
          else String c (replace_go old new O s')
      end
  end.

Definition str_replace (s old new : string) : string := replace_go old new O s.

(** ** monitor_browser_session *)

(** Lines 81-84: parse the answer of the version endpoint and put the
    configured host in place of the text [localhost]. [.get] needs a dict and
    [.replace] a string; anything else is an AttributeError. *)
Definition debugger_url (env : Env) (browser_info_response : string) : exn + string :=
  let cdp_host := environ_get env "CDP_HOST" "host.docker.internal" in
  match json_loads env browser_info_response with
  | inl e => inl e
  | inr (JObj items) =>
      match dict_get items "webSocketDebuggerUrl" (JStr "") with
      | JStr url => inr (str_replace url "localhost" cdp_host)
      | _ => inl (OtherException "AttributeError")
      end
  | inr _ => inl (OtherException "AttributeError")
  end.

(** How the coroutine ended. *)
Inductive outcome :=
  | Returned
  | Raised (e : exn).

(** Where the coroutine is suspended. *)
Inductive relay_pc :=
  | AwaitVersionConnect (i : nat)   (* line 72, turn [i] of [range(20)] *)
  | AwaitVersionRecv (i : nat)      (* line 73 *)
  | AwaitBackoff (i : nat)          (* line 76 *)
  | AwaitDebuggerConnect            (* line 87 *)
  | AwaitSend (rest : list json)    (* lines 88-90, [rest] still to send *)
  | AwaitRecv                       (* line 94 *)
  | Done (r : outcome).

Definition attempts : nat := 20.
Definition backoff_ms : Z := 500.
Definition recv_timeout_ms : Z := 1000.

Definition version_url (port : Z) : string :=
  "ws://localhost:" +:+ pretty port +:+ "/json/version".

Definition enable_commands : list json :=
  [ JObj [("id", JNum 1); ("method", JStr "Network.enable")];
    JObj [("id", JNum 2); ("method", JStr "Page.enable")];
    JObj [("id", JNum 3); ("method", JStr "Runtime.enable")] ].

(** Head of the [for _ in range(20)] loop at turn [i]; its [else] branch
    runs when the range is used up. *)
Definition discovery_turn (port : Z) (i : nat) : relay_pc * list action :=
  if decide (i < attempts)%nat
  then (AwaitVersionConnect i, [AConnect VersionEndpoint (version_url port)])
  else (Done Returned,
        [ALog ERROR ("Could not connect to browser on port " +:+ pretty port)]).

(** Line 75: a failed attempt sleeps, unless the error is no [Exception]. *)
Definition discovery_failed (i : nat) (e : exn) : relay_pc * list action :=
  if is_Exception e then (AwaitBackoff i, [ASleep backoff_ms]) else (Done (Raised e), []).

(** Line 103: the handler around the debugger connection. *)
Definition cdp_failed (e : exn) : relay_pc * list action :=
  if is_Exception e
  then (Done Returned, [ALog ERROR ("Failed to connect to CDP: " +:+ exn_str e)])
  else (Done (Raised e), []).

(** Head of [while session_id in browser_sessions]. *)
Definition drain_turn (sid : string) (w : World) : relay_pc * list action :=
  match browser_sessions w !! sid with
  | Some _ => (AwaitRecv, [ARecv (Some recv_timeout_ms)])
  | None => (Done Returned, [])
  end.

(** Lines 98-102: the handlers inside the drain loop. *)
Definition drain_failed (sid : string) (e : exn) (w : World) : relay_pc * list action :=
  if is_TimeoutError e then drain_turn sid w
  else if is_Exception e
  then (Done Returned, [ALog ERROR ("Error monitoring session " +:+ sid +:+ ": " +:+ exn_str e)])
  else (Done (Raised e), []).

(** Lines 96-97: [browser_sessions[session_id].events.append(event)] behind
    its membership test. *)
Definition append_event (sid : string) (event : json) (w : World) : World :=
  match browser_sessions w !! sid with
  | Some session => set_buffers (alter (fun evs => evs ++ [event]) (events session)) w
  | None => w
  end.

(** The coroutine's first piece: it runs to the first [await]. *)
Definition monitor_start (port : Z) : relay_pc * list action :=
  discovery_turn port O.

(** One piece of the coroutine: it is resumed at [pc] with the result [r] of
    what it awaited (a value or a raised exception), runs on the shared state
    as it is then, and stops at its next [await] or at its end. *)
Definition monitor_step (env : Env) (sid : string) (port : Z)
    (pc : relay_pc) (r : exn + string) (w : World) : relay_pc * World * list action :=
  match pc, r with
  | AwaitVersionConnect i, inr _ => (AwaitVersionRecv i, w, [ARecv None])
  | AwaitVersionConnect i, inl e => let '(pc', a) := discovery_failed i e in (pc', w, a)
  | AwaitVersionRecv i, inr browser_info_response =>
      match debugger_url env browser_info_response with
      | inl e => (Done (Raised e), w, [])
      | inr url => (AwaitDebuggerConnect, w, [AConnect DebuggerEndpoint url])
      end
  | AwaitVersionRecv i, inl e => let '(pc', a) := discovery_failed i e in (pc', w, a)
  | AwaitBackoff i, inr _ => let '(pc', a) := discovery_turn port (S i) in (pc', w, a)
  | AwaitBackoff i, inl e => (Done (Raised e), w, [])
  | AwaitDebuggerConnect, inr _ =>
      match enable_commands with
      | c :: rest => (AwaitSend rest, w, [ASend c])
      | [] => let '(pc', a) := drain_turn sid w in (pc', w, a)
      end
  | AwaitDebuggerConnect, inl e => let '(pc', a) := cdp_failed e in (pc', w, a)
  | AwaitSend (c :: rest), inr _ => (AwaitSend rest, w, [ASend c])
  | AwaitSend [], inr _ => let '(pc', a) := drain_turn sid w in (pc', w, a)
  | AwaitSend _, inl e => let '(pc', a) := cdp_failed e in (pc', w, a)
  | AwaitRecv, inr message =>
      match json_loads env message with
      | inr event =>
          let w' := append_event sid event w in
          let '(pc', a) := drain_turn sid w' in (pc', w', a)
      | inl e => let '(pc', a) := drain_failed sid e w in (pc', w, a)
      end
  | AwaitRecv, inl e => let '(pc', a) := drain_failed sid e w in (pc', w, a)
  | Done o, _ => (Done o, w, [])
  end.

(** The coroutine run on its own: the results of its awaits come from [rs],
    nothing else touches the state in between. *)
Fixpoint monitor_run (env : Env) (sid : string) (port : Z) (rs : list (exn + string))
    (pc : relay_pc) (w : World) : relay_pc * World * list action :=
  match rs with
  | [] => (pc, w, [])
  | r :: rs' =>
      let '(pc1, w1, a1) := monitor_step env sid port pc r w in
      let '(pc2, w2, a2) := monitor_run env sid port rs' pc1 w1 in
      (pc2, w2, a1 ++ a2)
  end.

Definition monitor_browser_session (env : Env) (sid : string) (port : Z)
    (rs : list (exn + string)) (w : World) : relay_pc * World * list action :=
  let '(pc0, a0) := monitor_start port in
  let '(pc, w', a) := monitor_run env sid port rs pc0 w in
  (pc, w', a0 ++ a).

(** ** The HTTP surface *)

(** A path operation as its decorator declares it. *)
Record route := {
  http_method : string;
  path : string;
  status_code : option Z;   (* the decorator's [status_code=] argument *)
}.

(** [@app.post("/sessions", response_model=SessionResponse)] *)
Definition create_session_route : route :=
  {| http_method := "POST"; path := "/sessions"; status_code := None |}.

Definition SessionResponse_json (r : SessionResponse.t) : json :=
  JObj [ ("session_id", JStr (SessionResponse.session_id r));
         ("cdp_url", JStr (SessionResponse.cdp_url r));
         ("created_at", JStr (SessionResponse.created_at r)) ].

(** What FastAPI answers for a handler's result: a returned value goes out
    with the declared status, 200 when the decorator declares none; an
    [HTTPException] with its own status and detail; any other exception as
    500. *)
Definition http_answer (rt : route) (result : exn + SessionResponse.t) : Z * json :=
  match result with
  | inr r => (match status_code rt with Some c => c | None => 200 end, SessionResponse_json r)
  | inl (HTTPException c d) => (c, JObj [("detail", JStr d)])
  | inl _ => (500, JStr "Internal Server Error")
  end.

(** ** client.py: BrowserClient.create_session *)

Record BrowserClient := {
  api_url : string;
  client_session_id : option json;
  client_cdp_url : option json;
}.

(** [data[key]] on the items of a dict; [None] stands for KeyError. *)
Fixpoint dict_item (items : list (string * json)) (key : string) : option json :=
  match items with
  | [] => None
  | (k, v) :: rest => if decide (k = key) then Some v else dict_item rest key
  end.

(** An error that [except Exception] catches. *)
Definition caught : Type := { e : exn | is_Exception e = true }.

(** An error at a handler [except Exception]: it passes, [inl], or is
    caught, [inr]. *)
Definition except_Exception (e : exn) : exn + caught :=
  match is_Exception e as b return is_Exception e = b -> exn + caught with
  | true => fun H => inr (exist _ e H)
  | false => fun _ => inl e
  end eq_refl.

(** Lines 22-42, on what the call meets and returns from: the answer to the
    POST, or an error that line 40 catches ([inl]). An error that line 40
    does not catch leaves the call; [create_answer] and [main] below deal with
    it. The result is the client afterwards and the returned flag. *)
Definition BrowserClient_create_session (self : BrowserClient) (answer : caught + Z * json)
    : BrowserClient * bool :=
  match answer with
  | inl _ => (self, false)
  | inr (status, data) =>
      if decide (status <> 201) then (self, false)
      else
        match data with
        | JObj items =>
            match dict_item items "session_id" with
            | None => (self, false)
            | Some sid =>
                let self1 := {| api_url := api_url self; client_session_id := Some sid;
                                client_cdp_url := client_cdp_url self |} in
                match dict_item items "cdp_url" with
                | None => (self1, false)
                | Some url =>
                    ({| api_url := api_url self1; client_session_id := client_session_id self1;
                        client_cdp_url := Some url |}, true)
                end
            end
        | _ => (self, false)
        end
  end.

(** ** A concrete run, used to exercise the statements below *)

Definition demo_env : Env :=
  {| environ := ∅;
     uuid4 := "9f1c";
     now_isoformat := "2025-01-01T00:00:00";
     sock_bind := fun _ => true;
     popen := fun _ => inr 4242;
     pid_exists_fault := fun _ => None;
     kill_fault := fun _ _ => None;
     json_loads := fun s => inr (JStr s) |}.

Definition demo_request : SessionRequest := {| user_id := Some "demo-user" |}.

Definition demo_client : BrowserClient :=
  {| api_url := "http://localhost:8000"; client_session_id := None; client_cdp_url := None |}.

(** ** Reading a websocket URL *)

Fixpoint strip_prefix (pre s : string) : option string :=
  match pre, s with
  | EmptyString, _ => Some s
  | String a pre', String b s' => if decide (a = b) then strip_prefix pre' s' else None
  | String _ _, EmptyString => None
  end.

(** The host ends at the first of [:], [/], [?] and [#]. *)
Definition ends_host (c : ascii) : bool :=
  bool_decide (c = ":"%char \/ c = "/"%char \/ c = "?"%char \/ c = "#"%char).

Fixpoint split_host (s : string) : string * string :=
  match s with
  | EmptyString => (EmptyString, EmptyString)
  | String c s' =>
      if ends_host c then (EmptyString, s)
      else let '(h, rest) := split_host s' in (String c h, rest)
  end.

(** A [ws://host...] URL as its host component and what follows it. *)
Definition ws_url_split (url : string) : option (string * string) :=
  match strip_prefix "ws://" url with
  | Some s => Some (split_host s)
  | None => None
  end.

(** Whether [old] occurs somewhere in [s]. *)
Fixpoint occurs (old s : string) : bool :=
  match s with
  | EmptyString => starts_with old EmptyString
  | String _ s' => starts_with old s || occurs old s'
  end.

(** [sep.join(pieces)] *)
Fixpoint join (sep : string) (pieces : list string) : string :=
  match pieces with
  | [] => EmptyString
  | [p] => p
  | p :: ps => p +:+ sep +:+ join sep ps
  end.

(** ** The server as a transition system *)

(** What can happen next on the shared state: a piece of a handler or of a
    monitoring task, or a change of the process table (children writing
    output or exiting, a logging thread taking lines out of a pipe, ...). *)
Inductive op :=
  | OpCreateBegin (env : Env) (request : SessionRequest)
  | OpCreateResume (env : Env) (fr : create_frame)
  | OpDelete (env : Env) (sid : string)
  | OpShutdown (env : Env)
  | OpMonitor (env : Env) (sid : string) (port : Z) (pc : relay_pc) (r : exn + string)
  | OpOS (f : gmap Z proc -> gmap Z proc).

Definition apply_op (o : op) (w : World) : World :=
  match o with
  | OpCreateBegin env request => (create_session_begin env request w).1.1
  | OpCreateResume env fr => (create_session_resume env fr w).1.1
  | OpDelete env sid => (delete_session env sid w).1.1
  | OpShutdown env => (shutdown_event env w).1.1
  | OpMonitor env sid port pc r => (monitor_step env sid port pc r w).1.2
  | OpOS f => set_procs f w
  end.

Definition run (ops : list op) (w : World) : World := foldl (fun w o => apply_op o w) w ops.




(** No registered session owns the list object at [addr]. *)
Definition detached (addr : nat) (w : World) : Prop :=
  forall sid s, browser_sessions w !! sid = Some s -> events s <> addr.

(** Every registered session owns a list object of its own. *)
Definition buffers_owned (w : World) : Prop :=
  (forall sid s, browser_sessions w !! sid = Some s -> (events s < length (buffers w))%nat) /\
  (forall sid1 sid2 s1 s2,
     browser_sessions w !! sid1 = Some s1 ->
     browser_sessions w !! sid2 = Some s2 ->
     sid1 <> sid2 -> events s1 <> events s2).

(** ** Reading a trace of the monitoring task *)

(** The connection attempts made to the version endpoint. *)
Fixpoint connect_attempts (tr : list action) : nat :=
  match tr with
  | [] => O
  | AConnect VersionEndpoint _ :: tr' => S (connect_attempts tr')
  | _ :: tr' => connect_attempts tr'
  end.

(** The sleeps taken, each with its duration. *)
Fixpoint sleeps (tr : list action) : list Z :=
  match tr with
  | [] => []
  | ASleep ms :: tr' => ms :: sleeps tr'
  | _ :: tr' => sleeps tr'
  end.

Definition slept_ms (tr : list action) : Z := foldr Z.add 0 (sleeps tr).

(** How one discovery attempt fails: at the connect, or at the receive that
    follows a connect. *)
Inductive attempt_failure :=
  | ConnectFails (e : exn)
  | RecvFails (e : exn).

Definition failure_exn (f : attempt_failure) : exn :=
  match f with
  | ConnectFails e => e
  | RecvFails e => e
  end.

(** What the task is resumed with over one failed attempt; the last entry is
    the sleep coming to its end. *)
Definition failure_responses (f : attempt_failure) : list (exn + string) :=
  match f with
  | ConnectFails e => [inl e; inr ""]
  | RecvFails e => [inr ""; inl e; inr ""]
  end.

(** The turn counter of a suspended discovery stays inside [range(20)]. *)
Definition pc_in_range (pc : relay_pc) : Prop :=
  match pc with
  | AwaitVersionConnect i | AwaitVersionRecv i | AwaitBackoff i => (i < attempts)%nat
  | _ => True
  end.

(** The OS right after the settle delay, the child having printed and died. *)
Definition child_died (out : string) (rc : Z) (w : World) : World :=
  set_procs (fun t => (fun p => Proc (Some rc) (pending p) out) <$> t) w.

(** Connection attempts and sleeps a suspended discovery can still make. *)
Definition connects_left (pc : relay_pc) : nat :=
  match pc with
  | AwaitVersionConnect i | AwaitVersionRecv i | AwaitBackoff i => attempts - S i
  | _ => O
  end.

Definition sleeps_left (pc : relay_pc) : nat :=
  match pc with
  | AwaitVersionConnect i | AwaitVersionRecv i => attempts - i
  | AwaitBackoff i => attempts - S i
  | _ => O
  end.

(** A browser whose version endpoint advertises [url]. *)
Definition advertising_env (url : string) : Env :=
  {| environ := ∅;
     uuid4 := "9f1c";
     now_isoformat := "2025-01-01T00:00:00";
     sock_bind := fun _ => true;
     popen := fun _ => inr 4242;
     pid_exists_fault := fun _ => None;
     kill_fault := fun _ _ => None;
     json_loads := fun _ =>
       inr (JObj [("Browser", JStr "HeadlessChrome/120.0.0.0");
                  ("webSocketDebuggerUrl", JStr url)]) |}.

(** The host component of the advertised [url] is replaced by the configured
    host and nothing else changes, in the URL the task connects to. *)
Definition host_rewritten (env : Env) (url : string) : Prop :=
  forall response items host rest,
    json_loads env response = inr (JObj items) ->
    dict_get items "webSocketDebuggerUrl" (JStr "") = JStr url ->
    ws_url_split url = Some (host, rest) ->
    debugger_url env response =
      inr ("ws://" +:+ environ_get env "CDP_HOST" "host.docker.internal" +:+ rest).

(** An OS that refuses every signal: [os.kill] raises PermissionError. *)
Definition refusing_env : Env :=
  {| environ := ∅;
     uuid4 := "9f1c";
     now_isoformat := "2025-01-01T00:00:00";
     sock_bind := fun _ => true;
     popen := fun _ => inr 4242;
     pid_exists_fault := fun _ => None;
     kill_fault := fun _ _ => Some "[Errno 1] Operation not permitted";
     json_loads := fun s => inr (JStr s) |}.

(** The server with one session, created by the concrete run above. *)
Definition one_session : World :=
  (create_session demo_env demo_env demo_request id initial_world).1.1.

(** After [shutdown_event] both dicts are empty and no process that a
    registered session tracked is alive. *)
Definition shutdown_kills_all (env : Env) (w : World) : Prop :=
  let w' := (shutdown_event env w).1.1 in
  browser_sessions w' = ∅ /\ monitoring_tasks w' = ∅ /\
  forall sid s, browser_sessions w !! sid = Some s -> alive w' (pid (process s)) = false.


Definition first_frame : create_frame :=
  {| local_session_id := "9f1c"; local_port := 9222;
     local_process := {| pid := 4242; stdout := Some 4242 |} |}.


(** A later caller, for whom the first browser holds port 9222: the bind is
    refused there and succeeds from 9223 on. *)
Definition later_env : Env :=
  {| environ := ∅;
     uuid4 := "7c2e";
     now_isoformat := "2025-01-01T00:00:05";
     sock_bind := fun p => bool_decide (p <> 9222);
     popen := fun _ => inr 4243;
     pid_exists_fault := fun _ => None;
     kill_fault := fun _ _ => None;
     json_loads := fun s => inr (JStr s) |}.

Definition later_frame : create_frame :=
  {| local_session_id := "7c2e"; local_port := 9223;
     local_process := {| pid := 4243; stdout := Some 4243 |} |}.


(** From one list of tasks to a later one: the same tasks for the same
    sessions and ports, a requested cancellation staying requested. *)
Definition tasks_advance (ts ts' : list Task) : Prop :=
  length ts' = length ts /\
  forall h t, ts !! h = Some t ->
    exists t', ts' !! h = Some t' /\
      task_session_id t' = task_session_id t /\ task_port t' = task_port t /\
      (cancel_requested t = true -> cancel_requested t' = true).

(** The two dicts go together: an id is in the registry exactly when it is
    in the task map, the session found under an id carries that id, and the
    task found through the task map is one for that id and the session's
    port. *)
Definition tasks_match (w : World) : Prop :=
  forall sid,
    (is_Some (browser_sessions w !! sid) <-> is_Some (monitoring_tasks w !! sid)) /\
    forall s h,
      browser_sessions w !! sid = Some s -> monitoring_tasks w !! sid = Some h ->
      session_id s = sid /\
      exists t, tasks w !! h = Some t /\ task_session_id t = sid /\ task_port t = port s.

(** ** server.py: the routes it declares *)

(** A path template of a route decorator: a fixed path, or a fixed prefix
    followed by one path parameter, which is all [server.py] uses. *)
Inductive template :=
  | Fixed (p : string)
  | WithParam (before : string) (name : string).

(** The declared path operations, in the order of the file. *)
Definition server_routes : list (string * template) :=
  [ ("POST", Fixed "/sessions");
    ("GET", WithParam "/sessions/" "session_id");
    ("DELETE", WithParam "/sessions/" "session_id") ].

Definition newline : string := String (ascii_of_nat 10) EmptyString.

(** Whether a request path matches a template, and with which parameter.
    The framework anchors the template at both ends, lets a parameter stand
    for one or more characters other than [/], and lets the end of a fixed
    path also fall before one final line feed. *)
Definition template_matches (t : template) (request_path : string)
    : option (list (string * string)) :=
  match t with
  | Fixed p =>
      if decide (request_path = p \/ request_path = p +:+ newline) then Some [] else None
  | WithParam before name =>
      match strip_prefix before request_path with
      | Some rest =>
          if decide (rest <> EmptyString /\ occurs "/" rest = false)
          then Some [(name, rest)]
          else None
      | None => None
      end
  end.

(** ** client.py, the rest of BrowserClient *)

Inductive http_request :=
  | HttpRequest (verb : string) (url : string) (body : option json).

(** Truth value of a JSON value as Python takes it in [if] and [not]. *)
Definition json_truthy (v : json) : bool :=
  match v with
  | JNull => false
  | JBool b => b
  | JNum n => bool_decide (n <> 0)
  | JStr s => bool_decide (s <> EmptyString)
  | JArr l => bool_decide (l <> [])
  | JObj items => bool_decide (items <> [])
  end.

(** Truth value of an attribute that starts as [None]. *)
Definition attr_truthy (v : option json) : bool :=
  match v with
  | Some x => json_truthy x
  | None => false
  end.

(** A value inside an f-string: a string as it is, anything else through
    [repr], which stands for Python's [str] on such a value. *)
Definition py_str (repr : json -> string) (v : option json) : string :=
  match v with
  | Some (JStr s) => s
  | Some x => repr x
  | None => "None"
  end.

(** A log record of the client, kept as its message template and the values
    it is made from ([Performing t args] is the record made from [t.upper()]
    and [args]). *)
Inductive client_log :=
  | NoActiveSession
  | ConnectingViaCdp
  | Performing (action_type : string) (args : list string)
  | ActionFailed (action_type : string) (e : exn)
  | UnknownActionType (action_type : string)
  | AutomationError (e : exn)
  | FailedToGetLogs (e : exn)
  | SessionTerminated (sid : option json)
  | CleanupFailed (e : exn).

(** The calls made on the Playwright page. *)
Inductive page_call :=
  | Goto (url : string) (timeout : Z)
  | Fill (selector text : string)
  | Click (selector : string) (timeout : Z)
  | Evaluate (expression : string).

(** What the client does that can be seen from outside, in order. *)
Inductive client_event :=
  | Http (r : http_request)
  | CdpConnect (url : option json)
  | NewPage
  | OnPage (c : page_call)
  | CloseBrowser
  | SleepMs (ms : Z)
  | Log (lv : level) (what : client_log)
  | PrintHeader
  | Print (index : Z) (event : json).

(** Playwright and the browser behind it, as the client meets them:
    [None] is a call that comes back, [Some e] one that raises [e]. *)
Record Playwright := {
  pw_start : option exn;                    (* entering async_playwright() *)
  pw_connect : option json -> option exn;   (* chromium.connect_over_cdp(url) *)
  pw_contexts : nat;                        (* len(browser.contexts) *)
  pw_pages : nat;                           (* len(browser.contexts[0].pages) *)
  pw_new_page : option exn;                 (* context.new_page() *)
  pw_page : nat -> page_call -> option exn; (* the call of the i-th action *)
  pw_close : option exn;                    (* browser.close() *)
}.

(** Lines 80-94: the page call an action stands for. [inl]: indexing [args]
    failed; [inr None]: an unknown action type, which is only warned about. *)
Definition perform_action_call (action : string * list string) : exn + option page_call :=
  let '(action_type, args) := action in
  if decide (action_type = "goto") then
    match args with
    | a0 :: _ => inr (Some (Goto a0 15000))
    | [] => inl (OtherException "IndexError")
    end
  else if decide (action_type = "type") then
    match args with
    | a0 :: a1 :: _ => inr (Some (Fill a0 a1))
    | _ => inl (OtherException "IndexError")
    end
  else if decide (action_type = "click") then
    match args with
    | a0 :: _ => inr (Some (Click a0 5000))
    | [] => inl (OtherException "IndexError")
    end
  else if decide (action_type = "evaluate") then
    match args with
    | a0 :: _ => inr (Some (Evaluate a0))
    | [] => inl (OtherException "IndexError")
    end
  else inr None.

(** [_perform_action] for the [i]-th action: what it raises, if anything, and
    what it did. *)
Definition BrowserClient_perform_action (pw : Playwright) (i : nat)
    (action : string * list string) : option exn * list client_event :=
  let intro := [Log INFO (Performing action.1 action.2)] in
  match perform_action_call action with
  | inl e => (Some e, intro)
  | inr None => (None, intro ++ [Log WARNING (UnknownActionType action.1)])
  | inr (Some c) => (pw_page pw i c, intro ++ [OnPage c])
  end.

(** Lines 57-63. *)
Definition automation_actions : list (string * list string) :=
  [ ("goto", ["https://example.com"]);
    ("type", ["input"; "test search query"]);
    ("click", ["button"]);
    ("goto", ["https://httpbin.org/get"]);
    ("evaluate", ["() => { console.log('Hello from browser!'); }"]) ].

(** Lines 65-71: the loop over the actions, from the [i]-th on. Its result
    is an error that its [except Exception] does not catch, if one came. *)
Fixpoint run_actions (pw : Playwright) (i : nat) (actions : list (string * list string))
    : option exn * list client_event :=
  match actions with
  | [] => (None, [])
  | action :: rest =>
      let '(r, ev) := BrowserClient_perform_action pw i action in
      match r with
      | None =>
          let '(r', ev') := run_actions pw (S i) rest in
          (r', ev ++ [SleepMs 1000] ++ ev')
      | Some e =>
          if is_Exception e then
            let '(r', ev') := run_actions pw (S i) rest in
            (r', ev ++ [Log WARNING (ActionFailed action.1 e)] ++ ev')
          else (Some e, ev)
      end
  end.

(** Line 76: the handler around the whole automation. *)
Definition automation_failed (e : exn) (ev : list client_event)
    : (exn + bool) * list client_event :=
  if is_Exception e then (inr false, ev ++ [Log ERROR (AutomationError e)])
  else (inl e, ev).

(** Lines 44-78. *)
Definition BrowserClient_run_automation (pw : Playwright) (self : BrowserClient)
    : (exn + bool) * list client_event :=
  if negb (attr_truthy (client_cdp_url self)) || negb (attr_truthy (client_session_id self))
  then (inr false, [Log ERROR NoActiveSession])
  else
    match pw_start pw with
    | Some e => automation_failed e []
    | None =>
        let ev1 := [Log INFO ConnectingViaCdp; CdpConnect (client_cdp_url self)] in
        match pw_connect pw (client_cdp_url self) with
        | Some e => automation_failed e ev1
        | None =>
            match pw_contexts pw with
            | O => automation_failed (OtherException "IndexError") ev1
            | S _ =>
                let '(r2, ev2) :=
                  match pw_pages pw with
                  | O => (pw_new_page pw, ev1 ++ [NewPage])
                  | S _ => (None, ev1)
                  end in
                match r2 with
                | Some e => automation_failed e ev2
                | None =>
                    let '(r3, ev3) := run_actions pw O automation_actions in
                    match r3 with
                    | Some e => automation_failed e (ev2 ++ ev3)
                    | None =>
                        match pw_close pw with
                        | Some e => automation_failed e (ev2 ++ ev3 ++ [CloseBrowser])
                        | None => (inr true, ev2 ++ ev3 ++ [CloseBrowser])
                        end
                    end
                end
            end
        end
    end.

(** The request of [create_session]. *)
Definition create_session_request (self : BrowserClient) (user : string) : http_request :=
  HttpRequest "POST" (api_url self +:+ "/sessions") (Some (JObj [("user_id", JStr user)])).

(** The path and the URL [get_session_logs] asks for. *)
Definition logs_path (sid : string) : string := "/sessions/" +:+ sid +:+ "/logs".

Definition logs_request (repr : json -> string) (self : BrowserClient) (limit : Z)
    : http_request :=
  HttpRequest "GET"
    (api_url self +:+ logs_path (py_str repr (client_session_id self))
       +:+ "?limit=" +:+ pretty limit)
    None.

(** Lines 96-109. An answer is the status with what [response.json()]
    gives, or the error the request raised. *)
Definition BrowserClient_get_session_logs (repr : json -> string)
    (net : http_request -> exn + Z * (exn + json)) (self : BrowserClient) (limit : Z)
    : (exn + option json) * list client_event :=
  if negb (attr_truthy (client_session_id self)) then (inr None, [])
  else
    let rq := logs_request repr self limit in
    let failed e :=
      if is_Exception e then (inr None, [Http rq; Log ERROR (FailedToGetLogs e)])
      else (inl e, [Http rq]) in
    match net rq with
    | inl e => failed e
    | inr (status, body) =>
        if decide (status = 200) then
          match body with
          | inr data => (inr (Some data), [Http rq])
          | inl e => failed e
          end
        else (inr None, [Http rq])
    end.

Definition cleanup_request (repr : json -> string) (self : BrowserClient) : http_request :=
  HttpRequest "DELETE"
    (api_url self +:+ "/sessions/" +:+ py_str repr (client_session_id self)) None.

(** Lines 111-121. *)
Definition BrowserClient_cleanup (repr : json -> string)
    (net : http_request -> exn + Z * (exn + json)) (self : BrowserClient)
    : option exn * list client_event :=
  if negb (attr_truthy (client_session_id self)) then (None, [])
  else
    let rq := cleanup_request repr self in
    match net rq with
    | inr _ => (None, [Http rq; Log INFO (SessionTerminated (client_session_id self))])
    | inl e =>
        if is_Exception e then (None, [Http rq; Log ERROR (CleanupFailed e)])
        else (Some e, [Http rq])
    end.

(** Lines 136-139: printing the first ten events of the logs. [.get] needs a
    dict and the slice a list or a string (whose characters are then the
    events); anything else raises, a dict under [events] with a TypeError or,
    from Python 3.12 on, a KeyError. *)
Definition sliced_events (logs : json) : exn + list json :=
  match logs with
  | JObj items =>
      match dict_get items "events" (JArr []) with
      | JArr l => inr (take 10 l)
      | JStr s =>
          inr ((fun c => JStr (String c EmptyString))
                 <$> take 10 (Stdlib.Strings.String.list_ascii_of_string s))
      | JObj _ => inl (OtherException "TypeError or KeyError")
      | _ => inl (OtherException "TypeError")
      end
  | _ => inl (OtherException "AttributeError")
  end.

Fixpoint print_events (idx : Z) (events : list json) : list client_event :=
  match events with
  | [] => []
  | event :: rest => Print (idx + 1) event :: print_events (idx + 1) rest
  end.

(** What [create_session] meets at the POST and at the read of its answer:
    an error that leaves the call ([inl]), or what the call returns from. The
    status is looked at before the body is decoded, and with a status other
    than 201 the body is only read as text, so that a body that does not
    decode is no error there; a cancellation while the body is read is one
    either way. *)
Definition create_answer (a : exn + Z * (exn + json)) : exn + (caught + Z * json) :=
  match a with
  | inl e =>
      match except_Exception e with
      | inl e' => inl e'
      | inr c => inr (inl c)
      end
  | inr (status, inr data) => inr (inr (status, data))
  | inr (status, inl e) =>
      match except_Exception e with
      | inl e' => inl e'
      | inr c => if decide (status <> 201) then inr (inr (status, JNull)) else inr (inl c)
      end
  end.

(** Lines 128-139: the body of the [try] in [main], on the client as
    [create_session] left it and with the flag it returned. *)
Definition main_body (repr : json -> string) (net : http_request -> exn + Z * (exn + json))
    (pw : Playwright) (client : BrowserClient) (created : bool)
    : option exn * list client_event :=
  if negb created then (None, [])
  else
    match BrowserClient_run_automation pw client with
    | (inl e, ev) => (Some e, ev)
    | (inr false, ev) => (None, ev)
    | (inr true, ev) =>
        match BrowserClient_get_session_logs repr net client 20 with
        | (inl e, ev2) => (Some e, ev ++ ev2)
        | (inr None, ev2) => (None, ev ++ ev2)
        | (inr (Some logs), ev2) =>
            if json_truthy logs then
              match sliced_events logs with
              | inl e => (Some e, ev ++ ev2 ++ [PrintHeader])
              | inr events => (None, ev ++ ev2 ++ [PrintHeader] ++ print_events 0 events)
              end
            else (None, ev ++ ev2)
        end
    end.

(** Lines 124-142. The result is the error that leaves [main], if any, and
    what the client did; the log records of [create_session] are left out.
    An error that leaves [create_session] leaves the [try] as well.
    [cleanup] runs in the [finally], and an error of its own takes the place
    of a pending one. *)
Definition main (environ : gmap string string) (repr : json -> string)
    (net : http_request -> exn + Z * (exn + json)) (pw : Playwright)
    : option exn * list client_event :=
  let url := match environ !! "MANAGEMENT_API_URL" with
             | Some u => u
             | None => "http://localhost:8000"
             end in
  let client := {| api_url := url; client_session_id := None; client_cdp_url := None |} in
  let rq := create_session_request client "demo-user" in
  match create_answer (net rq) with
  | inl e =>
      let '(rc, evc) := BrowserClient_cleanup repr net client in
      (match rc with Some e' => Some e' | None => Some e end, [Http rq] ++ evc)
  | inr answer =>
      let '(client1, created) := BrowserClient_create_session client answer in
      let '(r, ev) := main_body repr net pw client1 created in
      let '(rc, evc) := BrowserClient_cleanup repr net client1 in
      (match rc with Some e => Some e | None => r end, [Http rq] ++ ev ++ evc)
  end.

(** Reading what the client did: the calls made on the page, the sleeps
    taken and the actions warned about as failed. *)
Fixpoint page_calls (ev : list client_event) : list page_call :=
  match ev with
  | [] => []
  | OnPage c :: ev' => c :: page_calls ev'
  | _ :: ev' => page_calls ev'
  end.

Fixpoint client_sleeps (ev : list client_event) : nat :=
  match ev with
  | [] => O
  | SleepMs _ :: ev' => S (client_sleeps ev')
  | _ :: ev' => client_sleeps ev'
  end.

Fixpoint failed_actions (ev : list client_event) : nat :=
  match ev with
  | [] => O
  | Log WARNING (ActionFailed _ _) :: ev' => S (failed_actions ev')
  | _ :: ev' => failed_actions ev'
  end.

Definition is_log (e : client_event) : Prop := exists lv what, e = Log lv what.

(** A Playwright on which only the click fails, and a client with a session. *)
Definition flaky_playwright : Playwright :=
  {| pw_start := None; pw_connect := fun _ => None; pw_contexts := 1; pw_pages := 0;
     pw_new_page := None;
     pw_page := fun _ c => match c with
                           | Click _ _ => Some (OtherException "TimeoutError")
                           | _ => None
                           end;
     pw_close := None |}.

Definition connected_client : BrowserClient :=
  {| api_url := "http://localhost:8000";
     client_session_id := Some (JStr "9f1c");
     client_cdp_url := Some (JStr "ws://host.docker.internal:9222") |}.

(** A network that answers every request with [status] and [body]. *)
Definition answering (status : Z) (body : json) (rq : http_request)
    : exn + Z * (exn + json) :=
  inr (status, inr body).

(** ** The URLs the client asks for *)

Fixpoint string_forall (P : ascii -> bool) (s : string) : bool :=
  match s with
  | EmptyString => true
  | String c s' => P c && string_forall P s'
  end.

(** The text before the first character that [stop] holds of, and the text
    from that character on. *)
Fixpoint take_until (stop : ascii -> bool) (s : string) : string :=
  match s with
  | EmptyString => EmptyString
  | String c s' => if stop c then EmptyString else String c (take_until stop s')
  end.

Fixpoint drop_until (stop : ascii -> bool) (s : string) : string :=
  match s with
  | EmptyString => EmptyString
  | String c s' => if stop c then s else drop_until stop s'
  end.

Definition ends_path (c : ascii) : bool :=
  bool_decide (c = "?"%char) || bool_decide (c = "#"%char).

Definition ends_authority (c : ascii) : bool :=
  bool_decide (c = "/"%char) || ends_path c.

(** The path a request for an [http://] URL carries, which is what the
    server matches its routes against: what follows the authority, up to the
    query or the fragment. *)
Definition url_path (url : string) : option string :=
  match strip_prefix "http://" url with
  | Some s =>
      match take_until ends_path (drop_until ends_authority s) with
      | EmptyString => Some "/"
      | p => Some p
      end
  | None => None
  end.

(** Letters, digits and the hyphen: the characters of [str(uuid.uuid4())],
    which no step between the f-string and the route changes. *)
Definition plain_char (c : ascii) : bool :=
  let n := nat_of_ascii c in
  ((48 <=? n) && (n <=? 57) || (65 <=? n) && (n <=? 90) || (97 <=? n) && (n <=? 122)
   || (n =? 45))%nat.

Definition plain_id (sid : string) : Prop :=
  sid <> EmptyString /\ string_forall plain_char sid = true.

(** The characters of a host name or address with a port. *)
Definition authority_char (c : ascii) : bool :=
  plain_char c || bool_decide (c = "."%char) || bool_decide (c = ":"%char).

(** A network on which the POST is cancelled. *)
Definition cancelled (rq : http_request) : exn + Z * (exn + json) := inl CancelledError.

(** * Properties *)

(** ** Port allocation *)

Lemma scan_ports_found bind p n q :
  scan_ports bind p n = Some (inr q) ->
  p <= q < p + Z.of_nat n /\ 0 <= q <= 65535 /\ bind q = true /\
  forall r, p <= r < q -> 0 <= r <= 65535 /\ bind r = false.
Proof.
  revert p. induction n as [|n IH]; intros p; simpl; [discriminate|].
  unfold socket_bind. destruct (decide (0 <= p <= 65535)) as [Hv|Hv]; [|discriminate].
  destruct (bind p) eqn:Hb.
  - intros [= <-]. split; [lia|]. split; [done|]. split; [done|]. intros r Hr; lia.
  - simpl. intros H. destruct (IH _ H) as (Hr & Hvq & Hq & Hlow).
    split; [lia|]. split; [done|]. split; [done|].
    intros r Hr'. destruct (decide (r = p)) as [->|]; [done|]. apply Hlow; lia.
Qed.

Lemma scan_ports_raised bind p n e :
  scan_ports bind p n = Some (inl e) ->
  e = OtherException "OverflowError" /\
  exists q, p <= q < p + Z.of_nat n /\ ~ (0 <= q <= 65535) /\
            forall r, p <= r < q -> 0 <= r <= 65535 /\ bind r = false.
Proof.
  revert p. induction n as [|n IH]; intros p; simpl; [discriminate|].
  unfold socket_bind. destruct (decide (0 <= p <= 65535)) as [Hv|Hv].
  - destruct (bind p) eqn:Hb; [discriminate|]. simpl. intros H.
    destruct (IH _ H) as (-> & q & Hq & Hnv & Hlow). split; [done|].
    exists q. split; [lia|]. split; [done|].
    intros r Hr'. destruct (decide (r = p)) as [->|]; [done|]. apply Hlow; lia.
  - simpl. intros [= <-]. split; [done|]. exists p. split; [lia|]. split; [done|].
    intros r Hr; lia.
Qed.

Lemma scan_ports_None bind p n :
  scan_ports bind p n = None <->
  forall r, p <= r < p + Z.of_nat n -> 0 <= r <= 65535 /\ bind r = false.
Proof.
  revert p. induction n as [|n IH]; intros p; simpl.
  - split; [intros _ r Hr; lia|done].
  - unfold socket_bind. destruct (decide (0 <= p <= 65535)) as [Hv|Hv].
    + destruct (bind p) eqn:Hb; simpl.
      * split; [discriminate|]. intros H. destruct (H p) as [_ H']; [lia|]. congruence.
      * rewrite IH. split; intros H r Hr.
        -- destruct (decide (r = p)) as [->|]; [done|]. apply H; lia.
        -- apply H; lia.
    + simpl. split; [discriminate|]. intros H. destruct (H p) as [H' _]; [lia|]. done.
Qed.

Lemma find_free_port_inr bind p :
  find_free_port bind = inr p <->
  9222 <= p <= 9322 /\ bind p = true /\ forall r, 9222 <= r < p -> bind r = false.
Proof.
  unfold find_free_port, find_free_port_in.
  change (Z.to_nat (9322 + 1 - 9222)) with 101%nat. split.
  - destruct (scan_ports bind 9222 101) as [[e|q]|] eqn:Hs; [discriminate| |discriminate].
    intros [= <-]. apply scan_ports_found in Hs as (Hr & _ & Hb & Hlow).
    split; [lia|]. split; [done|]. intros r Hr'. by apply Hlow.
  - intros (Hr & Hb & Hlow).
    destruct (scan_ports bind 9222 101) as [[e|q]|] eqn:Hs.
    + apply scan_ports_raised in Hs as (_ & q & Hq & Hnv & _). lia.
    + apply scan_ports_found in Hs as (Hr' & _ & Hb' & Hlow').
      f_equal. destruct (Z.lt_trichotomy q p) as [Hlt|[->|Hgt]]; [|done|].
      * rewrite Hlow in Hb' by lia. discriminate.
      * destruct (Hlow' p) as [_ H']; [lia|]. congruence.
    + rewrite scan_ports_None in Hs. destruct (Hs p) as [_ H']; [lia|]. congruence.
Qed.

Lemma find_free_port_inl bind e :
  find_free_port bind = inl e <->
  e = OSError "No free ports in range 9222-9322" /\
  forall r, 9222 <= r <= 9322 -> bind r = false.
Proof.
  unfold find_free_port, find_free_port_in.
  change (Z.to_nat (9322 + 1 - 9222)) with 101%nat. split.
  - destruct (scan_ports bind 9222 101) as [[e'|q]|] eqn:Hs; [|discriminate|].
    + apply scan_ports_raised in Hs as (_ & q & Hq & Hnv & _). lia.
    + intros [= <-]. split; [reflexivity|].
      rewrite scan_ports_None in Hs. intros r Hr. apply Hs. lia.
  - intros [-> Hall].
    destruct (scan_ports bind 9222 101) as [[e'|q]|] eqn:Hs; [| |reflexivity].
    + apply scan_ports_raised in Hs as (_ & q & Hq & Hnv & _). lia.
    + apply scan_ports_found in Hs as (Hr & _ & Hb & _). rewrite Hall in Hb by lia.
      discriminate.
Qed.

(** ** create_session *)

Lemma create_session_begin_frame env request w w1 fr a :
  create_session_begin env request w = (w1, inr fr, a) ->
  find_free_port (sock_bind env) = inr (local_port fr) /\
  local_session_id fr = uuid4 env /\
  stdout (local_process fr) = Some (pid (local_process fr)) /\
  browser_sessions w1 = browser_sessions w /\
  monitoring_tasks w1 = monitoring_tasks w /\
  buffers w1 = buffers w /\ tasks w1 = tasks w.
Proof.
  unfold create_session_begin.
  destruct (find_free_port (sock_bind env)) as [e|p]; [discriminate|].
  destruct (popen env (chrome_cmd env p)) as [e|child].
  - destruct (is_Exception e); discriminate.
  - intros [= <- <- <-]. simpl. done.
Qed.

Lemma create_session_resume_ok env fr w w2 resp a :
  create_session_resume env fr w = (w2, inr resp, a) ->
  poll w (local_process fr) = None /\
  SessionResponse.session_id resp = local_session_id fr /\
  SessionResponse.cdp_url resp =
    "ws://" +:+ environ_get env "CDP_HOST" "host.docker.internal" +:+ ":"
      +:+ pretty (local_port fr) /\
  SessionResponse.created_at resp = now_isoformat env /\
  browser_sessions w2 =
    <[local_session_id fr :=
        {| session_id := local_session_id fr; process := local_process fr;
           port := local_port fr; created_at := now_isoformat env;
           events := length (buffers w) |}]> (browser_sessions w) /\
  monitoring_tasks w2 = <[local_session_id fr := length (tasks w)]> (monitoring_tasks w) /\
  buffers w2 = buffers w ++ [[]] /\
  procs w2 = procs w.
Proof.
  unfold create_session_resume.
  destruct (poll w (local_process fr)) as [rc|].
  - destruct (stdout (local_process fr)) as [fd|];
      [destruct (stdout_read w fd)|]; discriminate.
  - simpl. rewrite lookup_insert_eq. intros [= <- <- <-]. simpl. done.
Qed.

(** C3. [find_free_port] returns the lowest port of 9222..9322 on which the
    bind succeeds, and raises (an OSError, which is what IOError names) exactly
    when no port of the range binds; hence a [create_session] call that
    succeeds answers the URL [ws://<CDP_HOST>:<port>] with the port inside
    that range and the host the configured one. *)
Theorem find_free_port_scans_range :
  (forall bind p,
     find_free_port bind = inr p <->
     9222 <= p <= 9322 /\ bind p = true /\ forall r, 9222 <= r < p -> bind r = false) /\
  (forall bind,
     (forall r, 9222 <= r <= 9322 -> bind r = false) <->
     find_free_port bind = inl (OSError "No free ports in range 9222-9322")) /\
  (forall env env' request w w1 fr a w1' w2 resp a',
     create_session_begin env request w = (w1, inr fr, a) ->
     create_session_resume env' fr w1' = (w2, inr resp, a') ->
     exists p,
       9222 <= p <= 9322 /\
       SessionResponse.cdp_url resp =
         "ws://" +:+ environ_get env' "CDP_HOST" "host.docker.internal" +:+ ":" +:+ pretty p).
Proof.
  split; [exact find_free_port_inr|]. split.
  - intros bind. rewrite find_free_port_inl. split; [by intros H | by intros [_ H]].
  - intros env env' request w w1 fr a w1' w2 resp a' Hb Hr.
    apply create_session_begin_frame in Hb as (Hp & _).
    apply find_free_port_inr in Hp as (Hrange & _).
    apply create_session_resume_ok in Hr as (_ & _ & Hurl & _).
    exists (local_port fr). done.
Qed.

Lemma find_free_port_scans_range_witness :
  exists p, 9222 <= p <= 9322 /\
    SessionResponse.cdp_url
      {| SessionResponse.session_id := "9f1c";
         SessionResponse.cdp_url := "ws://host.docker.internal:9222";
         SessionResponse.created_at := "2025-01-01T00:00:00" |} =
    "ws://" +:+ environ_get demo_env "CDP_HOST" "host.docker.internal" +:+ ":" +:+ pretty p.
Proof.
  destruct find_free_port_scans_range as (_ & _ & H).
  eapply (H demo_env demo_env demo_request initial_world _ _ _
            (set_procs <[4242 := Proc None [] ""]> initial_world)).
  - vm_compute. reflexivity.
  - vm_compute. reflexivity.
Defined.

(** C1. A [create_session] call that succeeds is answered with status 200,
    not 201: the decorator declares no status, and the repository's own
    client takes every status but 201 for a failure. On the run below the
    session is registered and answered with its three fields, and the client
    reports failure and keeps no session id. *)
Theorem create_session_answers_200 :
  (forall resp, (http_answer create_session_route (inr resp)).1 = 200) /\
  (let '(w, result, _) := create_session demo_env demo_env demo_request id initial_world in
   let resp := {| SessionResponse.session_id := "9f1c";
                  SessionResponse.cdp_url := "ws://host.docker.internal:9222";
                  SessionResponse.created_at := "2025-01-01T00:00:00" |} in
   result = inr resp /\
   http_answer create_session_route result = (200, SessionResponse_json resp) /\
   is_Some (browser_sessions w !! "9f1c") /\
   BrowserClient_create_session demo_client (inr (http_answer create_session_route result))
     = (demo_client, false)).
Proof.
  split; [reflexivity|].
  vm_compute. repeat split; eauto.
Qed.

Lemma alive_set_procs_insert w p q pr :
  alive (set_procs <[p := pr]> w) q =
  if decide (p = q) then bool_decide (returncode pr = None) else alive w q.
Proof.
  unfold alive. simpl. rewrite lookup_insert. by destruct (decide (p = q)).
Qed.

Lemma poll_Some_not_alive w pr rc : poll w pr = Some rc -> alive w (pid pr) = false.
Proof.
  unfold poll, alive. destruct (procs w !! pid pr) as [p|]; [|done].
  intros ->. done.
Qed.

Lemma stdout_read_frame w fd w' out :
  stdout_read w fd = (w', out) ->
  browser_sessions w' = browser_sessions w /\ monitoring_tasks w' = monitoring_tasks w /\
  buffers w' = buffers w /\ tasks w' = tasks w /\
  out = match procs w !! fd with Some p => pipe p | None => "" end /\
  forall q, alive w' q = alive w q.
Proof.
  unfold stdout_read. destruct (procs w !! fd) as [p|] eqn:Hp; intros [= <- <-]; [|done].
  repeat split; try done. intros q. rewrite alive_set_procs_insert.
  destruct (decide (fd = q)) as [<-|]; [|done]. unfold alive. by rewrite Hp.
Qed.

(** A [create_session] call fails in two ways. When no port of the range
    binds, it raises before anything is started: the whole state, registry and
    process table included, is as before. When the started process has exited
    at the probe after the settle delay, it raises [HTTPException] 500 whose
    detail is what nobody had read from the process's output pipe by then;
    the registry, the
    task map, the buffers and the tasks are as the call found them, and the
    process it started is not alive. Up to the delay the call had not touched
    the registry either. *)
Lemma create_session_failure_frame :
  (forall env request w,
     (forall r, 9222 <= r <= 9322 -> sock_bind env r = false) ->
     create_session_begin env request w =
       (w, inl (OSError "No free ports in range 9222-9322"), [])) /\
  (forall env env' request w w1 fr a w1' rc,
     create_session_begin env request w = (w1, inr fr, a) ->
     poll w1' (local_process fr) = Some rc ->
     browser_sessions w1 = browser_sessions w /\
     exists w2 output log,
       create_session_resume env' fr w1' = (w2, inl (HTTPException 500 output), log) /\
       output = match procs w1' !! pid (local_process fr) with
                | Some p => pipe p
                | None => ""
                end /\
       browser_sessions w2 = browser_sessions w1' /\
       monitoring_tasks w2 = monitoring_tasks w1' /\
       buffers w2 = buffers w1' /\
       tasks w2 = tasks w1' /\
       alive w2 (pid (local_process fr)) = false).
Proof.
  split.
  - intros env request w Hall. unfold create_session_begin.
    destruct (find_free_port (sock_bind env)) as [e|p] eqn:Hf.
    + by apply find_free_port_inl in Hf as [-> _].
    + apply find_free_port_inr in Hf as (Hr & Hb & _).
      rewrite Hall in Hb by lia. discriminate.
  - intros env env' request w w1 fr a w1' rc Hb Hpoll.
    apply create_session_begin_frame in Hb as (_ & _ & Hout & Hreg & _).
    split; [done|]. unfold create_session_resume. rewrite Hpoll, Hout.
    destruct (stdout_read w1' (pid (local_process fr))) as [w2 output] eqn:Hrd.
    apply stdout_read_frame in Hrd as (H1 & H2 & H3 & H4 & H5 & H6).
    exists w2, output, [ALog ERROR ("Browser process failed: " +:+ output)].
    repeat split; try done. rewrite H6. by eapply poll_Some_not_alive.
Qed.

Lemma split_line_app s : s = (split_line s).1 +:+ (split_line s).2.
Proof.
  induction s as [|c s IH]; [done|]. simpl.
  destruct (Ascii.eqb c line_feed); [done|].
  destruct (split_line s) as [l r]. simpl in *.
  change (String c l +:+ r) with (String c (l +:+ r)). by rewrite <- IH.
Qed.

Lemma split_line_nil s r : split_line s = (EmptyString, r) -> s = EmptyString.
Proof.
  destruct s as [|c s]; [done|]. simpl.
  destruct (Ascii.eqb c line_feed); [discriminate|].
  destruct (split_line s); discriminate.
Qed.

Lemma string_length_app a b :
  String.length (a +:+ b) = (String.length a + String.length b)%nat.
Proof.
  induction a as [|c a IH]; [done|].
  change (String c a +:+ b) with (String c (a +:+ b)). simpl. by rewrite IH.
Qed.

(** Once the child has exited, the thread takes everything out of the pipe and
    returns; it touches nothing else. *)
Lemma log_output_run_drains n sid process fd :
  stdout process = Some fd ->
  forall w p,
    procs w !! fd = Some p -> returncode p <> None ->
    (String.length (pipe p) < n)%nat ->
    exists w' logs,
      log_output_run n sid process w = (w', ThreadReturned, logs) /\
      browser_sessions w' = browser_sessions w /\
      monitoring_tasks w' = monitoring_tasks w /\
      buffers w' = buffers w /\ tasks w' = tasks w /\
      procs w' = <[fd := Proc (returncode p) (pending p) EmptyString]> (procs w).
Proof.
  intros Hfd. induction n as [|n IH]; intros w p Hp Hrc Hlen; [lia|].
  simpl. unfold log_output_step, stdout_readline. rewrite Hfd, Hp.
  rewrite (bool_decide_eq_true_2 _ Hrc), orb_true_r.
  destruct (split_line (pipe p)) as [l r] eqn:Hs.
  pose proof (split_line_app (pipe p)) as Happ. rewrite Hs in Happ. simpl in Happ.
  destruct l as [|c l].
  - pose proof (split_line_nil _ _ Hs) as Hnil. rewrite Hnil in Hs.
    injection Hs as <-. eexists _, _. split; [reflexivity|]. done.
  - destruct (IH (set_procs <[fd := Proc (returncode p) (pending p) r]> w)
                (Proc (returncode p) (pending p) r)) as (w' & logs & Hrun & H1 & H2 & H3 & H4 & H5).
    + simpl. by rewrite lookup_insert_eq.
    + done.
    + simpl. rewrite Happ, string_length_app in Hlen. simpl in Hlen. lia.
    + rewrite Hrun. eexists _, _. split; [reflexivity|].
      simpl in *. rewrite H5, insert_insert_eq. done.
Qed.

(** C2. A [create_session] call that starts the browser also starts the
    [log_output] thread on the browser's output. When the browser prints
    [out] and exits during the settle delay and the thread has read its
    output to the end, the probe finds the process gone and nothing left to
    read: the call raises [HTTPException] 500 with the empty detail, whatever
    [out] was, and logs the same. The registry and the task map are as the
    call found them and the process is not alive. *)
Theorem create_session_detail_lost_to_log_thread env env' request w w1 fr a out rc n :
  create_session_begin env request w = (w1, inr fr, a) ->
  (String.length out < n)%nat ->
  In (AThread "log_output" (local_session_id fr)) a /\
  exists w1' logs w2,
    log_output_run n (local_session_id fr) (local_process fr)
      (child_exited (pid (local_process fr)) out rc w1) = (w1', ThreadReturned, logs) /\
    create_session_resume env' fr w1' =
      (w2, inl (HTTPException 500 EmptyString), [ALog ERROR "Browser process failed: "]) /\
    browser_sessions w2 = browser_sessions w /\
    monitoring_tasks w2 = monitoring_tasks w /\
    alive w2 (pid (local_process fr)) = false.
Proof.
  intros Hb Hlen. split.
  - revert Hb. unfold create_session_begin.
    destruct (find_free_port (sock_bind env)) as [e|p]; [discriminate|].
    destruct (popen env (chrome_cmd env p)) as [e|child].
    + destruct (is_Exception e); discriminate.
    + intros [= <- <- <-]. simpl. by left.
  - apply create_session_begin_frame in Hb as (_ & _ & Hout & Hreg & Htm & _).
    destruct (log_output_run_drains n (local_session_id fr) (local_process fr)
                (pid (local_process fr)) Hout
                (child_exited (pid (local_process fr)) out rc w1)
                (Proc (Some rc) [] out))
      as (w1' & logs & Hrun & H1 & H2 & _ & _ & H5).
    + simpl. by rewrite lookup_insert_eq.
    + done.
    + done.
    + exists w1', logs. simpl in H1, H2, H5.
      eexists. split; [exact Hrun|].
      unfold create_session_resume, poll, stdout_read. rewrite Hout, H5, lookup_insert_eq.
      simpl. split; [reflexivity|]. simpl.
      split; [congruence|]. split; [congruence|].
      unfold alive. simpl. by rewrite lookup_insert_eq.
Qed.

Lemma create_session_detail_lost_to_log_thread_witness :
  let thread :=
    log_output_run 200 "9f1c" {| pid := 4242; stdout := Some 4242 |}
      (child_exited 4242 missing_library 127
         (set_procs <[4242 := Proc None [] EmptyString]> initial_world)) in
  create_session_begin demo_env demo_request initial_world
    = (set_procs <[4242 := Proc None [] EmptyString]> initial_world, inr first_frame,
       [AThread "log_output" "9f1c"; ASleep 1000]) /\
  thread.1.2 = ThreadReturned /\
  thread.2 =
    [ALog INFO ("Chrome session 9f1c: google-chrome: error while loading shared libraries: "
                  +:+ "libnss3.so: cannot open shared object file")] /\
  (exists w2,
     create_session_resume demo_env first_frame thread.1.1 =
       (w2, inl (HTTPException 500 EmptyString), [ALog ERROR "Browser process failed: "]) /\
     browser_sessions w2 = ∅ /\ alive w2 4242 = false) /\
  http_answer create_session_route
    (create_session demo_env demo_env demo_request
       (fun w => (log_output_run 200 "9f1c" {| pid := 4242; stdout := Some 4242 |}
                    (child_exited 4242 missing_library 127 w)).1.1)
       initial_world).1.2
    = (500, JObj [("detail", JStr EmptyString)]).
Proof.
  destruct (create_session_detail_lost_to_log_thread demo_env demo_env demo_request
              initial_world (set_procs <[4242 := Proc None [] EmptyString]> initial_world)
              first_frame [AThread "log_output" "9f1c"; ASleep 1000] missing_library 127 200)
    as (_ & w1' & logs & w2 & Hrun & Hres & Hreg & _ & Hdead).
  - vm_compute. reflexivity.
  - vm_compute. lia.
  - cbv zeta. split; [vm_compute; reflexivity|].
    change (local_session_id first_frame) with "9f1c" in Hrun.
    change (local_process first_frame) with {| pid := 4242; stdout := Some 4242 |} in Hrun.
    change (pid {| pid := 4242; stdout := Some 4242 |}) with 4242 in Hrun, Hdead.
    rewrite Hrun. simpl.
    split; [reflexivity|]. split.
    + apply (f_equal snd) in Hrun. vm_compute in Hrun. rewrite <- Hrun. vm_compute. reflexivity.
    + split; [|vm_compute; reflexivity].
      exists w2. rewrite Hres, Hreg. done.
Defined.

(** ** The monitoring task: discovery *)

Lemma connect_attempts_app tr1 tr2 :
  connect_attempts (tr1 ++ tr2) = (connect_attempts tr1 + connect_attempts tr2)%nat.
Proof.
  induction tr1 as [|a tr1 IH]; [done|]. destruct a as [| [] | | | |]; simpl; lia.
Qed.

Lemma sleeps_app tr1 tr2 : sleeps (tr1 ++ tr2) = sleeps tr1 ++ sleeps tr2.
Proof.
  induction tr1 as [|a tr1 IH]; [done|]. destruct a; simpl; by rewrite ?IH.
Qed.

Lemma slept_ms_fixed l :
  Forall (fun ms => ms = backoff_ms) l -> foldr Z.add 0 l = 500 * Z.of_nat (length l).
Proof.
  induction 1 as [|ms l -> _ IH]; simpl; [done|]. unfold backoff_ms. lia.
Qed.

Lemma monitor_run_app env sid port rs1 rs2 pc w :
  monitor_run env sid port (rs1 ++ rs2) pc w =
  let '(pc1, w1, a1) := monitor_run env sid port rs1 pc w in
  let '(pc2, w2, a2) := monitor_run env sid port rs2 pc1 w1 in
  (pc2, w2, a1 ++ a2).
Proof.
  revert pc w. induction rs1 as [|r rs1 IH]; intros pc w; simpl.
  - by destruct (monitor_run env sid port rs2 pc w) as [[? ?] ?].
  - destruct (monitor_step env sid port pc r w) as [[pc1 w1] a1]. rewrite IH.
    destruct (monitor_run env sid port rs1 pc1 w1) as [[pc2 w2] a2].
    destruct (monitor_run env sid port rs2 pc2 w2) as [[pc3 w3] a3].
    by rewrite app_assoc.
Qed.

(** One piece of the task uses up what it does of the discovery budget. *)
Lemma monitor_step_budget env sid port pc r w :
  pc_in_range pc ->
  let '(pc', _, a) := monitor_step env sid port pc r w in
  pc_in_range pc' /\
  (connect_attempts a + connects_left pc' <= connects_left pc)%nat /\
  (length (sleeps a) + sleeps_left pc' <= sleeps_left pc)%nat /\
  Forall (fun ms => ms = backoff_ms) (sleeps a).
Proof.
  intros Hin.
  destruct pc as [i|i|i| |rest| |o]; destruct r as [e|s]; simpl in *;
    unfold discovery_failed, discovery_turn, cdp_failed, drain_failed, drain_turn,
      attempts in *;
    repeat case_match; simplify_eq/=;
    (split; [lia || done|]); (split; [lia|]); (split; [lia|]); repeat constructor.
Qed.

Lemma monitor_run_budget env sid port rs pc w :
  pc_in_range pc ->
  let tr := (monitor_run env sid port rs pc w).2 in
  (connect_attempts tr <= connects_left pc)%nat /\
  (length (sleeps tr) <= sleeps_left pc)%nat /\
  Forall (fun ms => ms = backoff_ms) (sleeps tr).
Proof.
  revert pc w. induction rs as [|r rs IH]; intros pc w Hin; simpl.
  - repeat split; try lia; constructor.
  - pose proof (monitor_step_budget env sid port pc r w Hin) as Hstep.
    destruct (monitor_step env sid port pc r w) as [[pc1 w1] a1].
    destruct Hstep as (Hin1 & Hc & Hs & Hf).
    specialize (IH pc1 w1 Hin1).
    destruct (monitor_run env sid port rs pc1 w1) as [[pc2 w2] a2]. simpl in *.
    destruct IH as (Hc2 & Hs2 & Hf2).
    rewrite connect_attempts_app, sleeps_app, length_app.
    repeat split; try lia. by apply Forall_app.
Qed.

Lemma failed_attempt_run env sid port f i w :
  is_Exception (failure_exn f) = true ->
  exists a0,
    connect_attempts a0 = O /\ sleeps a0 = [backoff_ms] /\
    monitor_run env sid port (failure_responses f) (AwaitVersionConnect i) w =
      ((discovery_turn port (S i)).1, w, a0 ++ (discovery_turn port (S i)).2).
Proof.
  intros He. destruct f as [e|e]; simpl in He |- *; unfold discovery_failed; rewrite He; simpl;
    destruct (discovery_turn port (S i)) as [pc' a']; simpl.
  - exists [ASleep backoff_ms]. by rewrite app_nil_r.
  - exists [ARecv None; ASleep backoff_ms]. by rewrite app_nil_r.
Qed.

(** Twenty failed attempts in a row: the task comes back to its caller, the
    shared state is as it was, and it has used its whole budget. *)
Lemma discovery_exhausted env sid port fs :
  forall i w,
    (i + length fs = attempts)%nat -> fs <> [] ->
    Forall (fun f => is_Exception (failure_exn f) = true) fs ->
    exists tr,
      monitor_run env sid port (concat (failure_responses <$> fs)) (AwaitVersionConnect i) w
        = (Done Returned, w, tr) /\
      connect_attempts tr = (length fs - 1)%nat /\
      sleeps tr = replicate (length fs) backoff_ms.
Proof.
  induction fs as [|f fs IH]; intros i w Hlen Hne Hall; [done|].
  apply Forall_cons in Hall as [Hf Hall]. simpl in Hlen.
  rewrite fmap_cons. simpl concat. rewrite monitor_run_app.
  destruct (failed_attempt_run env sid port f i w Hf) as (a0 & Hc0 & Hs0 & ->).
  unfold discovery_turn.
  destruct fs as [|f' fs].
  - simpl in Hlen. destruct (decide (S i < attempts)%nat) as [Hlt|_]; [lia|]. simpl.
    eexists. split; [reflexivity|].
    rewrite !connect_attempts_app, !sleeps_app, Hc0, Hs0. done.
  - destruct (decide (S i < attempts)%nat) as [_|Hge]; [|simpl in Hlen; lia]. simpl fst. simpl snd.
    destruct (IH (S i) w) as (tr & -> & Hc & Hs); [simpl in *; lia|done|done|].
    eexists. split; [reflexivity|].
    rewrite !connect_attempts_app, !sleeps_app, Hc0, Hs0, Hc, Hs. simpl. split; [lia|done].
Qed.

Lemma discovery_exhausted_task env sid port fs w :
  length fs = attempts ->
  Forall (fun f => is_Exception (failure_exn f) = true) fs ->
  exists tr,
    monitor_browser_session env sid port (concat (failure_responses <$> fs)) w
      = (Done Returned, w, tr) /\
    connect_attempts tr = attempts /\
    sleeps tr = replicate attempts backoff_ms.
Proof.
  intros Hlen Hall. unfold monitor_browser_session, monitor_start, discovery_turn.
  destruct (decide (0 < attempts)%nat) as [_|Hn]; [|unfold attempts in Hn; lia].
  destruct (discovery_exhausted env sid port fs O w) as (tr & -> & Hc & Hs);
    [lia|by destruct fs|done|].
  eexists. split; [reflexivity|]. simpl. rewrite Hc, Hs, Hlen. done.
Qed.

(** C4. Whatever the task's awaits yield, it makes at most 20 connection
    attempts to the version endpoint and sleeps at most 20 times, each time
    500 ms, 10 s in all at most; a failed attempt (at the connect or at the
    receive) is followed by that sleep; and after 20 failed attempts it gives
    up: it returns having made exactly 20 attempts and slept 10 s. *)
Theorem discovery_at_most_20_attempts :
  (forall env sid port rs w,
     let tr := (monitor_browser_session env sid port rs w).2 in
     (connect_attempts tr <= 20)%nat /\
     Forall (fun ms => ms = 500) (sleeps tr) /\
     (length (sleeps tr) <= 20)%nat /\
     slept_ms tr <= 10000) /\
  (forall env sid port i e w,
     is_Exception e = true ->
     monitor_step env sid port (AwaitVersionConnect i) (inl e) w
       = (AwaitBackoff i, w, [ASleep 500]) /\
     monitor_step env sid port (AwaitVersionRecv i) (inl e) w
       = (AwaitBackoff i, w, [ASleep 500])) /\
  (forall env sid port fs w,
     length fs = 20%nat ->
     Forall (fun f => is_Exception (failure_exn f) = true) fs ->
     exists tr,
       monitor_browser_session env sid port (concat (failure_responses <$> fs)) w
         = (Done Returned, w, tr) /\
       connect_attempts tr = 20%nat /\ slept_ms tr = 10000).
Proof.
  split; [|split].
  - intros env sid port rs w. unfold monitor_browser_session, monitor_start, discovery_turn.
    destruct (decide (0 < attempts)%nat) as [_|Hn]; [|unfold attempts in Hn; lia].
    pose proof (monitor_run_budget env sid port rs (AwaitVersionConnect O) w) as H.
    destruct (monitor_run env sid port rs (AwaitVersionConnect O) w) as [[pc w'] a].
    simpl in *. destruct H as (Hc & Hs & Hf); [unfold attempts; lia|].
    unfold attempts in *. split; [lia|]. split; [done|]. split; [lia|].
    unfold slept_ms. simpl. rewrite (slept_ms_fixed _ Hf). lia.
  - intros env sid port i e w He. simpl. unfold discovery_failed. by rewrite He.
  - intros env sid port fs w Hlen Hall.
    destruct (discovery_exhausted_task env sid port fs w Hlen Hall) as (tr & Hrun & Hc & Hs).
    exists tr. split; [done|]. split; [done|]. unfold slept_ms. by rewrite Hs.
Qed.

Lemma discovery_at_most_20_attempts_witness :
  exists tr,
    monitor_browser_session demo_env "9f1c" 9222
      (concat (failure_responses <$> replicate 20 (ConnectFails (OSError "Connection refused"))))
      initial_world = (Done Returned, initial_world, tr) /\
    connect_attempts tr = 20%nat /\ slept_ms tr = 10000.
Proof.
  destruct discovery_at_most_20_attempts as (_ & _ & H).
  apply H.
  - reflexivity.
  - vm_compute. repeat constructor.
Defined.

Lemma monitor_step_frame env sid port pc r w :
  let w' := (monitor_step env sid port pc r w).1.2 in
  browser_sessions w' = browser_sessions w /\ monitoring_tasks w' = monitoring_tasks w /\
  tasks w' = tasks w /\ procs w' = procs w.
Proof.
  destruct pc as [i|i|i| |rest| |o]; destruct r as [e|s]; simpl;
    unfold discovery_failed, discovery_turn, cdp_failed, drain_failed, drain_turn, append_event;
    repeat case_match; simplify_eq/=; done.
Qed.

(** C5. When all 20 discovery attempts fail, the task returns to its caller
    (it does not raise) and the shared state, the registry with it, is as it
    was: a session registered under the task's id is still registered. No
    piece of the task ever changes the registry or the task map, whatever ran
    in between, and a task that has ended does nothing more. *)
Theorem discovery_exhausted_keeps_session :
  (forall env sid port fs w,
     length fs = 20%nat ->
     Forall (fun f => is_Exception (failure_exn f) = true) fs ->
     exists pc w' tr,
       monitor_browser_session env sid port (concat (failure_responses <$> fs)) w
         = (pc, w', tr) /\
       pc = Done Returned /\ w' = w /\
       browser_sessions w' !! sid = browser_sessions w !! sid) /\
  (forall env sid port pc r w,
     browser_sessions (monitor_step env sid port pc r w).1.2 = browser_sessions w /\
     monitoring_tasks (monitor_step env sid port pc r w).1.2 = monitoring_tasks w) /\
  (forall env sid port o r w,
     monitor_step env sid port (Done o) r w = (Done o, w, [])).
Proof.
  split; [|split].
  - intros env sid port fs w Hlen Hall.
    destruct (discovery_exhausted_task env sid port fs w Hlen Hall) as (tr & Hrun & _).
    exists (Done Returned), w, tr. done.
  - intros env sid port pc r w.
    destruct (monitor_step_frame env sid port pc r w) as (H1 & H2 & _). done.
  - intros env sid port o [e|s] w; reflexivity.
Qed.

Lemma discovery_exhausted_keeps_session_witness :
  exists pc w' tr,
    monitor_browser_session demo_env "9f1c" 9222
      (concat (failure_responses <$> replicate 20 (RecvFails (OtherException "ConnectionClosed"))))
      one_session = (pc, w', tr) /\
    pc = Done Returned /\
    w' = one_session /\
    browser_sessions w' !! "9f1c" = browser_sessions one_session !! "9f1c".
Proof.
  destruct discovery_exhausted_keeps_session as (H & _).
  apply H.
  - reflexivity.
  - vm_compute. repeat constructor.
Defined.

(** ** The monitoring task: the advertised debugger URL *)

Lemma replace_go_hit old new c s :
  starts_with old (String c s) = true ->
  replace_go old new O (String c s) =
    new +:+ replace_go old new (Nat.pred (String.length old)) s.
Proof. intros H. simpl replace_go. by rewrite H. Qed.

Lemma replace_go_miss old new c s :
  starts_with old (String c s) = false ->
  replace_go old new O (String c s) = String c (replace_go old new O s).
Proof. intros H. simpl replace_go. by rewrite H. Qed.

Lemma replace_go_absent old new s : occurs old s = false -> replace_go old new O s = s.
Proof.
  induction s as [|c s IH]; [done|].
  intros H. change (starts_with old (String c s) || occurs old s = false) in H.
  apply orb_false_iff in H as [Hhere Hlater].
  rewrite replace_go_miss by done. by rewrite IH.
Qed.

Lemma str_replace_localhost new rest :
  occurs "localhost" rest = false ->
  str_replace ("ws://localhost" +:+ rest) "localhost" new = "ws://" +:+ new +:+ rest.
Proof.
  intros Habs. unfold str_replace.
  change ("ws://localhost" +:+ rest)
    with (String "w" (String "s" (String ":" (String "/" (String "/"
           ("localhost" +:+ rest)))))).
  do 5 (rewrite replace_go_miss by reflexivity).
  change ("localhost" +:+ rest) with (String "l" ("ocalhost" +:+ rest)).
  rewrite replace_go_hit by reflexivity.
  change (replace_go "localhost" new (Nat.pred (String.length "localhost")) ("ocalhost" +:+ rest))
    with (replace_go "localhost" new O rest).
  by rewrite replace_go_absent.
Qed.

Lemma starts_with_app old t : starts_with old (old +:+ t) = true.
Proof.
  induction old as [|c old IH]; [by destruct t|].
  change (String c old +:+ t) with (String c (old +:+ t)). simpl.
  by rewrite decide_True.
Qed.

Lemma starts_with_inv old s : starts_with old s = true -> exists t, s = old +:+ t.
Proof.
  revert s. induction old as [|c old IH]; intros s H.
  - by exists s.
  - destruct s as [|b s]; [discriminate|]. simpl in H.
    destruct (decide (c = b)) as [<-|]; [|discriminate].
    destruct (IH s H) as [t ->]. by exists t.
Qed.

Lemma replace_go_skip old new pre t :
  replace_go old new (String.length pre) (pre +:+ t) = replace_go old new O t.
Proof.
  induction pre as [|c pre IH]; [done|].
  change (String c pre +:+ t) with (String c (pre +:+ t)). simpl. exact IH.
Qed.

Lemma str_replace_hit old new t :
  old <> EmptyString ->
  str_replace (old +:+ t) old new = new +:+ str_replace t old new.
Proof.
  intros Hne. unfold str_replace. destruct old as [|c old]; [done|].
  pose proof (starts_with_app (String c old) t) as Hsw.
  change (String c old +:+ t) with (String c (old +:+ t)) in *.
  rewrite replace_go_hit by done. f_equal.
  apply replace_go_skip.
Qed.

Lemma starts_with_prefix old p x :
  starts_with old p = true -> starts_with old (p +:+ x) = true.
Proof.
  revert p. induction old as [|c old IH]; intros p H; [done|].
  destruct p as [|b p]; [discriminate|].
  change (String b p +:+ x) with (String b (p +:+ x)). simpl in *.
  destruct (decide (c = b)); [|discriminate]. by apply IH.
Qed.

(** A match that begins in [p] and does not end there runs on into what
    follows [p]. *)
Lemma starts_with_app_split old p x :
  starts_with old (p +:+ x) = true ->
  starts_with old p = true \/ exists r, old = p +:+ r /\ starts_with r x = true.
Proof.
  revert p. induction old as [|c old IH]; intros p H; [by left|].
  destruct p as [|b p].
  - right. by exists (String c old).
  - change (String b p +:+ x) with (String b (p +:+ x)) in H. simpl in *.
    destruct (decide (c = b)) as [<-|]; [|discriminate].
    destruct (IH p H) as [Hp|(r & -> & Hr)]; [by left|].
    right. by exists r.
Qed.

Lemma occurs_head old s : starts_with old s = true -> occurs old s = true.
Proof. intros H. destruct s as [|c s]; [done|]. simpl. by rewrite H. Qed.

Lemma occurs_tail old c s : occurs old (String c s) = false -> occurs old s = false.
Proof.
  intros H. change (starts_with old (String c s) || occurs old s = false) in H.
  by apply orb_false_iff in H as [_ H].
Qed.

(** No proper end of [localhost] is a beginning of it, so no match begins in
    a text free of matches and ends in a [localhost] put behind it. *)
Lemma localhost_no_straddle y rest :
  y <> EmptyString -> occurs "localhost" y = false ->
  starts_with "localhost" (y +:+ "localhost" +:+ rest) = false.
Proof.
  intros Hne Hocc.
  destruct (starts_with "localhost" (y +:+ "localhost" +:+ rest)) eqn:Hsw; [|done].
  apply starts_with_app_split in Hsw as [Hy|(r & Heq & Hr)].
  { apply occurs_head in Hy. congruence. }
  destruct y as [|c1 y]; [done|]. clear Hne.
  change (String c1 y +:+ r) with (String c1 (y +:+ r)) in Heq. injection Heq as <- Heq.
  do 8 (destruct y as [|c y];
        [change (EmptyString +:+ r) with r in Heq; subst r; vm_compute in Hr; discriminate Hr|];
        change (String c y +:+ r) with (String c (y +:+ r)) in Heq; injection Heq as <- Heq).
  destruct y as [|c y]; [|discriminate Heq].
  vm_compute in Hocc. discriminate Hocc.
Qed.

(** The scan passes a text free of matches as it is and replaces the
    [localhost] behind it. *)
Lemma replace_go_piece new p t :
  occurs "localhost" p = false ->
  replace_go "localhost" new O (p +:+ "localhost" +:+ t) =
    p +:+ new +:+ replace_go "localhost" new O t.
Proof.
  induction p as [|c p IH]; intros Hocc.
  - apply (str_replace_hit "localhost" new t). discriminate.
  - change (String c p +:+ "localhost" +:+ t) with (String c (p +:+ "localhost" +:+ t)).
    rewrite replace_go_miss.
    + rewrite IH by (by eapply occurs_tail).
      reflexivity.
    + apply (localhost_no_straddle (String c p) t); done.
Qed.

Lemma str_replace_join new pieces :
  Forall (fun p => occurs "localhost" p = false) pieces ->
  str_replace (join "localhost" pieces) "localhost" new = join new pieces.
Proof.
  unfold str_replace. induction pieces as [|p [|q ps] IH]; intros Hall.
  - reflexivity.
  - simpl. apply replace_go_absent. by inversion Hall.
  - change (join "localhost" (p :: q :: ps))
      with (p +:+ "localhost" +:+ join "localhost" (q :: ps)).
    change (join new (p :: q :: ps)) with (p +:+ new +:+ join new (q :: ps)).
    inversion Hall as [|? ? Hp Hrest]; subst.
    rewrite replace_go_piece by done. by rewrite IH.
Qed.

Lemma occurs_first old s :
  old <> EmptyString -> occurs old s = true ->
  exists p t, s = p +:+ old +:+ t /\ occurs old p = false.
Proof.
  intros Hne. induction s as [|c s IH]; intros Hocc.
  - destruct old; [done|discriminate].
  - destruct (starts_with old (String c s)) eqn:Hsw.
    + apply starts_with_inv in Hsw as [t Ht]. exists EmptyString, t. split; [done|].
      by destruct old.
    + change (starts_with old (String c s) || occurs old s = true) in Hocc.
      rewrite Hsw in Hocc. simpl in Hocc.
      destruct (IH Hocc) as (p & t & -> & Hp).
      exists (String c p), t. split; [done|].
      change (starts_with old (String c p) || occurs old p = false).
      rewrite Hp, orb_false_r.
      destruct (starts_with old (String c p)) eqn:Hsw'; [|done].
      apply (starts_with_prefix _ _ (old +:+ t)) in Hsw'.
      change (String c p +:+ old +:+ t) with (String c (p +:+ old +:+ t)) in Hsw'.
      congruence.
Qed.

(** Every text is pieces free of [localhost] with [localhost] between them. *)
Lemma join_localhost_pieces n :
  forall s, (String.length s <= n)%nat ->
    exists p ps, Forall (fun p => occurs "localhost" p = false) (p :: ps) /\
                 s = join "localhost" (p :: ps).
Proof.
  induction n as [|n IH]; intros s Hlen.
  - destruct s; [|simpl in Hlen; lia]. exists EmptyString, []. split; [|done].
    by constructor.
  - destruct (occurs "localhost" s) eqn:Hocc.
    + apply occurs_first in Hocc as (p & t & -> & Hp); [|discriminate].
      destruct (IH t) as (q & qs & Hall & ->).
      { rewrite !string_length_app in Hlen. simpl in Hlen. lia. }
      exists p, (q :: qs). split; [by constructor|done].
    + exists s, []. split; [|done]. by constructor.
Qed.

(** C6, as the code has it. The task replaces the text [localhost] wherever
    it occurs in the advertised URL, from left to right: a URL made of pieces
    free of [localhost] with [localhost] between them is connected to as the
    same pieces with the configured host between them, and every URL is made
    that way. So an advertised [ws://localhost<rest>] with no further
    [localhost] in [<rest>] makes it connect to [ws://<CDP_HOST><rest>], and a
    URL that does not contain the text is connected to as advertised. *)
Theorem debugger_url_replaces_localhost :
  (forall env sid port i response items pieces w,
     json_loads env response = inr (JObj items) ->
     dict_get items "webSocketDebuggerUrl" (JStr "") = JStr (join "localhost" pieces) ->
     Forall (fun p => occurs "localhost" p = false) pieces ->
     monitor_step env sid port (AwaitVersionRecv i) (inr response) w =
       (AwaitDebuggerConnect, w,
        [AConnect DebuggerEndpoint
           (join (environ_get env "CDP_HOST" "host.docker.internal") pieces)])) /\
  (forall url, exists pieces,
     Forall (fun p => occurs "localhost" p = false) pieces /\
     url = join "localhost" pieces) /\
  (forall env sid port i response items rest w,
     json_loads env response = inr (JObj items) ->
     dict_get items "webSocketDebuggerUrl" (JStr "") = JStr ("ws://localhost" +:+ rest) ->
     occurs "localhost" rest = false ->
     monitor_step env sid port (AwaitVersionRecv i) (inr response) w =
       (AwaitDebuggerConnect, w,
        [AConnect DebuggerEndpoint
           ("ws://" +:+ environ_get env "CDP_HOST" "host.docker.internal" +:+ rest)])) /\
  (forall env sid port i response items url w,
     json_loads env response = inr (JObj items) ->
     dict_get items "webSocketDebuggerUrl" (JStr "") = JStr url ->
     occurs "localhost" url = false ->
     monitor_step env sid port (AwaitVersionRecv i) (inr response) w =
       (AwaitDebuggerConnect, w, [AConnect DebuggerEndpoint url])).
Proof.
  split; [|split; [|split]].
  - intros env sid port i response items pieces w Hj Hget Hall.
    simpl. unfold debugger_url. rewrite Hj, Hget. by rewrite str_replace_join.
  - intros url. destruct (join_localhost_pieces (String.length url) url) as (p & ps & H);
      [lia|]. by exists (p :: ps).
  - intros env sid port i response items rest w Hj Hget Habs.
    simpl. unfold debugger_url. rewrite Hj, Hget. by rewrite str_replace_localhost.
  - intros env sid port i response items url w Hj Hget Habs.
    simpl. unfold debugger_url. rewrite Hj, Hget. unfold str_replace.
    by rewrite replace_go_absent.
Qed.

Lemma debugger_url_replaces_localhost_witness :
  monitor_step (advertising_env "ws://localhost:9222/devtools/page/localhost-1") "9f1c" 9222
    (AwaitVersionRecv 0) (inr "version") initial_world =
  (AwaitDebuggerConnect, initial_world,
   [AConnect DebuggerEndpoint
      (join "host.docker.internal" ["ws://"; ":9222/devtools/page/"; "-1"])]) /\
  join "host.docker.internal" ["ws://"; ":9222/devtools/page/"; "-1"] =
    "ws://host.docker.internal:9222/devtools/page/host.docker.internal-1".
Proof.
  destruct debugger_url_replaces_localhost as [H _].
  split; [|reflexivity].
  eapply (H (advertising_env "ws://localhost:9222/devtools/page/localhost-1") "9f1c" 9222 O
            "version" _ ["ws://"; ":9222/devtools/page/"; "-1"] initial_world).
  - reflexivity.
  - reflexivity.
  - repeat constructor.
Defined.

(** C6, as stated, fails twice: a URL that advertises another host keeps it,
    and a [localhost] further down the URL is replaced as well. *)
Lemma debugger_url_host_not_rewritten :
  ~ host_rewritten (advertising_env "ws://127.0.0.1:9222/devtools/browser/b0b8")
      "ws://127.0.0.1:9222/devtools/browser/b0b8" /\
  ~ host_rewritten (advertising_env "ws://localhost:9222/devtools/page/localhost-1")
      "ws://localhost:9222/devtools/page/localhost-1" /\
  monitor_step (advertising_env "ws://127.0.0.1:9222/devtools/browser/b0b8") "9f1c" 9222
    (AwaitVersionRecv 0) (inr "version") initial_world =
  (AwaitDebuggerConnect, initial_world,
   [AConnect DebuggerEndpoint "ws://127.0.0.1:9222/devtools/browser/b0b8"]) /\
  monitor_step (advertising_env "ws://localhost:9222/devtools/page/localhost-1") "9f1c" 9222
    (AwaitVersionRecv 0) (inr "version") initial_world =
  (AwaitDebuggerConnect, initial_world,
   [AConnect DebuggerEndpoint
      "ws://host.docker.internal:9222/devtools/page/host.docker.internal-1"]).
Proof.
  split; [|split; [|split; reflexivity]].
  - intros H.
    specialize (H "version" _ "127.0.0.1" ":9222/devtools/browser/b0b8"
                  eq_refl eq_refl eq_refl).
    vm_compute in H. discriminate H.
  - intros H.
    specialize (H "version" _ "localhost" ":9222/devtools/page/localhost-1"
                  eq_refl eq_refl eq_refl).
    vm_compute in H. discriminate H.
Qed.

(** ** Signalling the browser process *)

Lemma os_kill_raises_Exception env p sig w e :
  os_kill env p sig w = inl e -> is_Exception e = true.
Proof.
  unfold os_kill. destruct (kill_fault env p sig); [by intros [= <-]|].
  destruct (procs w !! p); [discriminate|by intros [= <-]].
Qed.

Lemma deliver_not_revived sig pr :
  returncode (deliver sig pr) = None -> returncode pr = None.
Proof. destruct sig, pr as [[rc|] ? ?]; simpl; done. Qed.

Lemma os_kill_frame env p sig w w' :
  os_kill env p sig w = inr w' ->
  browser_sessions w' = browser_sessions w /\ monitoring_tasks w' = monitoring_tasks w /\
  buffers w' = buffers w /\ tasks w' = tasks w /\
  (forall q, alive w' q = true -> alive w q = true) /\
  (sig = SIGKILL -> alive w' p = false).
Proof.
  unfold os_kill. destruct (kill_fault env p sig); [discriminate|].
  destruct (procs w !! p) as [pr|] eqn:Hp; [|discriminate].
  intros [= <-]. repeat split; try done.
  - intros q. rewrite alive_set_procs_insert. destruct (decide (p = q)) as [<-|]; [|done].
    unfold alive. rewrite Hp. rewrite !bool_decide_eq_true. apply deliver_not_revived.
  - intros ->. rewrite alive_set_procs_insert. rewrite decide_True by done.
    apply bool_decide_eq_false. by destruct pr as [[rc|] ? ?].
Qed.

(** The guarded kill never raises, touches nothing but the process table, and
    revives nothing. *)
Lemma try_kill_frame env sig p on_ok on_error w :
  exists w1 log,
    try_kill env sig p on_ok on_error w = (w1, None, log) /\
    browser_sessions w1 = browser_sessions w /\ monitoring_tasks w1 = monitoring_tasks w /\
    buffers w1 = buffers w /\ tasks w1 = tasks w /\
    (forall q, alive w1 q = true -> alive w q = true) /\
    (sig = SIGKILL -> pid_exists_fault env p = None -> kill_fault env p SIGKILL = None ->
     alive w1 p = false).
Proof.
  unfold try_kill.
  destruct (is_process_running env w p) eqn:Hrun.
  - destruct (os_kill env p sig w) as [e|w'] eqn:Hk.
    + rewrite (os_kill_raises_Exception _ _ _ _ _ Hk).
      exists w, (on_error e). repeat split; try done.
      intros -> _ Hnf. unfold os_kill in Hk. rewrite Hnf in Hk.
      destruct (procs w !! p) eqn:Hp; [discriminate|]. unfold alive. by rewrite Hp.
    + apply os_kill_frame in Hk as (H1 & H2 & H3 & H4 & H5 & H6).
      exists w', on_ok. repeat split; try done. intros -> _ _. by apply H6.
  - exists w, []. repeat split; try done.
    intros _ Hpf _. unfold is_process_running, psutil_pid_exists in Hrun.
    rewrite Hpf in Hrun. apply bool_decide_eq_false in Hrun.
    unfold alive. destruct (procs w !! p) eqn:Hp; [|done]. exfalso. apply Hrun. eauto.
Qed.

(** ** delete_session *)

Lemma delete_session_registered env sid w s :
  browser_sessions w !! sid = Some s ->
  exists w' log,
    delete_session env sid w =
      (w', inr {| Status.status := "success";
                  Status.message := "Session " +:+ sid +:+ " terminated" |}, log) /\
    browser_sessions w' = delete sid (browser_sessions w) /\
    monitoring_tasks w' = delete sid (monitoring_tasks w) /\
    buffers w' = buffers w.
Proof.
  intros Hs. unfold delete_session. rewrite Hs.
  destruct (try_kill_frame env SIGTERM (pid (process s))
              [ALog INFO ("Terminated process " +:+ pretty (pid (process s)))]
              (fun e => [ALog ERROR ("Error terminating process: " +:+ exn_str e)]) w)
    as (w1 & log & -> & H1 & H2 & H3 & _).
  eexists _, log. split; [reflexivity|].
  destruct (monitoring_tasks w1 !! sid) as [h|] eqn:Hm; simpl.
  - by rewrite H1, H2, H3.
  - rewrite H1, H3. rewrite <- H2. by rewrite (delete_id (monitoring_tasks w1)).
Qed.

Lemma delete_session_unknown env sid w :
  browser_sessions w !! sid = None ->
  delete_session env sid w = (w, inl (HTTPException 404 "Session not found"), []).
Proof. intros Hs. unfold delete_session. by rewrite Hs. Qed.

(** C10. For a registered session id, [delete_session] removes the session
    record and the entry of its monitoring task and answers success, whatever
    the liveness check and [os.kill] do, raising included: no choice of the
    surroundings makes it raise or keep the record. *)
Theorem delete_session_always_deregisters env sid w s :
  browser_sessions w !! sid = Some s ->
  exists w' log,
    delete_session env sid w =
      (w', inr {| Status.status := "success";
                  Status.message := "Session " +:+ sid +:+ " terminated" |}, log) /\
    browser_sessions w' = delete sid (browser_sessions w) /\
    monitoring_tasks w' = delete sid (monitoring_tasks w) /\
    browser_sessions w' !! sid = None /\
    monitoring_tasks w' !! sid = None.
Proof.
  intros Hs.
  destruct (delete_session_registered env sid w s Hs) as (w' & log & Hd & Hr & Hm & _).
  exists w', log. rewrite Hr, Hm, !lookup_delete_eq. done.
Qed.

Lemma delete_session_always_deregisters_witness :
  exists w' log,
    delete_session refusing_env "9f1c" one_session =
      (w', inr {| Status.status := "success";
                  Status.message := "Session " +:+ "9f1c" +:+ " terminated" |}, log) /\
    browser_sessions w' = delete "9f1c" (browser_sessions one_session) /\
    monitoring_tasks w' = delete "9f1c" (monitoring_tasks one_session) /\
    browser_sessions w' !! "9f1c" = None /\
    monitoring_tasks w' !! "9f1c" = None.
Proof.
  eapply (delete_session_always_deregisters refusing_env "9f1c" one_session).
  vm_compute. reflexivity.
Defined.

(** ** shutdown_event *)

(** The loop of [shutdown_event] over any list of sessions: it does not
    raise, touches only the tasks and the process table, revives nothing, and
    leaves dead every process of the list whose check and kill went through. *)
Lemma shutdown_loop env items :
  forall w log0,
  exists w1 log,
    foldl (shutdown_one env) (w, None, log0) items = (w1, None, log) /\
    browser_sessions w1 = browser_sessions w /\ monitoring_tasks w1 = monitoring_tasks w /\
    buffers w1 = buffers w /\
    (forall q, alive w1 q = true -> alive w q = true) /\
    (forall item, item ∈ items ->
       pid_exists_fault env (pid (process item.2)) = None ->
       kill_fault env (pid (process item.2)) SIGKILL = None ->
       alive w1 (pid (process item.2)) = false).
Proof.
  induction items as [|item items IH]; intros w log0.
  - exists w, log0. repeat split; try done. intros item Hin. by apply elem_of_nil in Hin.
  - simpl.
    destruct (try_kill_frame env SIGKILL (pid (process item.2)) []
                (fun e => [ALog ERROR ("Error killing process "
                                        +:+ pretty (pid (process item.2)) +:+ ": "
                                        +:+ exn_str e)]) w)
      as (w1 & log1 & -> & H1 & H2 & H3 & _ & H5 & H6).
    set (w2 := match monitoring_tasks w1 !! item.1 with
               | Some handle => cancel handle w1
               | None => w1
               end).
    assert (browser_sessions w2 = browser_sessions w1 /\
            monitoring_tasks w2 = monitoring_tasks w1 /\
            buffers w2 = buffers w1 /\ procs w2 = procs w1) as (C1 & C2 & C3 & C4).
    { unfold w2. by destruct (monitoring_tasks w1 !! item.1). }
    assert (forall q, alive w2 q = alive w1 q) as Hal.
    { intros q. unfold alive. by rewrite C4. }
    destruct (IH w2 (log0 ++ log1)) as (w3 & log & -> & I1 & I2 & I3 & I4 & I5).
    exists w3, log. split; [done|].
    split; [congruence|]. split; [congruence|]. split; [congruence|]. split.
    + intros q Hq. apply H5. rewrite <- Hal. by apply I4.
    + intros it Hin Hpf Hkf. apply elem_of_cons in Hin as [->|Hin]; [|by apply I5].
      destruct (alive w3 (pid (process item.2))) eqn:Hq; [|done].
      apply I4 in Hq. rewrite Hal in Hq. rewrite H6 in Hq; done.
Qed.

(** C9, as the code has it. [shutdown_event] does not raise and leaves both
    dicts empty; a process tracked by a session that was registered at the
    start is not alive afterwards provided neither its existence check nor
    its [os.kill] raised. An error of the kill is logged and passed over. *)
Theorem shutdown_event_clears_registry env w :
  exists w' log,
    shutdown_event env w = (w', None, log) /\
    browser_sessions w' = ∅ /\
    monitoring_tasks w' = ∅ /\
    forall sid s,
      browser_sessions w !! sid = Some s ->
      pid_exists_fault env (pid (process s)) = None ->
      kill_fault env (pid (process s)) SIGKILL = None ->
      alive w' (pid (process s)) = false.
Proof.
  unfold shutdown_event.
  destruct (shutdown_loop env (map_to_list (browser_sessions w)) w [])
    as (w1 & log & -> & _ & _ & _ & _ & Hdead).
  eexists _, log. split; [reflexivity|]. split; [done|]. split; [done|].
  intros sid s Hs Hpf Hkf.
  apply elem_of_map_to_list in Hs. apply Hdead in Hs; done.
Qed.

Lemma shutdown_event_clears_registry_witness :
  exists w' log,
    shutdown_event demo_env one_session = (w', None, log) /\
    browser_sessions w' = ∅ /\ monitoring_tasks w' = ∅ /\ alive w' 4242 = false.
Proof.
  destruct (shutdown_event_clears_registry demo_env one_session)
    as (w' & log & Hrun & Hr & Hm & Hdead).
  exists w', log. split; [exact Hrun|]. split; [exact Hr|]. split; [exact Hm|].
  apply (Hdead "9f1c" {| session_id := "9f1c";
                         process := {| pid := 4242; stdout := Some 4242 |};
                         port := 9222; created_at := "2025-01-01T00:00:00";
                         events := 0 |}).
  - vm_compute. reflexivity.
  - reflexivity.
  - reflexivity.
Defined.

(** C9, as stated, fails when the OS refuses the kill: the registry is
    cleared all the same and the tracked process lives on. *)
Lemma shutdown_event_leaves_process_alive :
  ~ shutdown_kills_all refusing_env one_session /\
  alive one_session 4242 = true /\
  browser_sessions (shutdown_event refusing_env one_session).1.1 = ∅ /\
  alive (shutdown_event refusing_env one_session).1.1 4242 = true.
Proof.
  split; [|by vm_compute].
  intros (_ & _ & H).
  specialize (H "9f1c" {| session_id := "9f1c";
                          process := {| pid := 4242; stdout := Some 4242 |};
                          port := 9222; created_at := "2025-01-01T00:00:00";
                          events := 0 |} eq_refl).
  vm_compute in H. discriminate H.
Qed.

(** ** The effect of every transition on the registry and on the buffers *)

Lemma create_session_resume_fail env fr w w2 e a :
  create_session_resume env fr w = (w2, inl e, a) ->
  browser_sessions w2 = browser_sessions w /\ monitoring_tasks w2 = monitoring_tasks w /\
  buffers w2 = buffers w /\ tasks w2 = tasks w.
Proof.
  unfold create_session_resume.
  destruct (poll w (local_process fr)) as [rc|].
  - destruct (stdout (local_process fr)) as [fd|].
    + destruct (stdout_read w fd) as [w' out] eqn:Hrd.
      apply stdout_read_frame in Hrd as (H1 & H2 & H3 & H4 & _).
      by intros [= <- _ _].
    + by intros [= <- _ _].
  - simpl. rewrite lookup_insert_eq. discriminate.
Qed.

Lemma shutdown_event_frame env w :
  browser_sessions (shutdown_event env w).1.1 = ∅ /\
  monitoring_tasks (shutdown_event env w).1.1 = ∅ /\
  buffers (shutdown_event env w).1.1 = buffers w.
Proof.
  unfold shutdown_event.
  destruct (shutdown_loop env (map_to_list (browser_sessions w)) w [])
    as (w1 & log & -> & _ & _ & Hb & _). done.
Qed.

Lemma delete_session_frame env sid w :
  buffers (delete_session env sid w).1.1 = buffers w /\
  (browser_sessions (delete_session env sid w).1.1 = browser_sessions w \/
   browser_sessions (delete_session env sid w).1.1 = delete sid (browser_sessions w)).
Proof.
  destruct (browser_sessions w !! sid) as [s|] eqn:Hs.
  - destruct (delete_session_registered env sid w s Hs) as (w' & log & -> & Hr & _ & Hb).
    simpl. split; [done|by right].
  - rewrite delete_session_unknown by done. simpl. split; [done|by left].
Qed.

(** A session found in the registry after a transition was there before, or
    the transition is the registering piece of a [create_session] call, the
    session is that call's and its buffer is the list made last. *)
Lemma apply_op_lookup o w sid s :
  browser_sessions (apply_op o w) !! sid = Some s ->
  browser_sessions w !! sid = Some s \/
  exists env fr,
    o = OpCreateResume env fr /\ sid = local_session_id fr /\ port s = local_port fr /\
    events s = length (buffers w) /\
    buffers (apply_op o w) = buffers w ++ [[]].
Proof.
  destruct o as [env request|env fr|env sid'|env|env sid' port pc r|f]; simpl.
  - destruct (create_session_begin env request w) as [[w1 [e|fr]] a] eqn:Hb; simpl.
    + unfold create_session_begin in Hb. repeat case_match; simplify_eq/=; by left.
    + apply create_session_begin_frame in Hb as (_ & _ & _ & -> & _). by left.
  - destruct (create_session_resume env fr w) as [[w2 [e|resp]] a] eqn:Hr; simpl.
    + apply create_session_resume_fail in Hr as (-> & _). by left.
    + apply create_session_resume_ok in Hr as (_ & _ & _ & _ & -> & _ & Hbuf & _).
      rewrite lookup_insert. destruct (decide (local_session_id fr = sid)) as [<-|].
      * intros [= <-]. right. exists env, fr. simpl. done.
      * by left.
  - destruct (delete_session_frame env sid' w) as [_ [-> | ->]]; [by left|].
    intros H. left. by apply lookup_delete_Some in H as [_ ?].
  - destruct (shutdown_event_frame env w) as (-> & _). by rewrite lookup_empty.
  - destruct (monitor_step_frame env sid' port pc r w) as (-> & _). by left.
  - by left.
Qed.

Lemma append_event_buffers sid event w a evs :
  buffers w !! a = Some evs ->
  exists evs',
    buffers (append_event sid event w) !! a = Some evs' /\
    evs `prefix_of` evs' /\
    (detached a w -> evs' = evs).
Proof.
  intros Ha. unfold append_event.
  destruct (browser_sessions w !! sid) as [s|] eqn:Hs; [|by exists evs]. simpl.
  destruct (decide (events s = a)) as [<-|Hne].
  - exists (evs ++ [event]). rewrite list_lookup_alter_eq, Ha. split; [done|].
    split; [by apply prefix_app_r|]. intros Hd. by destruct (Hd sid s Hs).
  - exists evs. by rewrite list_lookup_alter_ne.
Qed.

Lemma monitor_step_buffers env sid port pc r w a evs :
  buffers w !! a = Some evs ->
  exists evs',
    buffers (monitor_step env sid port pc r w).1.2 !! a = Some evs' /\
    evs `prefix_of` evs' /\
    (detached a w -> evs' = evs).
Proof.
  intros Ha.
  destruct pc as [i|i|i| |rest| |o]; destruct r as [e|s]; simpl;
    unfold discovery_failed, discovery_turn, cdp_failed, drain_failed;
    repeat case_match; simplify_eq/=;
    try (by exists evs); by apply append_event_buffers.
Qed.

(** No transition shortens or rewrites a buffer, and none touches a buffer
    that no registered session owns. *)
Lemma apply_op_buffers o w a evs :
  buffers w !! a = Some evs ->
  exists evs',
    buffers (apply_op o w) !! a = Some evs' /\
    evs `prefix_of` evs' /\
    (detached a w -> evs' = evs).
Proof.
  intros Ha.
  destruct o as [env request|env fr|env sid'|env|env sid' port pc r|f]; simpl.
  - exists evs. split; [|done].
    destruct (create_session_begin env request w) as [[w1 [e|fr]] acts] eqn:Hb; simpl.
    + unfold create_session_begin in Hb. repeat case_match; simplify_eq/=; done.
    + apply create_session_begin_frame in Hb as (_ & _ & _ & _ & _ & -> & _). done.
  - exists evs. split; [|done].
    destruct (create_session_resume env fr w) as [[w2 [e|resp]] acts] eqn:Hr; simpl.
    + apply create_session_resume_fail in Hr as (_ & _ & -> & _). done.
    + apply create_session_resume_ok in Hr as (_ & _ & _ & _ & _ & _ & -> & _).
      rewrite lookup_app_l; [done|]. by eapply lookup_lt_Some.
  - exists evs. destruct (delete_session_frame env sid' w) as [-> _]. done.
  - exists evs. destruct (shutdown_event_frame env w) as (_ & _ & ->). done.
  - by apply monitor_step_buffers.
  - by exists evs.
Qed.

Lemma apply_op_detached o w a :
  (a < length (buffers w))%nat -> detached a w -> detached a (apply_op o w).
Proof.
  intros Hlt Hd sid s Hs.
  apply apply_op_lookup in Hs as [Hs|(env & fr & _ & _ & _ & Hev & _)].
  - by eapply Hd.
  - lia.
Qed.

Lemma run_cons o ops w : run (o :: ops) w = run ops (apply_op o w).
Proof. done. Qed.

Lemma run_buffers_prefix ops :
  forall w a evs,
    buffers w !! a = Some evs ->
    exists evs', buffers (run ops w) !! a = Some evs' /\ evs `prefix_of` evs'.
Proof.
  induction ops as [|o ops IH]; intros w a evs Ha; [by exists evs|].
  rewrite run_cons.
  destruct (apply_op_buffers o w a evs Ha) as (evs1 & H1 & Hp1 & _).
  destruct (IH _ _ _ H1) as (evs2 & H2 & Hp2).
  exists evs2. split; [done|]. by etrans.
Qed.

Lemma run_buffers_detached ops :
  forall w a evs,
    buffers w !! a = Some evs -> detached a w ->
    buffers (run ops w) !! a = Some evs /\ detached a (run ops w).
Proof.
  induction ops as [|o ops IH]; intros w a evs Ha Hd; [done|].
  rewrite run_cons.
  destruct (apply_op_buffers o w a evs Ha) as (evs1 & H1 & _ & Heq).
  rewrite (Heq Hd) in H1.
  apply IH; [done|]. apply apply_op_detached; [|done]. by eapply lookup_lt_Some.
Qed.

Lemma apply_op_buffers_owned o w : buffers_owned w -> buffers_owned (apply_op o w).
Proof.
  intros [Hlt Hinj].
  assert (length (buffers w) <= length (buffers (apply_op o w)))%nat as Hlen.
  { destruct (buffers w) as [|b bs] eqn:Hb using rev_ind; [simpl; lia|].
    clear IHbs.
    assert (buffers w !! length bs = Some b) as Hlast.
    { rewrite Hb. by rewrite lookup_app_r, Nat.sub_diag by lia. }
    destruct (apply_op_buffers o w _ _ Hlast) as (evs' & H' & _).
    apply lookup_lt_Some in H'. rewrite length_app. simpl. lia. }
  split.
  - intros sid s Hs.
    apply apply_op_lookup in Hs as [Hs|(env & fr & _ & _ & _ & Hev & Hbuf)].
    + specialize (Hlt _ _ Hs). lia.
    + rewrite Hbuf, length_app, Hev. simpl. lia.
  - intros sid1 sid2 s1 s2 H1 H2 Hne.
    apply apply_op_lookup in H1 as [H1|(env1 & fr1 & Ho1 & Hsid1 & _ & Hev1 & _)];
      apply apply_op_lookup in H2 as [H2|(env2 & fr2 & Ho2 & Hsid2 & _ & Hev2 & _)].
    + by eapply Hinj.
    + specialize (Hlt _ _ H1). lia.
    + specialize (Hlt _ _ H2). lia.
    + congruence.
Qed.

Lemma run_buffers_owned ops : forall w, buffers_owned w -> buffers_owned (run ops w).
Proof.
  induction ops as [|o ops IH]; intros w Hw; [done|].
  rewrite run_cons. by apply IH, apply_op_buffers_owned.
Qed.

Lemma initial_buffers_owned : buffers_owned initial_world.
Proof. split; intros *; simpl; by rewrite lookup_empty. Qed.

(** ** Ports of registered sessions *)






(** ** The event buffer *)

Lemma removed_buffer_detached (w w' : World) sid s :
  buffers_owned w ->
  browser_sessions w !! sid = Some s ->
  (browser_sessions w' = delete sid (browser_sessions w) \/ browser_sessions w' = ∅) ->
  detached (events s) w'.
Proof.
  intros [_ Hinj] Hs Hreg sid' s' Hs'. destruct Hreg as [Hreg|Hreg]; rewrite Hreg in Hs'.
  - apply lookup_delete_Some in Hs' as [Hne Hs']. by eapply Hinj.
  - by rewrite lookup_empty in Hs'.
Qed.

(** C8. Whatever runs, a session's event buffer only grows at its end, so its
    length never decreases; a message received in the drain loop for a
    registered session is appended to that session's buffer. Once the session
    has been removed, by [delete_session] or by [shutdown_event], its buffer
    stays as it was through everything that runs later, and the piece of the
    task that is resumed with a message received meanwhile changes nothing. *)
Theorem events_buffer_grows_until_removed :
  (forall ops w a evs,
     buffers w !! a = Some evs ->
     exists evs',
       buffers (run ops w) !! a = Some evs' /\ evs `prefix_of` evs' /\
       (length evs <= length evs')%nat) /\
  (forall env sid port s message event w evs,
     browser_sessions w !! sid = Some s ->
     json_loads env message = inr event ->
     buffers w !! events s = Some evs ->
     exists w',
       monitor_step env sid port AwaitRecv (inr message) w
         = (AwaitRecv, w', [ARecv (Some 1000)]) /\
       buffers w' !! events s = Some (evs ++ [event])) /\
  (forall ops0 env sid s remove ops,
     browser_sessions (run ops0 initial_world) !! sid = Some s ->
     remove = OpDelete env sid \/ remove = OpShutdown env ->
     browser_sessions (apply_op remove (run ops0 initial_world)) !! sid = None /\
     is_Some (buffers (run ops0 initial_world) !! events s) /\
     buffers (run ops (apply_op remove (run ops0 initial_world))) !! events s
       = buffers (run ops0 initial_world) !! events s) /\
  (forall env sid port r w,
     browser_sessions w !! sid = None ->
     (monitor_step env sid port AwaitRecv r w).1.2 = w /\
     forall message event,
       r = inr message -> json_loads env message = inr event ->
       monitor_step env sid port AwaitRecv r w = (Done Returned, w, [])).
Proof.
  split; [|split; [|split]].
  - intros ops w a evs Ha.
    destruct (run_buffers_prefix ops w a evs Ha) as (evs' & H' & Hp).
    exists evs'. split; [done|]. split; [done|]. by apply prefix_length.
  - intros env sid port s message event w evs Hs Hj Ha.
    simpl. rewrite Hj. unfold drain_turn, append_event. rewrite Hs. simpl. rewrite Hs.
    eexists. split; [reflexivity|]. simpl. by rewrite list_lookup_alter_eq, Ha.
  - intros ops0 env sid s remove ops Hs Hrem.
    set (w := run ops0 initial_world) in *.
    assert (buffers_owned w) as Hown by apply run_buffers_owned, initial_buffers_owned.
    destruct (lookup_lt_is_Some_2 (buffers w) (events s)) as [evs Hevs].
    { destruct Hown as [Hlt _]. by eapply Hlt. }
    assert (buffers (apply_op remove w) = buffers w /\
            (browser_sessions (apply_op remove w) = delete sid (browser_sessions w) \/
             browser_sessions (apply_op remove w) = ∅)) as [Hb Hreg].
    { destruct Hrem as [-> | ->]; simpl.
      - destruct (delete_session_registered env sid w s Hs) as (w' & log & -> & Hr & _ & Hb).
        simpl. split; [done|by left].
      - destruct (shutdown_event_frame env w) as (Hr & _ & Hb). split; [done|by right]. }
    split; [|split; [by eexists|]].
    + destruct Hreg as [-> | ->]; [apply lookup_delete_eq|apply lookup_empty].
    + rewrite Hevs. eapply run_buffers_detached.
      * by rewrite Hb.
      * by eapply removed_buffer_detached.
  - intros env sid port r w Hs. split.
    + destruct r as [e|message]; simpl; unfold drain_failed, drain_turn, append_event;
        repeat case_match; simplify_eq/=; done.
    + intros message event -> Hj. simpl. rewrite Hj.
      unfold drain_turn, append_event. rewrite Hs. simpl. by rewrite Hs.
Qed.

Lemma events_buffer_grows_until_removed_witness :
  (exists w',
     monitor_step demo_env "9f1c" 9222 AwaitRecv (inr "Page.loadEventFired") one_session
       = (AwaitRecv, w', [ARecv (Some 1000)]) /\
     buffers w' !! 0%nat = Some ([] ++ [JStr "Page.loadEventFired"])) /\
  buffers (run [OpMonitor demo_env "9f1c" 9222 AwaitRecv (inr "Page.loadEventFired")]
             (apply_op (OpDelete demo_env "9f1c")
                (run [OpCreateBegin demo_env demo_request;
                      OpCreateResume demo_env first_frame] initial_world))) !! 0%nat
    = buffers (run [OpCreateBegin demo_env demo_request;
                    OpCreateResume demo_env first_frame] initial_world) !! 0%nat.
Proof.
  destruct events_buffer_grows_until_removed as (_ & Happend & Hfrozen & _). split.
  - apply (Happend demo_env "9f1c" 9222
             {| session_id := "9f1c"; process := {| pid := 4242; stdout := Some 4242 |};
                port := 9222; created_at := "2025-01-01T00:00:00"; events := 0 |}
             "Page.loadEventFired" (JStr "Page.loadEventFired") one_session []).
    + vm_compute. reflexivity.
    + reflexivity.
    + vm_compute. reflexivity.
  - apply (Hfrozen [OpCreateBegin demo_env demo_request; OpCreateResume demo_env first_frame]
             demo_env "9f1c"
             {| session_id := "9f1c"; process := {| pid := 4242; stdout := Some 4242 |};
                port := 9222; created_at := "2025-01-01T00:00:00"; events := 0 |}
             (OpDelete demo_env "9f1c")
             [OpMonitor demo_env "9f1c" 9222 AwaitRecv (inr "Page.loadEventFired")]).
    + vm_compute. reflexivity.
    + left. reflexivity.
Defined.

(** * Further properties of the server *)

(** ** find_free_port with other bounds *)

(** X1. For any bounds, [find_free_port] tries the numbers from
    [start_port] to [end_port] in ascending order. It returns [p] exactly
    when [p] is a port number (0..65535) on which the bind succeeds and every
    number before it is a port number on which the bind is refused. It
    raises its IOError exactly when every number of the range is a port
    number on which the bind is refused, which is always so for an empty
    range. And it raises OverflowError exactly when it meets a number that
    is no port number before any bind succeeds. *)
Theorem find_free_port_in_lowest_bindable bind start_port end_port :
  (forall p,
     find_free_port_in bind start_port end_port = inr p <->
     start_port <= p <= end_port /\ 0 <= p <= 65535 /\ bind p = true /\
     forall r, start_port <= r < p -> 0 <= r <= 65535 /\ bind r = false) /\
  (find_free_port_in bind start_port end_port =
     inl (OSError ("No free ports in range " +:+ pretty start_port +:+ "-"
                     +:+ pretty end_port)) <->
   forall r, start_port <= r <= end_port -> 0 <= r <= 65535 /\ bind r = false) /\
  (find_free_port_in bind start_port end_port = inl (OtherException "OverflowError") <->
   exists q, start_port <= q <= end_port /\ ~ (0 <= q <= 65535) /\
             forall r, start_port <= r < q -> 0 <= r <= 65535 /\ bind r = false) /\
  (end_port < start_port ->
   find_free_port_in bind start_port end_port =
     inl (OSError ("No free ports in range " +:+ pretty start_port +:+ "-"
                     +:+ pretty end_port))).
Proof.
  unfold find_free_port_in.
  destruct (scan_ports bind start_port (Z.to_nat (end_port + 1 - start_port)))
    as [[e|q]|] eqn:Hs.
  - apply scan_ports_raised in Hs as (-> & q & Hq & Hnv & Hlow).
    split; [|split; [|split]].
    + intros p. split; [discriminate|].
      intros (Hp & Hvp & Hbp & Hlp).
      destruct (Z.lt_trichotomy q p) as [Hlt|[->|Hgt]]; [|done|].
      * destruct (Hlp q) as [Hvq _]; [lia|]. done.
      * destruct (Hlow p) as [_ Hb]; [lia|]. congruence.
    + split; [discriminate|]. intros Hall. destruct (Hall q) as [Hvq _]; [lia|]. done.
    + split; [|done]. intros _. exists q. split; [lia|]. done.
    + intros Hempty. lia.
  - apply scan_ports_found in Hs as (Hr & Hvq & Hb & Hlow).
    split; [|split; [|split]].
    + intros p. split.
      * intros [= <-]. split; [lia|]. done.
      * intros (Hp & Hvp & Hbp & Hlp). f_equal.
        destruct (Z.lt_trichotomy q p) as [Hlt|[->|Hgt]]; [|done|].
        -- destruct (Hlp q) as [_ Hb']; [lia|]. congruence.
        -- destruct (Hlow p) as [_ Hb']; [lia|]. congruence.
    + split; [discriminate|]. intros Hall. destruct (Hall q) as [_ Hb']; [lia|]. congruence.
    + split; [discriminate|]. intros (q' & Hq' & Hnv & Hlow').
      destruct (Z.lt_trichotomy q q') as [Hlt|[->|Hgt]]; [|done|].
      * destruct (Hlow' q) as [_ Hb']; [lia|]. congruence.
      * destruct (Hlow q') as [Hv' _]; [lia|]. done.
    + intros Hempty. lia.
  - rewrite scan_ports_None in Hs.
    split; [|split; [|split]].
    + intros p. split; [discriminate|].
      intros (Hp & _ & Hbp & _). destruct (Hs p) as [_ Hb']; [lia|]. congruence.
    + split; [|done]. intros _ r Hr. apply Hs. lia.
    + split; [discriminate|]. intros (q & Hq & Hnv & _).
      destruct (Hs q) as [Hv _]; [lia|]. done.
    + done.
Qed.

Lemma find_free_port_in_lowest_bindable_witness :
  find_free_port_in (fun p => bool_decide (9000 < p)) 9005 9001 =
    inl (OSError ("No free ports in range " +:+ pretty 9005 +:+ "-" +:+ pretty 9001)) /\
  find_free_port_in (fun p => bool_decide (9000 < p)) 8999 9003 = inr 9001 /\
  find_free_port_in (fun _ => true) (-1) 0 = inl (OtherException "OverflowError").
Proof.
  split; [|split].
  - apply (find_free_port_in_lowest_bindable (fun p => bool_decide (9000 < p)) 9005 9001). lia.
  - apply (find_free_port_in_lowest_bindable (fun p => bool_decide (9000 < p)) 8999 9003).
    split; [lia|]. split; [lia|]. split; [reflexivity|].
    intros r Hr. split; [lia|]. apply bool_decide_eq_false. lia.
  - apply (find_free_port_in_lowest_bindable (fun _ => true) (-1) 0).
    exists (-1). split; [lia|]. split; [lia|]. intros r Hr. lia.
Defined.

(** ** create_session: the launch *)

(** X2. When [subprocess.Popen] raises, the call answers 500 with the fixed
    detail [Failed to start browser]: the error's own text goes to the log
    only, and nothing of the shared state has changed. *)
Theorem create_session_popen_failure env env' request settle w p e :
  find_free_port (sock_bind env) = inr p ->
  popen env (chrome_cmd env p) = inl e ->
  is_Exception e = true ->
  create_session env env' request settle w =
    (w, inl (HTTPException 500 "Failed to start browser"),
     [ALog ERROR ("Failed to start Chrome: " +:+ exn_str e)]) /\
  http_answer create_session_route (create_session env env' request settle w).1.2 =
    (500, JObj [("detail", JStr "Failed to start browser")]).
Proof.
  intros Hp Hpo He.
  assert (create_session env env' request settle w =
            (w, inl (HTTPException 500 "Failed to start browser"),
             [ALog ERROR ("Failed to start Chrome: " +:+ exn_str e)])) as Hc.
  { unfold create_session, create_session_begin. by rewrite Hp, Hpo, He. }
  split; [done|]. by rewrite Hc.
Qed.

Lemma create_session_popen_failure_witness :
  create_session
    {| environ := ∅; uuid4 := "9f1c"; now_isoformat := "2025-01-01T00:00:00";
       sock_bind := fun _ => true;
       popen := fun _ => inl (OSError "[Errno 2] No such file or directory: 'google-chrome'");
       pid_exists_fault := fun _ => None; kill_fault := fun _ _ => None;
       json_loads := fun s => inr (JStr s) |}
    demo_env demo_request id one_session =
    (one_session, inl (HTTPException 500 "Failed to start browser"),
     [ALog ERROR ("Failed to start Chrome: "
                    +:+ "[Errno 2] No such file or directory: 'google-chrome'")]).
Proof.
  refine (proj1 (create_session_popen_failure _ demo_env demo_request id one_session 9222
                   (OSError "[Errno 2] No such file or directory: 'google-chrome'") _ _ _)).
  - vm_compute. reflexivity.
  - reflexivity.
  - reflexivity.
Defined.

Lemma create_session_resume_tasks env fr w w2 resp a :
  create_session_resume env fr w = (w2, inr resp, a) ->
  tasks w2 = tasks w ++ [{| task_session_id := local_session_id fr;
                            task_port := local_port fr;
                            cancel_requested := false |}] /\
  a = [].
Proof.
  unfold create_session_resume.
  destruct (poll w (local_process fr)) as [rc|].
  - destruct (stdout (local_process fr)) as [fd|];
      [destruct (stdout_read w fd)|]; discriminate.
  - simpl. rewrite lookup_insert_eq. by intros [= <- <- <-].
Qed.

(** X3. A [create_session] call that succeeds has started the browser with
    the debugging-port flag of the very port it registers and answers: the
    session found under the answered id holds that port and that process,
    starts with an empty event list, and its entry in the task map leads to
    a task, not cancelled, for the same id and port. *)
Theorem create_session_registers_what_it_launched
    env env' request w w1 fr a w1' w2 resp a' :
  create_session_begin env request w = (w1, inr fr, a) ->
  create_session_resume env' fr w1' = (w2, inr resp, a') ->
  popen env (chrome_cmd env (local_port fr)) = inr (pid (local_process fr)) /\
  "--remote-debugging-port=" +:+ pretty (local_port fr) ∈ chrome_cmd env (local_port fr) /\
  exists s h t,
    browser_sessions w2 !! SessionResponse.session_id resp = Some s /\
    session_id s = SessionResponse.session_id resp /\
    port s = local_port fr /\ process s = local_process fr /\
    created_at s = SessionResponse.created_at resp /\
    SessionResponse.cdp_url resp =
      "ws://" +:+ environ_get env' "CDP_HOST" "host.docker.internal" +:+ ":"
        +:+ pretty (port s) /\
    buffers w2 !! events s = Some [] /\
    monitoring_tasks w2 !! SessionResponse.session_id resp = Some h /\
    tasks w2 !! h = Some t /\
    task_session_id t = SessionResponse.session_id resp /\
    task_port t = port s /\ cancel_requested t = false.
Proof.
  intros Hb Hr. split; [|split].
  - unfold create_session_begin in Hb.
    destruct (find_free_port (sock_bind env)) as [e|p]; [discriminate|].
    destruct (popen env (chrome_cmd env p)) as [e|child] eqn:Hpo.
    + destruct (is_Exception e); discriminate.
    + injection Hb as _ <- _. simpl. exact Hpo.
  - unfold chrome_cmd. apply elem_of_cons. right. apply elem_of_cons. by left.
  - destruct (create_session_resume_tasks _ _ _ _ _ _ Hr) as [Ht _].
    apply create_session_resume_ok in Hr as (_ & Hsid & Hurl & Hcr & Hreg & Hmt & Hbuf & _).
    eexists _, _, _. rewrite Hreg, Hmt, Hbuf, Ht, Hsid, Hcr, Hurl.
    split; [apply lookup_insert_eq|]. simpl.
    do 5 (split; [reflexivity|]).
    split; [by rewrite lookup_app_r, Nat.sub_diag by lia|].
    split; [apply lookup_insert_eq|].
    split; [by rewrite lookup_app_r, Nat.sub_diag by lia|]. done.
Qed.

Lemma create_session_registers_what_it_launched_witness :
  exists s, browser_sessions one_session !! "9f1c" = Some s /\ port s = 9222 /\
            buffers one_session !! events s = Some [].
Proof.
  destruct (create_session_registers_what_it_launched demo_env demo_env demo_request
              initial_world (set_procs <[4242 := Proc None [] ""]> initial_world)
              first_frame [AThread "log_output" "9f1c"; ASleep 1000]
              (set_procs <[4242 := Proc None [] ""]> initial_world) one_session
              {| SessionResponse.session_id := "9f1c";
                 SessionResponse.cdp_url := "ws://host.docker.internal:9222";
                 SessionResponse.created_at := "2025-01-01T00:00:00" |} [])
    as (_ & _ & s & h & t & Hs & _ & Hp & _ & _ & _ & Hb & _).
  - vm_compute. reflexivity.
  - vm_compute. reflexivity.
  - exists s. split; [exact Hs|]. split; [exact Hp|exact Hb].
Defined.

(** ** get_session and delete_session *)

(** X4. Right after a [create_session] call that succeeded, [get_session] on
    the answered id returns the same id, creation time and URL as the call
    did, provided CDP_HOST is set as it was then, and reports the process
    alive unless the existence check itself fails. *)
Theorem get_session_after_create env fr w w2 resp a env2 :
  create_session_resume env fr w = (w2, inr resp, a) ->
  environ env2 !! "CDP_HOST" = environ env !! "CDP_HOST" ->
  pid_exists_fault env2 (pid (local_process fr)) = None ->
  get_session env2 (SessionResponse.session_id resp) w2 =
    inr {| SessionInfo.session_id := SessionResponse.session_id resp;
           SessionInfo.created_at := SessionResponse.created_at resp;
           SessionInfo.cdp_url := SessionResponse.cdp_url resp;
           SessionInfo.alive := true |}.
Proof.
  intros Hr Henv Hpf.
  apply create_session_resume_ok in Hr as (Hpoll & Hsid & Hurl & Hcr & Hreg & _ & _ & Hprocs).
  unfold get_session. rewrite Hreg, Hsid, lookup_insert_eq. simpl.
  rewrite Hurl, Hcr. unfold environ_get. rewrite Henv.
  unfold is_process_running, psutil_pid_exists. rewrite Hpf, Hprocs.
  unfold poll in Hpoll. destruct (procs w !! pid (local_process fr)) as [pr|]; [|done].
  rewrite bool_decide_eq_true_2 by eauto. done.
Qed.

Lemma get_session_after_create_witness :
  get_session refusing_env "9f1c" one_session =
    inr {| SessionInfo.session_id := "9f1c";
           SessionInfo.created_at := "2025-01-01T00:00:00";
           SessionInfo.cdp_url := "ws://host.docker.internal:9222";
           SessionInfo.alive := true |}.
Proof.
  apply (get_session_after_create demo_env first_frame
           (set_procs <[4242 := Proc None [] ""]> initial_world) one_session
           {| SessionResponse.session_id := "9f1c";
              SessionResponse.cdp_url := "ws://host.docker.internal:9222";
              SessionResponse.created_at := "2025-01-01T00:00:00" |} [] refusing_env).
  - vm_compute. reflexivity.
  - reflexivity.
  - reflexivity.
Defined.

(** X5. After [delete_session] of a registered id, [get_session] on that id
    answers 404, and so does a second [delete_session], which changes
    nothing and logs nothing. *)
Theorem delete_then_get_not_found env env2 env3 sid w s :
  browser_sessions w !! sid = Some s ->
  get_session env2 sid (delete_session env sid w).1.1
    = inl (HTTPException 404 "Session not found") /\
  delete_session env3 sid (delete_session env sid w).1.1
    = ((delete_session env sid w).1.1, inl (HTTPException 404 "Session not found"), []).
Proof.
  intros Hs.
  destruct (delete_session_registered env sid w s Hs) as (w' & log & -> & Hr & _).
  simpl. assert (browser_sessions w' !! sid = None) as Hgone.
  { rewrite Hr. apply lookup_delete_eq. }
  split.
  - unfold get_session. by rewrite Hgone.
  - by apply delete_session_unknown.
Qed.

Lemma delete_then_get_not_found_witness :
  get_session demo_env "9f1c" (delete_session refusing_env "9f1c" one_session).1.1
    = inl (HTTPException 404 "Session not found").
Proof.
  refine (proj1 (delete_then_get_not_found refusing_env demo_env demo_env "9f1c" one_session
                   {| session_id := "9f1c";
                      process := {| pid := 4242; stdout := Some 4242 |};
                      port := 9222; created_at := "2025-01-01T00:00:00";
                      events := 0 |} _)).
  vm_compute. reflexivity.
Defined.

Lemma try_kill_other_procs env sig p on_ok on_error w q :
  q <> p -> procs (try_kill env sig p on_ok on_error w).1.1 !! q = procs w !! q.
Proof.
  intros Hne. unfold try_kill.
  destruct (is_process_running env w p); [|done].
  destruct (os_kill env p sig w) as [e|w'] eqn:Hk.
  - by destruct (is_Exception e).
  - unfold os_kill in Hk. destruct (kill_fault env p sig); [discriminate|].
    destruct (procs w !! p); [|discriminate]. injection Hk as <-. simpl.
    by rewrite lookup_insert_ne.
Qed.

Lemma try_kill_delivers env sig p on_ok on_error w pr :
  pid_exists_fault env p = None -> kill_fault env p sig = None ->
  procs w !! p = Some pr ->
  try_kill env sig p on_ok on_error w = (set_procs <[p := deliver sig pr]> w, None, on_ok).
Proof.
  intros Hpf Hkf Hp. unfold try_kill, is_process_running, psutil_pid_exists, os_kill.
  rewrite Hpf, Hkf, Hp. by rewrite bool_decide_eq_true_2 by eauto.
Qed.

Lemma delete_session_state env sid w s :
  browser_sessions w !! sid = Some s ->
  exists w1 log,
    try_kill env SIGTERM (pid (process s))
      [ALog INFO ("Terminated process " +:+ pretty (pid (process s)))]
      (fun e => [ALog ERROR ("Error terminating process: " +:+ exn_str e)]) w
      = (w1, None, log) /\
    browser_sessions w1 = browser_sessions w /\ monitoring_tasks w1 = monitoring_tasks w /\
    buffers w1 = buffers w /\ tasks w1 = tasks w /\
    (delete_session env sid w).1.1 =
      set_browser_sessions (delete sid)
        match monitoring_tasks w1 !! sid with
        | Some handle => set_monitoring_tasks (delete sid) (cancel handle w1)
        | None => w1
        end /\
    (delete_session env sid w).2 = log.
Proof.
  intros Hs.
  destruct (try_kill_frame env SIGTERM (pid (process s))
              [ALog INFO ("Terminated process " +:+ pretty (pid (process s)))]
              (fun e => [ALog ERROR ("Error terminating process: " +:+ exn_str e)]) w)
    as (w1 & log & Hk & H1 & H2 & H3 & H4 & _).
  exists w1, log. unfold delete_session. rewrite Hs, Hk. done.
Qed.

(** X6. [delete_session] leaves the rest of the server alone: every other
    session and its task-map entry, every event list, every process but the
    deleted session's own, and every task but the one the deleted id leads
    to, are as before. For an unknown id the whole state is as before. *)
Theorem delete_session_leaves_the_rest env sid w :
  (forall sid', sid' <> sid ->
     browser_sessions (delete_session env sid w).1.1 !! sid' = browser_sessions w !! sid' /\
     monitoring_tasks (delete_session env sid w).1.1 !! sid' = monitoring_tasks w !! sid') /\
  buffers (delete_session env sid w).1.1 = buffers w /\
  (forall q,
     (forall s, browser_sessions w !! sid = Some s -> q <> pid (process s)) ->
     procs (delete_session env sid w).1.1 !! q = procs w !! q) /\
  (forall h,
     monitoring_tasks w !! sid <> Some h ->
     tasks (delete_session env sid w).1.1 !! h = tasks w !! h) /\
  (browser_sessions w !! sid = None ->
   delete_session env sid w = (w, inl (HTTPException 404 "Session not found"), [])).
Proof.
  destruct (browser_sessions w !! sid) as [s|] eqn:Hs.
  - destruct (delete_session_state env sid w s Hs)
      as (w1 & log & Hk & H1 & H2 & H3 & H4 & -> & _).
    assert (forall q, q <> pid (process s) -> procs w1 !! q = procs w !! q) as Hprocs.
    { intros q Hq.
      pose proof (try_kill_other_procs env SIGTERM (pid (process s))
                    [ALog INFO ("Terminated process " +:+ pretty (pid (process s)))]
                    (fun e => [ALog ERROR ("Error terminating process: " +:+ exn_str e)])
                    w q Hq) as H. by rewrite Hk in H. }
    rewrite H2. split; [|split; [|split; [|split]]].
    + intros sid' Hne. destruct (monitoring_tasks w !! sid) as [h|] eqn:Hm; simpl;
        rewrite ?H1, ?H2, ?lookup_delete_ne by done; done.
    + by destruct (monitoring_tasks w !! sid).
    + intros q Hq. specialize (Hq s eq_refl).
      destruct (monitoring_tasks w !! sid); simpl; by apply Hprocs.
    + intros h Hh. destruct (monitoring_tasks w !! sid) as [h0|]; simpl; rewrite H4; [|done].
      apply list_lookup_alter_ne. congruence.
    + discriminate.
  - rewrite delete_session_unknown by done. simpl. done.
Qed.

Lemma delete_session_leaves_the_rest_witness :
  procs (delete_session demo_env "9f1c"
           (run [OpCreateBegin demo_env demo_request; OpCreateResume demo_env first_frame;
                 OpCreateBegin later_env demo_request; OpCreateResume later_env later_frame]
              initial_world)).1.1 !! 4243 = Some (Proc None [] "") /\
  delete_session demo_env "0000" one_session
    = (one_session, inl (HTTPException 404 "Session not found"), []).
Proof.
  split.
  - destruct (delete_session_leaves_the_rest demo_env "9f1c"
                (run [OpCreateBegin demo_env demo_request; OpCreateResume demo_env first_frame;
                      OpCreateBegin later_env demo_request;
                      OpCreateResume later_env later_frame] initial_world))
      as (_ & _ & H & _).
    rewrite H; [vm_compute; reflexivity|].
    intros s Hs. vm_compute in Hs. injection Hs as <-. vm_compute. discriminate.
  - apply (delete_session_leaves_the_rest demo_env "0000" one_session).
    vm_compute. reflexivity.
Defined.

(** X7. For a registered session whose process is in the process table,
    with nothing failing, [delete_session] delivers one SIGTERM to that
    process (it does not end it by force), logs the termination, and marks
    the session's task as cancelled, the task keeping its id and port. *)
Theorem delete_session_signals_and_cancels env sid w s pr h t :
  browser_sessions w !! sid = Some s ->
  procs w !! pid (process s) = Some pr ->
  pid_exists_fault env (pid (process s)) = None ->
  kill_fault env (pid (process s)) SIGTERM = None ->
  monitoring_tasks w !! sid = Some h ->
  tasks w !! h = Some t ->
  procs (delete_session env sid w).1.1 !! pid (process s) = Some (deliver SIGTERM pr) /\
  (delete_session env sid w).2 =
    [ALog INFO ("Terminated process " +:+ pretty (pid (process s)))] /\
  tasks (delete_session env sid w).1.1 !! h =
    Some {| task_session_id := task_session_id t; task_port := task_port t;
            cancel_requested := true |}.
Proof.
  intros Hs Hp Hpf Hkf Hm Ht.
  destruct (delete_session_state env sid w s Hs)
    as (w1 & log & Hk & H1 & H2 & H3 & H4 & -> & ->).
  rewrite (try_kill_delivers _ _ _ _ _ _ pr Hpf Hkf Hp) in Hk.
  injection Hk as <- <-. simpl. rewrite Hm. simpl.
  split; [apply lookup_insert_eq|]. split; [done|].
  by rewrite list_lookup_alter_eq, Ht.
Qed.

Lemma delete_session_signals_and_cancels_witness :
  procs (delete_session demo_env "9f1c" one_session).1.1 !! 4242
    = Some (Proc None [SIGTERM] "") /\
  tasks (delete_session demo_env "9f1c" one_session).1.1 !! 0%nat =
    Some {| task_session_id := "9f1c"; task_port := 9222; cancel_requested := true |}.
Proof.
  destruct (delete_session_signals_and_cancels demo_env "9f1c" one_session
              {| session_id := "9f1c"; process := {| pid := 4242; stdout := Some 4242 |};
                 port := 9222; created_at := "2025-01-01T00:00:00"; events := 0 |}
              (Proc None [] "") 0%nat
              {| task_session_id := "9f1c"; task_port := 9222; cancel_requested := false |})
    as (Hp & _ & Ht); try (vm_compute; reflexivity).
  split; [exact Hp|exact Ht].
Defined.

(** ** shutdown_event, further *)

Lemma tasks_advance_refl ts : tasks_advance ts ts.
Proof. split; [done|]. intros h t Ht. by exists t. Qed.

Lemma tasks_advance_trans ts1 ts2 ts3 :
  tasks_advance ts1 ts2 -> tasks_advance ts2 ts3 -> tasks_advance ts1 ts3.
Proof.
  intros [L1 A1] [L2 A2]. split; [congruence|].
  intros h t Ht. destruct (A1 h t Ht) as (t2 & Ht2 & Hs2 & Hp2 & Hc2).
  destruct (A2 h t2 Ht2) as (t3 & Ht3 & Hs3 & Hp3 & Hc3).
  exists t3. split; [done|]. split; [congruence|]. split; [congruence|]. auto.
Qed.

Lemma tasks_advance_cancel h w : tasks_advance (tasks w) (tasks (cancel h w)).
Proof.
  split; [apply length_alter|]. intros h' t Ht. simpl.
  destruct (decide (h = h')) as [<-|Hne].
  - rewrite list_lookup_alter_eq, Ht. simpl. eexists. split; [done|]. done.
  - rewrite list_lookup_alter_ne by done. by exists t.
Qed.

Lemma shutdown_loop_effects env items :
  forall w log0,
    let w1 := (foldl (shutdown_one env) (w, None, log0) items).1.1 in
    tasks_advance (tasks w) (tasks w1) /\
    (forall q, (forall item, item ∈ items -> pid (process item.2) <> q) ->
       procs w1 !! q = procs w !! q) /\
    (forall item h t,
       item ∈ items -> monitoring_tasks w !! item.1 = Some h -> tasks w !! h = Some t ->
       exists t', tasks w1 !! h = Some t' /\ cancel_requested t' = true).
Proof.
  induction items as [|item items IH]; intros w log0.
  - simpl. split; [apply tasks_advance_refl|]. split; [done|].
    intros item h t Hin. by apply elem_of_nil in Hin.
  - simpl.
    pose proof (try_kill_other_procs env SIGKILL (pid (process item.2)) []
                  (fun e => [ALog ERROR ("Error killing process "
                                          +:+ pretty (pid (process item.2)) +:+ ": "
                                          +:+ exn_str e)]) w) as Hother.
    destruct (try_kill_frame env SIGKILL (pid (process item.2)) []
                (fun e => [ALog ERROR ("Error killing process "
                                        +:+ pretty (pid (process item.2)) +:+ ": "
                                        +:+ exn_str e)]) w)
      as (w1 & log1 & Hk & _ & H2 & _ & H4 & _).
    rewrite Hk in Hother |- *. simpl in Hother.
    set (w2 := match monitoring_tasks w1 !! item.1 with
               | Some handle => cancel handle w1
               | None => w1
               end).
    assert (monitoring_tasks w2 = monitoring_tasks w /\ procs w2 = procs w1 /\
            tasks_advance (tasks w) (tasks w2) /\
            (forall h t, monitoring_tasks w !! item.1 = Some h -> tasks w !! h = Some t ->
               exists t', tasks w2 !! h = Some t' /\ cancel_requested t' = true))
      as (M2 & P2 & A2 & C2).
    { unfold w2. rewrite H2. destruct (monitoring_tasks w !! item.1) as [h0|].
      - split; [done|]. split; [done|]. split.
        + rewrite <- H4. apply tasks_advance_cancel.
        + intros h t [= <-] Ht. simpl. rewrite list_lookup_alter_eq, H4, Ht. simpl. eauto.
      - split; [done|]. split; [done|]. split; [rewrite H4; apply tasks_advance_refl|].
        intros h t Hh. discriminate. }
    specialize (IH w2 (log0 ++ log1)). simpl in IH. destruct IH as (IA & IP & IC).
    split; [by eapply tasks_advance_trans|]. split.
    + intros q Hq. rewrite IP.
      * rewrite P2. apply Hother. intros Heq.
        apply (Hq item); [apply list_elem_of_here|done].
      * intros it Hin. apply Hq. by apply list_elem_of_further.
    + intros it h t Hin Hh Ht. apply elem_of_cons in Hin as [->|Hin].
      * destruct (C2 h t Hh Ht) as (t2 & Ht2 & Hc2).
        destruct IA as [_ IA]. destruct (IA h t2 Ht2) as (t3 & Ht3 & _ & _ & Hc3).
        exists t3. split; [done|]. auto.
      * destruct A2 as [_ A2]. destruct (A2 h t Ht) as (t2 & Ht2 & _).
        eapply IC; [done| |done]. by rewrite M2.
Qed.

(** X8. [shutdown_event] signals no process but those of the registered
    sessions: any other entry of the process table is as before. It marks
    the task of every registered session as cancelled, changes no task's id
    or port, and leaves the event lists alone. *)
Theorem shutdown_event_signals_only_tracked env w :
  (forall q,
     (forall sid s, browser_sessions w !! sid = Some s -> pid (process s) <> q) ->
     procs (shutdown_event env w).1.1 !! q = procs w !! q) /\
  (forall sid s h t,
     browser_sessions w !! sid = Some s ->
     monitoring_tasks w !! sid = Some h -> tasks w !! h = Some t ->
     exists t',
       tasks (shutdown_event env w).1.1 !! h = Some t' /\ cancel_requested t' = true) /\
  tasks_advance (tasks w) (tasks (shutdown_event env w).1.1) /\
  buffers (shutdown_event env w).1.1 = buffers w.
Proof.
  pose proof (shutdown_loop_effects env (map_to_list (browser_sessions w)) w [])
    as (HA & HP & HC).
  destruct (shutdown_event_frame env w) as (_ & _ & Hbuf).
  unfold shutdown_event in *.
  destruct (shutdown_loop env (map_to_list (browser_sessions w)) w [])
    as (w1 & log & Hrun & _).
  rewrite Hrun in *. simpl in *.
  split; [|split; [|split]]; try done.
  - intros q Hq. apply HP. intros [sid s] Hin. apply elem_of_map_to_list in Hin.
    by eapply Hq.
  - intros sid s h t Hs Hh Ht. apply (HC (sid, s) h t); [|done|done].
    by apply elem_of_map_to_list.
Qed.

Lemma shutdown_event_signals_only_tracked_witness :
  procs (shutdown_event demo_env
           (set_procs <[77 := Proc None [] "other"]> one_session)).1.1 !! 77
    = Some (Proc None [] "other") /\
  exists t',
    tasks (shutdown_event demo_env
             (set_procs <[77 := Proc None [] "other"]> one_session)).1.1 !! 0%nat = Some t' /\
    cancel_requested t' = true.
Proof.
  destruct (shutdown_event_signals_only_tracked demo_env
              (set_procs <[77 := Proc None [] "other"]> one_session)) as (Hp & Hc & _).
  split.
  - rewrite Hp; [vm_compute; reflexivity|].
    intros sid s Hs. destruct (decide (sid = "9f1c")) as [->|Hne].
    + vm_compute in Hs. injection Hs as <-. vm_compute. discriminate.
    + exfalso. revert Hs.
      change (browser_sessions (set_procs <[77 := Proc None [] "other"]> one_session))
        with (<["9f1c" := {| session_id := "9f1c";
                             process := {| pid := 4242; stdout := Some 4242 |};
                             port := 9222; created_at := "2025-01-01T00:00:00";
                             events := 0 |}]> (∅ : gmap string BrowserSession)).
      rewrite lookup_insert_ne by done. rewrite lookup_empty. discriminate.
  - apply (Hc "9f1c" {| session_id := "9f1c";
                        process := {| pid := 4242; stdout := Some 4242 |};
                        port := 9222; created_at := "2025-01-01T00:00:00";
                        events := 0 |} 0%nat
              {| task_session_id := "9f1c"; task_port := 9222; cancel_requested := false |});
      vm_compute; reflexivity.
Defined.

(** X9. With nothing registered, [shutdown_event] sends no signal, cancels
    nothing and logs nothing: only the task map is emptied. In particular a
    second [shutdown_event] right after a first changes nothing. *)
Theorem shutdown_event_on_empty_registry env env2 w :
  (browser_sessions w = ∅ ->
   shutdown_event env w =
     (set_monitoring_tasks (fun _ => ∅) (set_browser_sessions (fun _ => ∅) w), None, [])) /\
  shutdown_event env2 (shutdown_event env w).1.1 = ((shutdown_event env w).1.1, None, []).
Proof.
  assert (forall e v, browser_sessions v = ∅ ->
            shutdown_event e v =
              (set_monitoring_tasks (fun _ => ∅) (set_browser_sessions (fun _ => ∅) v),
               None, [])) as Hempty.
  { intros e v Hv. unfold shutdown_event. rewrite Hv, map_to_list_empty. done. }
  split; [apply Hempty|].
  destruct (shutdown_event_frame env w) as (Hr & Hm & _).
  rewrite Hempty by done.
  destruct ((shutdown_event env w).1.1) as [r m b t p]. simpl in *. by subst.
Qed.

Lemma shutdown_event_on_empty_registry_witness :
  shutdown_event refusing_env initial_world = (initial_world, None, []).
Proof.
  refine (proj1 (shutdown_event_on_empty_registry refusing_env demo_env initial_world) _).
  reflexivity.
Defined.

(** ** The registry and the task map go together *)

Lemma tasks_match_frame w w' :
  browser_sessions w' = browser_sessions w ->
  monitoring_tasks w' = monitoring_tasks w ->
  (forall h t, tasks w !! h = Some t ->
     exists t', tasks w' !! h = Some t' /\
       task_session_id t' = task_session_id t /\ task_port t' = task_port t) ->
  tasks_match w -> tasks_match w'.
Proof.
  intros Hr Hm Ht Hw sid. destruct (Hw sid) as [Hdom Hent]. rewrite Hr, Hm.
  split; [done|]. intros s h Hs Hh.
  destruct (Hent s h Hs Hh) as (Hid & t & Hth & Hts & Htp). split; [done|].
  destruct (Ht h t Hth) as (t' & Ht' & Hs' & Hp'). exists t'. split; [done|]. split; congruence.
Qed.

Lemma create_session_begin_world env request w :
  (create_session_begin env request w).1.1 = w \/
  exists child, (create_session_begin env request w).1.1
                = set_procs <[child := Proc None [] ""]> w.
Proof.
  unfold create_session_begin.
  destruct (find_free_port (sock_bind env)) as [e|p]; [by left|].
  destruct (popen env (chrome_cmd env p)) as [e|child].
  - destruct (is_Exception e); by left.
  - right. by exists child.
Qed.

Lemma apply_op_tasks_match o w : tasks_match w -> tasks_match (apply_op o w).
Proof.
  intros Hw.
  destruct o as [env request|env fr|env sid'|env|env sid' port pc r|f]; simpl.
  - destruct (create_session_begin_world env request w) as [-> | [child ->]]; [done|].
    apply (tasks_match_frame w); try done. intros h t Ht. by exists t.
  - destruct (create_session_resume env fr w) as [[w2 [e|resp]] a] eqn:Hr; simpl.
    + apply create_session_resume_fail in Hr as (H1 & H2 & _ & H4).
      apply (tasks_match_frame w); try done. intros h t Ht. exists t. by rewrite H4.
    + destruct (create_session_resume_tasks _ _ _ _ _ _ Hr) as [Ht _].
      apply create_session_resume_ok in Hr as (_ & _ & _ & _ & Hreg & Hmt & _).
      intros sid. rewrite Hreg, Hmt, Ht.
      destruct (decide (local_session_id fr = sid)) as [<-|Hne].
      * rewrite !lookup_insert_eq. split; [by split; eauto|].
        intros s h [= <-] [= <-]. simpl. split; [done|].
        eexists. split; [by rewrite lookup_app_r, Nat.sub_diag by lia|]. done.
      * rewrite !lookup_insert_ne by done. destruct (Hw sid) as [Hdom Hent].
        split; [done|]. intros s h Hs Hh.
        destruct (Hent s h Hs Hh) as (Hid & t & Hth & Hts & Htp). split; [done|].
        exists t. split; [|done]. rewrite lookup_app_l; [done|]. by eapply lookup_lt_Some.
  - destruct (browser_sessions w !! sid') as [s|] eqn:Hs.
    + destruct (delete_session_state env sid' w s Hs)
        as (w1 & log & _ & H1 & H2 & _ & H4 & -> & _).
      intros sid. destruct (Hw sid) as [Hdom Hent].
      assert (tasks_advance (tasks w)
                (tasks match monitoring_tasks w1 !! sid' with
                       | Some handle => set_monitoring_tasks (delete sid') (cancel handle w1)
                       | None => w1
                       end)) as [_ Hadv].
      { destruct (monitoring_tasks w1 !! sid'); simpl; rewrite <- H4;
          [apply tasks_advance_cancel|apply tasks_advance_refl]. }
      assert (monitoring_tasks match monitoring_tasks w1 !! sid' with
                               | Some handle =>
                                   set_monitoring_tasks (delete sid') (cancel handle w1)
                               | None => w1
                               end = delete sid' (monitoring_tasks w)) as Hm.
      { destruct (monitoring_tasks w1 !! sid') eqn:Hm1; simpl; rewrite H2; [done|].
        rewrite H2 in Hm1. by rewrite delete_id. }
      assert (browser_sessions match monitoring_tasks w1 !! sid' with
                               | Some handle =>
                                   set_monitoring_tasks (delete sid') (cancel handle w1)
                               | None => w1
                               end = browser_sessions w) as Hr.
      { by destruct (monitoring_tasks w1 !! sid'). }
      simpl. rewrite Hm, Hr.
      destruct (decide (sid' = sid)) as [<-|Hne].
      * rewrite !lookup_delete_eq. split; [by split; intros [? ?]|]. discriminate.
      * rewrite !lookup_delete_ne by done. split; [done|]. intros s0 h Hs0 Hh.
        destruct (Hent s0 h Hs0 Hh) as (Hid & t & Hth & Hts & Htp). split; [done|].
        destruct (Hadv h t Hth) as (t' & Ht' & Hs' & Hp' & _).
        exists t'. split; [done|]. split; congruence.
    + by rewrite delete_session_unknown.
  - destruct (shutdown_event_frame env w) as (Hr & Hm & _).
    intros sid. rewrite Hr, Hm, !lookup_empty. split; [by split; intros [? ?]|]. discriminate.
  - destruct (monitor_step_frame env sid' port pc r w) as (H1 & H2 & H3 & _).
    apply (tasks_match_frame w); try done. intros h t Ht. exists t. by rewrite H3.
  - apply (tasks_match_frame w); try done. intros h t Ht. by exists t.
Qed.

(** X10. Wherever the server has got to from its start, through any
    interleaving of the pieces of its handlers and tasks, the registry and
    the task map hold the same ids, the session stored under an id carries
    that id, and the task the id leads to is one for that id and for the
    session's port. *)
Theorem registry_and_task_map_agree ops : tasks_match (run ops initial_world).
Proof.
  assert (forall w, tasks_match w -> tasks_match (run ops w)) as H.
  { induction ops as [|o ops IH]; intros w Hw; [done|].
    rewrite run_cons. by apply IH, apply_op_tasks_match. }
  apply H. intros sid. simpl. rewrite !lookup_empty.
  split; [by split; intros [? ?]|]. discriminate.
Qed.

(** ** The monitoring task, further *)

(** X11. A cancellation delivered at any [await] of the task ends it with
    the cancellation error: no handler of the task swallows it, nothing is
    logged and the shared state is not touched. *)
Theorem monitor_cancellation_not_swallowed env sid port pc w :
  (forall o, pc <> Done o) ->
  monitor_step env sid port pc (inl CancelledError) w = (Done (Raised CancelledError), w, []).
Proof.
  intros Hpc. destruct pc as [i|i|i| |[|c rest]| |o]; try reflexivity.
  by destruct (Hpc o).
Qed.

Lemma monitor_cancellation_not_swallowed_witness :
  monitor_step demo_env "9f1c" 9222 AwaitRecv (inl CancelledError) one_session
    = (Done (Raised CancelledError), one_session, []).
Proof.
  apply monitor_cancellation_not_swallowed. intros o. discriminate.
Defined.

Lemma discovery_failures_run env sid port fs :
  forall i w,
    (i + length fs < attempts)%nat ->
    Forall (fun f => is_Exception (failure_exn f) = true) fs ->
    exists tr,
      monitor_run env sid port (concat (failure_responses <$> fs)) (AwaitVersionConnect i) w
        = (AwaitVersionConnect (i + length fs), w, tr) /\
      connect_attempts tr = length fs /\
      sleeps tr = replicate (length fs) backoff_ms.
Proof.
  induction fs as [|f fs IH]; intros i w Hlen Hall.
  - simpl. rewrite Nat.add_0_r. by exists [].
  - apply Forall_cons in Hall as [Hf Hall]. simpl in Hlen.
    rewrite fmap_cons. simpl concat. rewrite monitor_run_app.
    destruct (failed_attempt_run env sid port f i w Hf) as (a0 & Hc0 & Hs0 & ->).
    unfold discovery_turn.
    destruct (decide (S i < attempts)%nat) as [_|Hge]; [|lia]. simpl fst. simpl snd.
    destruct (IH (S i) w) as (tr & -> & Hc & Hs); [lia|done|].
    eexists. split; [by replace (i + length (f :: fs))%nat with (S i + length fs)%nat
                       by (simpl; lia)|].
    rewrite !connect_attempts_app, !sleeps_app, Hc0, Hs0, Hc, Hs. simpl. done.
Qed.

(** X12. When the version endpoint answers after [k] failed attempts, with
    [k] below 20, the task has made [k + 1] attempts and slept [k] times
    500 ms, stops retrying, and goes on to connect to the debugger URL read
    from that answer. *)
Theorem discovery_stops_at_first_answer env sid port fs answer url w :
  (length fs < 20)%nat ->
  Forall (fun f => is_Exception (failure_exn f) = true) fs ->
  debugger_url env answer = inr url ->
  exists tr,
    monitor_browser_session env sid port
      (concat (failure_responses <$> fs) ++ [inr ""; inr answer]) w
      = (AwaitDebuggerConnect, w, tr ++ [AConnect DebuggerEndpoint url]) /\
    connect_attempts tr = S (length fs) /\
    sleeps tr = replicate (length fs) 500.
Proof.
  intros Hlen Hall Hurl.
  unfold monitor_browser_session, monitor_start, discovery_turn.
  destruct (decide (0 < attempts)%nat) as [_|Hn]; [|unfold attempts in Hn; lia].
  rewrite monitor_run_app.
  destruct (discovery_failures_run env sid port fs O w) as (tr & -> & Hc & Hs);
    [unfold attempts; simpl; lia|done|].
  simpl. rewrite Hurl.
  exists ([AConnect VersionEndpoint (version_url port)] ++ tr ++ [ARecv None]).
  split.
  - f_equal. simpl. f_equal. by rewrite <- app_assoc.
  - rewrite !connect_attempts_app, !sleeps_app, Hc, Hs. simpl.
    split; [lia|]. by rewrite app_nil_r.
Qed.

Lemma discovery_stops_at_first_answer_witness :
  exists tr,
    monitor_browser_session (advertising_env "ws://localhost:9222/devtools/browser/b0b8")
      "9f1c" 9222
      (concat (failure_responses <$> replicate 3 (ConnectFails (OSError "Connection refused")))
         ++ [inr ""; inr "version"]) one_session
      = (AwaitDebuggerConnect, one_session,
         tr ++ [AConnect DebuggerEndpoint
                  "ws://host.docker.internal:9222/devtools/browser/b0b8"]) /\
    connect_attempts tr = 4%nat /\ sleeps tr = replicate 3 500.
Proof.
  apply (discovery_stops_at_first_answer
           (advertising_env "ws://localhost:9222/devtools/browser/b0b8") "9f1c" 9222
           (replicate 3 (ConnectFails (OSError "Connection refused"))) "version").
  - simpl. lia.
  - repeat constructor.
  - vm_compute. reflexivity.
Defined.

Lemma dict_get_missing items key dflt :
  dict_item items key = None -> dict_get items key dflt = dflt.
Proof.
  induction items as [|[k v] items IH]; simpl; [done|].
  destruct (decide (k = key)); [discriminate|done].
Qed.

(** X13. What the task does with the answer of the version endpoint when it
    is not as expected. A JSON object without [webSocketDebuggerUrl] makes
    it connect to the empty URL. An answer that [json.loads] rejects, one
    that is not an object, or a [webSocketDebuggerUrl] that is not a string
    ends the task with an exception that no handler of the task catches. *)
Theorem version_answer_edge_cases env sid port i answer w :
  (forall items,
     json_loads env answer = inr (JObj items) ->
     dict_item items "webSocketDebuggerUrl" = None ->
     monitor_step env sid port (AwaitVersionRecv i) (inr answer) w
       = (AwaitDebuggerConnect, w, [AConnect DebuggerEndpoint ""])) /\
  (forall e,
     json_loads env answer = inl e ->
     monitor_step env sid port (AwaitVersionRecv i) (inr answer) w
       = (Done (Raised e), w, [])) /\
  (forall j,
     json_loads env answer = inr j -> (forall items, j <> JObj items) ->
     monitor_step env sid port (AwaitVersionRecv i) (inr answer) w
       = (Done (Raised (OtherException "AttributeError")), w, [])) /\
  (forall items v,
     json_loads env answer = inr (JObj items) ->
     dict_item items "webSocketDebuggerUrl" = Some v -> (forall s, v <> JStr s) ->
     monitor_step env sid port (AwaitVersionRecv i) (inr answer) w
       = (Done (Raised (OtherException "AttributeError")), w, [])).
Proof.
  split; [|split; [|split]].
  - intros items Hj Hmiss. simpl. unfold debugger_url. rewrite Hj.
    by rewrite dict_get_missing.
  - intros e Hj. simpl. unfold debugger_url. by rewrite Hj.
  - intros j Hj Hno. simpl. unfold debugger_url. rewrite Hj.
    destruct j; try done. by destruct (Hno items).
  - intros items v Hj Hv Hno. simpl. unfold debugger_url. rewrite Hj.
    assert (dict_get items "webSocketDebuggerUrl" (JStr "") = v) as ->.
    { clear Hj. induction items as [|[k x] items IH]; simpl in *; [done|].
      destruct (decide (k = "webSocketDebuggerUrl")); [congruence|auto]. }
    destruct v; try done. by destruct (Hno s).
Qed.

Lemma version_answer_edge_cases_witness :
  monitor_step
    {| environ := ∅; uuid4 := "9f1c"; now_isoformat := "2025-01-01T00:00:00";
       sock_bind := fun _ => true; popen := fun _ => inr 4242;
       pid_exists_fault := fun _ => None; kill_fault := fun _ _ => None;
       json_loads := fun _ => inr (JObj [("Browser", JStr "HeadlessChrome/120.0.0.0")]) |}
    "9f1c" 9222 (AwaitVersionRecv 0) (inr "version") one_session
    = (AwaitDebuggerConnect, one_session, [AConnect DebuggerEndpoint ""]) /\
  monitor_step demo_env "9f1c" 9222 (AwaitVersionRecv 0) (inr "version") one_session
    = (Done (Raised (OtherException "AttributeError")), one_session, []).
Proof.
  split.
  - eapply version_answer_edge_cases; reflexivity.
  - destruct (version_answer_edge_cases demo_env "9f1c" 9222 O "version" one_session)
      as (_ & _ & H & _).
    apply (H (JStr "version")).
    + reflexivity.
    + intros items. discriminate.
Defined.

Lemma monitor_run_done env sid port rs o w :
  monitor_run env sid port rs (Done o) w = (Done o, w, []).
Proof.
  induction rs as [|r rs IH]; [done|]. simpl.
  replace (monitor_step env sid port (Done o) r w) with (Done o, w, @nil action)
    by (by destruct r).
  by rewrite IH.
Qed.

Lemma monitor_run_cons env sid port r rs pc w :
  monitor_run env sid port (r :: rs) pc w =
  let '(pc1, w1, a1) := monitor_step env sid port pc r w in
  let '(pc2, w2, a2) := monitor_run env sid port rs pc1 w1 in
  (pc2, w2, a1 ++ a2).
Proof. done. Qed.

(** X14. Once connected to the debugger URL the task sends the three enable
    commands in the order Network, Page, Runtime with the ids 1, 2, 3,
    receiving nothing in between, and then starts to receive with a one
    second timeout if its session is registered. If the connection or any of
    the sends fails, it logs one error and returns, with nothing changed and
    whatever else its awaits would have yielded left unused. *)
Theorem subscription_sends_three_commands env sid port w :
  (forall s r0 r1 r2 r3,
     browser_sessions w !! sid = Some s ->
     monitor_run env sid port [inr r0; inr r1; inr r2; inr r3] AwaitDebuggerConnect w =
       (AwaitRecv, w,
        [ASend (JObj [("id", JNum 1); ("method", JStr "Network.enable")]);
         ASend (JObj [("id", JNum 2); ("method", JStr "Page.enable")]);
         ASend (JObj [("id", JNum 3); ("method", JStr "Runtime.enable")]);
         ARecv (Some 1000)])) /\
  (forall k e rs,
     (k <= 3)%nat -> is_Exception e = true ->
     monitor_run env sid port (replicate k (inr "") ++ inl e :: rs) AwaitDebuggerConnect w =
       (Done Returned, w,
        (ASend <$> take k enable_commands)
          ++ [ALog ERROR ("Failed to connect to CDP: " +:+ exn_str e)])).
Proof.
  split.
  - intros s r0 r1 r2 r3 Hs. simpl. unfold drain_turn. by rewrite Hs.
  - intros k e rs Hk He.
    destruct k as [|[|[|[|k]]]]; [| | | |lia]; simpl; unfold cdp_failed; rewrite He;
      rewrite monitor_run_done; reflexivity.
Qed.

Lemma subscription_sends_three_commands_witness :
  monitor_run demo_env "9f1c" 9222
    (replicate 2 (inr "") ++ inl (OtherException "ConnectionClosed") :: [inr "late"])
    AwaitDebuggerConnect one_session =
  (Done Returned, one_session,
   (ASend <$> take 2 enable_commands)
     ++ [ALog ERROR ("Failed to connect to CDP: " +:+ "ConnectionClosed")]).
Proof.
  destruct (subscription_sends_three_commands demo_env "9f1c" 9222 one_session) as [_ H].
  apply (H 2%nat (OtherException "ConnectionClosed") [inr "late"]).
  - lia.
  - reflexivity.
Defined.

(** X15. In the drain loop a receive timeout changes nothing: while the
    session is registered the task just waits again, however often. Once the
    session's id has left the registry, the next thing the task is resumed
    with, a timeout included, ends it, and nothing it would have received
    later is looked at. *)
Theorem drain_loop_runs_until_removal env sid port w :
  (forall s n,
     browser_sessions w !! sid = Some s ->
     monitor_run env sid port (replicate n (inl TimeoutError)) AwaitRecv w =
       (AwaitRecv, w, replicate n (ARecv (Some 1000)))) /\
  (forall r rs,
     browser_sessions w !! sid = None ->
     exists o log,
       monitor_run env sid port (r :: rs) AwaitRecv w = (Done o, w, log) /\
       (r = inl TimeoutError -> o = Returned /\ log = [])).
Proof.
  split.
  - intros s n Hs. induction n as [|n IH]; [done|].
    simpl. unfold drain_failed, drain_turn. simpl. rewrite Hs.
    simpl in IH. by rewrite IH.
  - intros r rs Hs.
    assert (exists o log, monitor_step env sid port AwaitRecv r w = (Done o, w, log) /\
              (r = inl TimeoutError -> o = Returned /\ log = [])) as (o & log & Hstep & Ht).
    { destruct r as [e|message]; simpl.
      - unfold drain_failed, drain_turn. rewrite Hs.
        destruct e; simpl; eexists _, _; (split; [reflexivity|]); try discriminate; done.
      - destruct (json_loads env message) as [e|event].
        + unfold drain_failed, drain_turn. rewrite Hs.
          destruct e; simpl; eexists _, _; (split; [reflexivity|]); discriminate.
        + unfold append_event, drain_turn. rewrite Hs. simpl. rewrite Hs.
          eexists _, _. split; [reflexivity|]. discriminate. }
    exists o, log. rewrite monitor_run_cons, Hstep, monitor_run_done. by rewrite app_nil_r.
Qed.

Lemma drain_loop_runs_until_removal_witness :
  monitor_run demo_env "9f1c" 9222 (replicate 5 (inl TimeoutError)) AwaitRecv one_session
    = (AwaitRecv, one_session, replicate 5 (ARecv (Some 1000))) /\
  exists o log,
    monitor_run demo_env "9f1c" 9222 [inl TimeoutError; inr "late"] AwaitRecv
      (delete_session demo_env "9f1c" one_session).1.1
      = (Done o, (delete_session demo_env "9f1c" one_session).1.1, log).
Proof.
  split.
  - eapply drain_loop_runs_until_removal. vm_compute. reflexivity.
  - destruct (drain_loop_runs_until_removal demo_env "9f1c" 9222
                (delete_session demo_env "9f1c" one_session).1.1) as [_ H].
    destruct (H (inl TimeoutError) [inr "late"]) as (o & log & Hrun & _).
    + vm_compute. reflexivity.
    + by exists o, log.
Defined.

(** X16. Any error of the receive other than a timeout, and any message
    that [json.loads] rejects, ends the drain loop for good: the task logs
    the error and returns, appends nothing, leaves the session registered,
    and no message that arrives later is recorded. *)
Theorem drain_loop_stops_at_first_error env sid port r e rs w :
  r = inl e \/ (exists message, r = inr message /\ json_loads env message = inl e) ->
  is_TimeoutError e = false ->
  is_Exception e = true ->
  monitor_run env sid port (r :: rs) AwaitRecv w =
    (Done Returned, w,
     [ALog ERROR ("Error monitoring session " +:+ sid +:+ ": " +:+ exn_str e)]).
Proof.
  intros Hr Ht He. rewrite monitor_run_cons.
  assert (monitor_step env sid port AwaitRecv r w =
            (Done Returned, w,
             [ALog ERROR ("Error monitoring session " +:+ sid +:+ ": " +:+ exn_str e)]))
    as ->.
  { destruct Hr as [-> | (message & -> & Hj)]; simpl; rewrite ?Hj;
      unfold drain_failed; by rewrite Ht, He. }
  by rewrite monitor_run_done.
Qed.

Lemma drain_loop_stops_at_first_error_witness :
  monitor_run
    {| environ := ∅; uuid4 := "9f1c"; now_isoformat := "2025-01-01T00:00:00";
       sock_bind := fun _ => true; popen := fun _ => inr 4242;
       pid_exists_fault := fun _ => None; kill_fault := fun _ _ => None;
       json_loads := fun _ => inl (OtherException "Expecting value: line 1 column 1") |}
    "9f1c" 9222 [inr "not json"; inr "later"] AwaitRecv one_session =
  (Done Returned, one_session,
   [ALog ERROR ("Error monitoring session " +:+ "9f1c" +:+ ": "
                  +:+ "Expecting value: line 1 column 1")]).
Proof.
  eapply (drain_loop_stops_at_first_error _ "9f1c" 9222 (inr "not json")
            (OtherException "Expecting value: line 1 column 1")).
  - right. exists "not json". split; reflexivity.
  - reflexivity.
  - reflexivity.
Defined.

(** ** str.replace, further *)

(** X17. The scan behind [str.replace] obeys the equations of a
    left-to-right replacement of non-overlapping matches, for a non-empty
    [old]: a string that starts with [old] gives [new] followed by the
    replacement in what follows that match, any other non-empty string keeps
    its first character and goes on behind it, and the empty string stays
    empty. *)
Theorem str_replace_equations old new :
  old <> EmptyString ->
  str_replace EmptyString old new = EmptyString /\
  (forall t, str_replace (old +:+ t) old new = new +:+ str_replace t old new) /\
  (forall c s,
     starts_with old (String c s) = false ->
     str_replace (String c s) old new = String c (str_replace s old new)).
Proof.
  intros Hne. split; [done|]. split.
  - intros t. by apply str_replace_hit.
  - intros c s H. unfold str_replace. by apply replace_go_miss.
Qed.

Lemma str_replace_equations_witness :
  str_replace ("aa" +:+ "a") "aa" "b" = "b" +:+ str_replace "a" "aa" "b".
Proof.
  destruct (str_replace_equations "aa" "b") as (_ & H & _); [discriminate|].
  apply H.
Defined.

Lemma str_replace_same_bounded old n :
  old <> EmptyString ->
  forall s, (String.length s <= n)%nat -> str_replace s old old = s.
Proof.
  intros Hne. induction n as [|n IH]; intros s Hlen.
  - by destruct s; [|simpl in Hlen; lia].
  - destruct s as [|c s]; [done|].
    destruct (starts_with old (String c s)) eqn:Hsw.
    + apply starts_with_inv in Hsw as [t Ht]. rewrite Ht.
      rewrite str_replace_hit by done. rewrite IH; [done|].
      assert (String.length (String c s) = String.length (old +:+ t)) as Hl by by rewrite Ht.
      rewrite string_length_app in Hl. simpl in Hl, Hlen.
      destruct old; [done|]. simpl in Hl. lia.
    + unfold str_replace in *. rewrite replace_go_miss by done.
      f_equal. apply IH. simpl in Hlen. lia.
Qed.

(** X18. [str.replace] gives the string back as it is when [old] does not
    occur in it, and when [new] is [old] itself. So with CDP_HOST set to
    [localhost] the task connects to the debugger URL exactly as the browser
    advertised it. *)
Theorem str_replace_unchanged old s :
  (forall new, occurs old s = false -> str_replace s old new = s) /\
  (old <> EmptyString -> str_replace s old old = s) /\
  (forall env sid port i response items url w,
     environ env !! "CDP_HOST" = Some "localhost" ->
     json_loads env response = inr (JObj items) ->
     dict_get items "webSocketDebuggerUrl" (JStr "") = JStr url ->
     monitor_step env sid port (AwaitVersionRecv i) (inr response) w =
       (AwaitDebuggerConnect, w, [AConnect DebuggerEndpoint url])).
Proof.
  split; [|split].
  - intros new H. by apply replace_go_absent.
  - intros Hne. by eapply str_replace_same_bounded.
  - intros env sid port i response items url w Henv Hj Hget.
    simpl. unfold debugger_url, environ_get. rewrite Hj, Hget, Henv.
    by rewrite (str_replace_same_bounded "localhost" (String.length url)).
Qed.

Lemma str_replace_unchanged_witness :
  str_replace "ws://localhost:9222/localhost" "localhost" "localhost"
    = "ws://localhost:9222/localhost" /\
  str_replace "ws://127.0.0.1:9222/" "localhost" "host.docker.internal"
    = "ws://127.0.0.1:9222/".
Proof.
  destruct (str_replace_unchanged "localhost" "ws://localhost:9222/localhost")
    as (_ & Hsame & _).
  destruct (str_replace_unchanged "localhost" "ws://127.0.0.1:9222/") as (Habs & _).
  split.
  - apply Hsame. discriminate.
  - apply Habs. reflexivity.
Defined.

(** ** shutdown_event: a refused kill *)

Lemma try_kill_refused env p on_ok on_error w pr what :
  procs w !! p = Some pr ->
  pid_exists_fault env p = None ->
  kill_fault env p SIGKILL = Some what ->
  try_kill env SIGKILL p on_ok on_error w = (w, None, on_error (OSError what)).
Proof.
  intros Hp Hpf Hkf. unfold try_kill, is_process_running, psutil_pid_exists, os_kill.
  rewrite Hpf, Hkf. by rewrite bool_decide_eq_true_2 by eauto.
Qed.

Lemma try_kill_refused_procs env p on_ok on_error w q :
  kill_fault env q SIGKILL <> None ->
  procs (try_kill env SIGKILL p on_ok on_error w).1.1 !! q = procs w !! q.
Proof.
  intros Hq. destruct (decide (q = p)) as [->|Hne]; [|by apply try_kill_other_procs].
  unfold try_kill, os_kill.
  destruct (is_process_running env w p); [|done].
  destruct (kill_fault env p SIGKILL); [done|]. done.
Qed.

Lemma shutdown_one_refused env w log0 item :
  exists w1 log1,
    shutdown_one env (w, None, log0) item = (w1, None, log0 ++ log1) /\
    (forall q, kill_fault env q SIGKILL <> None -> procs w1 !! q = procs w !! q) /\
    (forall pr what,
       procs w !! pid (process item.2) = Some pr ->
       pid_exists_fault env (pid (process item.2)) = None ->
       kill_fault env (pid (process item.2)) SIGKILL = Some what ->
       log1 = [ALog ERROR ("Error killing process " +:+ pretty (pid (process item.2))
                             +:+ ": " +:+ what)]).
Proof.
  unfold shutdown_one.
  pose proof (try_kill_refused_procs env (pid (process item.2)) []
                (fun e => [ALog ERROR ("Error killing process "
                                        +:+ pretty (pid (process item.2)) +:+ ": "
                                        +:+ exn_str e)]) w) as Hprocs.
  pose proof (fun pr what => try_kill_refused env (pid (process item.2)) []
                (fun e => [ALog ERROR ("Error killing process "
                                        +:+ pretty (pid (process item.2)) +:+ ": "
                                        +:+ exn_str e)]) w pr what) as Hlog.
  destruct (try_kill_frame env SIGKILL (pid (process item.2)) []
              (fun e => [ALog ERROR ("Error killing process "
                                      +:+ pretty (pid (process item.2)) +:+ ": "
                                      +:+ exn_str e)]) w)
    as (w1 & log1 & Hk & _).
  rewrite Hk in Hprocs, Hlog |- *. simpl in Hprocs.
  eexists _, log1. split; [reflexivity|]. split.
  - intros q Hq. rewrite <- (Hprocs q Hq).
    by destruct (monitoring_tasks w1 !! item.1).
  - intros pr what Hp Hpf Hkf. specialize (Hlog pr what Hp Hpf Hkf). by injection Hlog.
Qed.

Lemma shutdown_loop_refused env items :
  forall w log0,
  exists w1 log,
    foldl (shutdown_one env) (w, None, log0) items = (w1, None, log0 ++ log) /\
    (forall q, kill_fault env q SIGKILL <> None -> procs w1 !! q = procs w !! q) /\
    (forall item pr what,
       item ∈ items ->
       procs w !! pid (process item.2) = Some pr ->
       pid_exists_fault env (pid (process item.2)) = None ->
       kill_fault env (pid (process item.2)) SIGKILL = Some what ->
       ALog ERROR ("Error killing process " +:+ pretty (pid (process item.2))
                     +:+ ": " +:+ what) ∈ log).
Proof.
  induction items as [|item items IH]; intros w log0.
  - exists w, []. rewrite app_nil_r. split; [done|]. split; [done|].
    intros item pr what Hin. by apply elem_of_nil in Hin.
  - cbn [foldl]. destruct (shutdown_one_refused env w log0 item) as (w1 & log1 & -> & Hp1 & Hl1).
    destruct (IH w1 (log0 ++ log1)) as (w2 & log2 & -> & Hp2 & Hl2).
    exists w2, (log1 ++ log2). split; [by rewrite app_assoc|]. split.
    + intros q Hq. by rewrite Hp2, Hp1.
    + intros it pr what Hin Hp Hpf Hkf. apply elem_of_app.
      apply elem_of_cons in Hin as [->|Hin].
      * left. rewrite (Hl1 pr what Hp Hpf Hkf). apply list_elem_of_here.
      * right. apply (Hl2 it pr what Hin); [|done|done].
        rewrite Hp1; [done|]. by rewrite Hkf.
Qed.

(** X25. When the OS refuses the kill of the process of a registered session
    (the process is in the table and the existence check does not fail),
    [shutdown_event] logs [Error killing process <pid>: <error>] for it, leaves
    the entry of that process as it was, and still returns with both dicts
    empty. *)
Theorem shutdown_event_logs_refused_kill env w sid s pr what :
  browser_sessions w !! sid = Some s ->
  procs w !! pid (process s) = Some pr ->
  pid_exists_fault env (pid (process s)) = None ->
  kill_fault env (pid (process s)) SIGKILL = Some what ->
  exists w' log,
    shutdown_event env w = (w', None, log) /\
    ALog ERROR ("Error killing process " +:+ pretty (pid (process s)) +:+ ": " +:+ what)
      ∈ log /\
    procs w' !! pid (process s) = Some pr /\
    browser_sessions w' = ∅ /\ monitoring_tasks w' = ∅.
Proof.
  intros Hs Hp Hpf Hkf. unfold shutdown_event.
  destruct (shutdown_loop_refused env (map_to_list (browser_sessions w)) w [])
    as (w1 & log & -> & Hprocs & Hlog).
  eexists _, log. split; [reflexivity|]. split; [|split; [|done]].
  - apply (Hlog (sid, s) pr what); try done. by apply elem_of_map_to_list.
  - simpl. rewrite Hprocs; [done|]. by rewrite Hkf.
Qed.

Lemma shutdown_event_logs_refused_kill_witness :
  exists w' log,
    shutdown_event refusing_env one_session = (w', None, log) /\
    ALog ERROR "Error killing process 4242: [Errno 1] Operation not permitted" ∈ log /\
    procs w' !! 4242 = Some (Proc None [] EmptyString) /\
    browser_sessions w' = ∅ /\ monitoring_tasks w' = ∅.
Proof.
  apply (shutdown_event_logs_refused_kill refusing_env one_session "9f1c"
           {| session_id := "9f1c"; process := {| pid := 4242; stdout := Some 4242 |};
              port := 9222; created_at := "2025-01-01T00:00:00"; events := 0 |}
           (Proc None [] EmptyString) "[Errno 1] Operation not permitted");
    reflexivity.
Defined.

(** ** log_output *)




(** * Properties of the client and of the two files together *)

(** ** The answer to POST /sessions *)

Lemma create_session_begin_error env request w w1 e a :
  create_session_begin env request w = (w1, inl e, a) ->
  forall c d, e = HTTPException c d -> c = 500.
Proof.
  unfold create_session_begin.
  destruct (find_free_port (sock_bind env)) as [e0|p] eqn:Hf.
  - apply find_free_port_inl in Hf as [-> _]. intros [= _ <- _]. discriminate.
  - destruct (popen env (chrome_cmd env p)) as [e0|child]; [|discriminate].
    destruct (is_Exception e0) eqn:He.
    + intros [= _ <- _] c d [= <- _]. done.
    + intros [= _ <- _] c d ->. discriminate.
Qed.

Lemma create_session_resume_error env fr w w2 e a :
  create_session_resume env fr w = (w2, inl e, a) ->
  forall c d, e = HTTPException c d -> c = 500.
Proof.
  unfold create_session_resume.
  destruct (poll w (local_process fr)) as [rc|].
  - destruct (stdout (local_process fr)) as [fd|];
      [destruct (stdout_read w fd)|]; intros [= _ <- _] c d [= <- _]; done.
  - simpl. rewrite lookup_insert_eq. discriminate.
Qed.

Lemma create_session_answer_status env env' request settle w :
  let result := (create_session env env' request settle w).1.2 in
  (http_answer create_session_route result).1 <> 201 /\
  (forall resp, result = inr resp -> (http_answer create_session_route result).1 = 200) /\
  (forall e, result = inl e -> (http_answer create_session_route result).1 = 500).
Proof.
  intros result.
  assert ((exists resp, result = inr resp) \/
          (exists e, result = inl e /\ forall c d, e = HTTPException c d -> c = 500)) as Hres.
  { unfold result, create_session.
    destruct (create_session_begin env request w) as [[w1 [e|fr]] a] eqn:Hb.
    - right. exists e. split; [done|]. by eapply create_session_begin_error.
    - destruct (create_session_resume env' fr (settle w1)) as [[w2 [e|resp]] a'] eqn:Hr.
      + right. exists e. split; [done|]. by eapply create_session_resume_error.
      + left. by exists resp. }
  destruct Hres as [[resp ->]|(e & -> & H)].
  - split; [done|]. split; [done|discriminate].
  - assert ((http_answer create_session_route (inl e)).1 = 500) as H500.
    { destruct e; try done. simpl. by eapply H. }
    rewrite H500. split; [done|]. split; [discriminate|done].
Qed.

(** X19. Whatever happens in a [create_session] call, the answer to the
    POST is never 201: it is 200 when the call succeeds and 500 whenever it
    raises. *)
Theorem create_session_never_answers_201 env env' request settle w :
  let result := (create_session env env' request settle w).1.2 in
  (http_answer create_session_route result).1 <> 201 /\
  (forall resp, result = inr resp -> (http_answer create_session_route result).1 = 200) /\
  (forall e, result = inl e -> (http_answer create_session_route result).1 = 500).
Proof. apply create_session_answer_status. Qed.

Lemma create_session_never_answers_201_witness :
  (http_answer create_session_route
     (create_session demo_env demo_env demo_request (child_died "crashed" 1)
        initial_world).1.2).1 = 500.
Proof.
  destruct (create_session_never_answers_201 demo_env demo_env demo_request
              (child_died "crashed" 1) initial_world) as (_ & _ & H).
  apply (H (HTTPException 500 "crashed")). vm_compute. reflexivity.
Defined.

(** ** BrowserClient.create_session *)

(** X20. The client's [create_session] returns [True] exactly when the
    status is 201 and the body is an object with [session_id] and [cdp_url],
    and it then holds these two values. With any other status it returns
    [False] and the client is as before. With status 201 and a body that
    has [session_id] but no [cdp_url] it returns [False] and all the same
    keeps the session id. *)
Theorem client_create_session_needs_201 self answer :
  ((BrowserClient_create_session self answer).2 = true <->
   exists items sid url,
     answer = inr (201, JObj items) /\
     dict_item items "session_id" = Some sid /\ dict_item items "cdp_url" = Some url) /\
  (forall items sid url,
     answer = inr (201, JObj items) ->
     dict_item items "session_id" = Some sid -> dict_item items "cdp_url" = Some url ->
     BrowserClient_create_session self answer =
       ({| api_url := api_url self; client_session_id := Some sid;
           client_cdp_url := Some url |}, true)) /\
  (forall status data,
     answer = inr (status, data) -> status <> 201 ->
     BrowserClient_create_session self answer = (self, false)) /\
  (forall items sid,
     answer = inr (201, JObj items) ->
     dict_item items "session_id" = Some sid -> dict_item items "cdp_url" = None ->
     BrowserClient_create_session self answer =
       ({| api_url := api_url self; client_session_id := Some sid;
           client_cdp_url := client_cdp_url self |}, false)).
Proof.
  split; [|split; [|split]].
  - split.
    + destruct answer as [e|[status data]]; simpl; [discriminate|].
      destruct (decide (status <> 201)) as [|Heq]; [discriminate|].
      assert (status = 201) as -> by lia.
      destruct data as [| | | | |items]; try discriminate.
      destruct (dict_item items "session_id") as [sid|] eqn:Hsid; [|discriminate].
      destruct (dict_item items "cdp_url") as [url|] eqn:Hurl; [|discriminate].
      intros _. by exists items, sid, url.
    + intros (items & sid & url & -> & Hsid & Hurl). simpl. by rewrite Hsid, Hurl.
  - intros items sid url -> Hsid Hurl. simpl. by rewrite Hsid, Hurl.
  - intros status data -> Hne. simpl. by rewrite decide_True.
  - intros items sid -> Hsid Hurl. simpl. by rewrite Hsid, Hurl.
Qed.

Lemma client_create_session_needs_201_witness :
  BrowserClient_create_session demo_client
    (inr (201, JObj [("session_id", JStr "9f1c");
                     ("cdp_url", JStr "ws://host.docker.internal:9222")]))
    = (connected_client, true) /\
  BrowserClient_create_session demo_client
    (inr (200, JObj [("session_id", JStr "9f1c");
                     ("cdp_url", JStr "ws://host.docker.internal:9222")]))
    = (demo_client, false).
Proof.
  split.
  - eapply (client_create_session_needs_201 demo_client); reflexivity.
  - destruct (client_create_session_needs_201 demo_client
                (inr (200, JObj [("session_id", JStr "9f1c");
                                 ("cdp_url", JStr "ws://host.docker.internal:9222")])))
      as (_ & _ & H & _).
    eapply H; [reflexivity|lia].
Defined.

(** ** BrowserClient.run_automation *)

Lemma page_calls_app ev1 ev2 : page_calls (ev1 ++ ev2) = page_calls ev1 ++ page_calls ev2.
Proof.
  induction ev1 as [|e ev1 IH]; [done|]. destruct e; simpl; by rewrite ?IH.
Qed.

Lemma client_sleeps_app ev1 ev2 :
  client_sleeps (ev1 ++ ev2) = (client_sleeps ev1 + client_sleeps ev2)%nat.
Proof.
  induction ev1 as [|e ev1 IH]; [done|]. destruct e; simpl; by rewrite ?IH.
Qed.

Lemma failed_actions_app ev1 ev2 :
  failed_actions (ev1 ++ ev2) = (failed_actions ev1 + failed_actions ev2)%nat.
Proof.
  induction ev1 as [|e ev1 IH]; [done|].
  destruct e as [| | | | | |[] []| |]; simpl; by rewrite ?IH.
Qed.

(** The loop over any list of actions that all stand for a page call: every
    call is made, in order, and each is followed by the sleep or, when it
    failed, by the warning. *)
Lemma run_actions_all_attempted pw actions :
  forall calls i,
    Forall2 (fun a c => perform_action_call a = inr (Some c)) actions calls ->
    (forall j c e, pw_page pw j c = Some e -> is_Exception e = true) ->
    exists ev,
      run_actions pw i actions = (None, ev) /\
      page_calls ev = calls /\
      (client_sleeps ev + failed_actions ev = length actions)%nat /\
      ((forall j c, pw_page pw j c = None) -> client_sleeps ev = length actions) /\
      ((forall j c, pw_page pw j c <> None) -> failed_actions ev = length actions).
Proof.
  induction actions as [|action actions IH]; intros calls i Hcalls Hexc.
  - apply Forall2_nil_inv_l in Hcalls as ->. exists []. done.
  - apply Forall2_cons_inv_l in Hcalls as (c & calls' & Hc & Hrest & ->).
    destruct (IH calls' (S i) Hrest Hexc) as (ev' & Hrun & Hpc & Hcount & Hall & Hnone).
    simpl. unfold BrowserClient_perform_action. rewrite Hc.
    destruct (pw_page pw i c) as [e|] eqn:Hp.
    + rewrite (Hexc _ _ _ Hp), Hrun. eexists. split; [reflexivity|].
      rewrite !page_calls_app, !client_sleeps_app, !failed_actions_app. simpl.
      rewrite Hpc. split; [done|]. split; [lia|]. split.
      * intros H0. specialize (H0 i c). by rewrite Hp in H0.
      * intros H0. rewrite Hnone by done. lia.
    + rewrite Hrun. eexists. split; [reflexivity|].
      rewrite !page_calls_app, !client_sleeps_app, !failed_actions_app. simpl.
      rewrite Hpc. split; [done|]. split; [lia|]. split.
      * intros H0. rewrite Hall by done. lia.
      * intros H0. specialize (H0 i c). by rewrite Hp in H0.
Qed.

(** X21. Without a session id or a CDP URL [run_automation] returns [False]
    and asks nothing of Playwright. With both, and with Playwright
    connecting, giving a page and closing without error, it returns [True]
    whatever the five page calls do: all five are made, in the order goto,
    fill, click, goto, evaluate, each followed by a one second sleep if it
    came back and by a warning if it raised, so that it also returns [True]
    when every one of them raised. *)
Theorem run_automation_survives_failed_actions pw self :
  (attr_truthy (client_cdp_url self) = false \/ attr_truthy (client_session_id self) = false ->
   BrowserClient_run_automation pw self = (inr false, [Log ERROR NoActiveSession])) /\
  (attr_truthy (client_cdp_url self) = true ->
   attr_truthy (client_session_id self) = true ->
   pw_start pw = None ->
   pw_connect pw (client_cdp_url self) = None ->
   (0 < pw_contexts pw)%nat ->
   (pw_pages pw = O -> pw_new_page pw = None) ->
   pw_close pw = None ->
   (forall j c e, pw_page pw j c = Some e -> is_Exception e = true) ->
   exists ev,
     BrowserClient_run_automation pw self = (inr true, ev) /\
     page_calls ev =
       [ Goto "https://example.com" 15000;
         Fill "input" "test search query";
         Click "button" 5000;
         Goto "https://httpbin.org/get" 15000;
         Evaluate "() => { console.log('Hello from browser!'); }" ] /\
     (client_sleeps ev + failed_actions ev = 5)%nat /\
     ((forall j c, pw_page pw j c <> None) ->
      failed_actions ev = 5%nat /\ client_sleeps ev = O)).
Proof.
  split.
  - intros [H|H]; unfold BrowserClient_run_automation; rewrite H; simpl; [done|].
    by rewrite orb_true_r.
  - intros Hurl Hsid Hstart Hconn Hctx Hpage Hclose Hexc.
    unfold BrowserClient_run_automation. rewrite Hurl, Hsid, Hstart, Hconn.
    cbn -[run_actions].
    destruct (pw_contexts pw) as [|n]; [lia|].
    destruct (run_actions_all_attempted pw automation_actions
                [ Goto "https://example.com" 15000;
                  Fill "input" "test search query";
                  Click "button" 5000;
                  Goto "https://httpbin.org/get" 15000;
                  Evaluate "() => { console.log('Hello from browser!'); }" ] O)
      as (ev & Hrun & Hpc & Hcount & _ & Hfail); [repeat constructor|done|].
    destruct (pw_pages pw) as [|m].
    + rewrite Hpage by done. rewrite Hrun, Hclose. eexists. split; [reflexivity|].
      rewrite !page_calls_app, !client_sleeps_app, !failed_actions_app, Hpc. simpl.
      rewrite ?app_nil_r. split; [done|]. split; [simpl in Hcount; lia|].
      intros Hall. specialize (Hfail Hall). simpl in Hfail, Hcount. lia.
    + rewrite Hrun, Hclose. eexists. split; [reflexivity|].
      rewrite !page_calls_app, !client_sleeps_app, !failed_actions_app, Hpc. simpl.
      rewrite ?app_nil_r. split; [done|]. split; [simpl in Hcount; lia|].
      intros Hall. specialize (Hfail Hall). simpl in Hfail, Hcount. lia.
Qed.

Lemma run_automation_survives_failed_actions_witness :
  exists ev,
    BrowserClient_run_automation flaky_playwright connected_client = (inr true, ev) /\
    (client_sleeps ev + failed_actions ev = 5)%nat.
Proof.
  destruct (run_automation_survives_failed_actions flaky_playwright connected_client)
    as [_ H].
  destruct H as (ev & Hrun & _ & Hcount & _); try reflexivity.
  - simpl. lia.
  - intros j c e. destruct c; simpl; try discriminate. by intros [= <-].
  - by exists ev.
Defined.

(** ** The routes of the server and the paths the client asks for *)

Lemma strip_prefix_app pre t : strip_prefix pre (pre +:+ t) = Some t.
Proof.
  induction pre as [|c pre IH]; [by destruct t|].
  change (String c pre +:+ t) with (String c (pre +:+ t)). simpl.
  by rewrite decide_True.
Qed.

Lemma occurs_app_r old s t : occurs old t = true -> occurs old (s +:+ t) = true.
Proof.
  intros Ht. induction s as [|c s IH]; [done|].
  change (String c s +:+ t) with (String c (s +:+ t)).
  change (starts_with old (String c (s +:+ t)) || occurs old (s +:+ t) = true).
  rewrite IH. apply orb_true_r.
Qed.

Lemma take_until_app stop p c t :
  string_forall (fun x => negb (stop x)) p = true -> stop c = true ->
  take_until stop (p +:+ String c t) = p.
Proof.
  intros Hp Hc. induction p as [|x p IH]; simpl in *.
  - change (EmptyString +:+ String c t) with (String c t). simpl. by rewrite Hc.
  - apply andb_true_iff in Hp as [Hx Hp].
    change (String x p +:+ String c t) with (String x (p +:+ String c t)). simpl.
    apply negb_true_iff in Hx. rewrite Hx. by rewrite IH.
Qed.

Lemma take_until_all stop p :
  string_forall (fun x => negb (stop x)) p = true -> take_until stop p = p.
Proof.
  induction p as [|x p IH]; [done|]. simpl. intros Hp.
  apply andb_true_iff in Hp as [Hx Hp]. apply negb_true_iff in Hx.
  rewrite Hx. by rewrite IH.
Qed.

Lemma drop_until_app stop p c t :
  string_forall (fun x => negb (stop x)) p = true -> stop c = true ->
  drop_until stop (p +:+ String c t) = String c t.
Proof.
  intros Hp Hc. induction p as [|x p IH]; simpl in *.
  - change (EmptyString +:+ String c t) with (String c t). simpl. by rewrite Hc.
  - apply andb_true_iff in Hp as [Hx Hp].
    change (String x p +:+ String c t) with (String x (p +:+ String c t)). simpl.
    apply negb_true_iff in Hx. rewrite Hx. by apply IH.
Qed.

Lemma string_app_assoc a b c : (a +:+ b) +:+ c = a +:+ b +:+ c.
Proof.
  induction a as [|x a IH]; [done|].
  change ((String x a +:+ b) +:+ c) with (String x ((a +:+ b) +:+ c)). by rewrite IH.
Qed.

Lemma string_forall_app P a b :
  string_forall P (a +:+ b) = string_forall P a && string_forall P b.
Proof.
  induction a as [|c a IH]; [done|].
  change (String c a +:+ b) with (String c (a +:+ b)). simpl. by rewrite IH, andb_assoc.
Qed.

Lemma string_forall_impl (P Q : ascii -> bool) s :
  (forall c, P c = true -> Q c = true) ->
  string_forall P s = true -> string_forall Q s = true.
Proof.
  intros HPQ. induction s as [|c s IH]; [done|]. simpl. intros H.
  apply andb_true_iff in H as [Hc Hs]. by rewrite (HPQ c Hc), IH.
Qed.

Lemma plain_char_in_path c : plain_char c = true -> negb (ends_authority c) = true.
Proof. destruct c as [[] [] [] [] [] [] [] []]; vm_compute; congruence. Qed.

Lemma authority_char_in_authority c :
  authority_char c = true -> negb (ends_authority c) = true.
Proof. destruct c as [[] [] [] [] [] [] [] []]; vm_compute; congruence. Qed.

Lemma ends_path_authority c : negb (ends_authority c) = true -> negb (ends_path c) = true.
Proof.
  unfold ends_authority. destruct (ends_path c); [|done]. by rewrite orb_true_r.
Qed.

Lemma no_slash_occurs s :
  string_forall (fun x => negb (ends_authority x)) s = true -> occurs "/" s = false.
Proof.
  induction s as [|c s IH]; [done|]. simpl. intros H.
  apply andb_true_iff in H as [Hc Hs]. rewrite (IH Hs), orb_false_r.
  destruct (decide ("/"%char = c)) as [<-|]; [discriminate Hc|done].
Qed.

Lemma logs_path_no_route sid verb t :
  (verb, t) ∈ server_routes -> template_matches t (logs_path sid) = None.
Proof.
  assert (template_matches (Fixed "/sessions") (logs_path sid) = None) as Hfixed.
  { unfold template_matches. rewrite decide_False; [done|].
    unfold logs_path.
    change ("/sessions/" +:+ sid +:+ "/logs")
      with (String "/" (String "s" (String "e" (String "s" (String "s" (String "i"
             (String "o" (String "n" (String "s" (String "/" (sid +:+ "/logs"))))))))))).
    intros [H|H]; [discriminate H|]. vm_compute in H. discriminate H. }
  assert (template_matches (WithParam "/sessions/" "session_id") (logs_path sid) = None)
    as Hparam.
  { unfold template_matches, logs_path. rewrite strip_prefix_app.
    rewrite decide_False; [done|]. intros [_ H].
    rewrite occurs_app_r in H; [discriminate|reflexivity]. }
  intros Hin. unfold server_routes in Hin.
  repeat (apply elem_of_cons in Hin as [[= -> ->]|Hin]; [done|]).
  by apply elem_of_nil in Hin.
Qed.

(** X22. For a client whose base URL is [http://<authority>], the authority
    being a host name or address with or without a port, and whose session
    id is made of letters, digits and hyphens, as the ids of this server
    are: the URL [get_session_logs] asks for has the path
    [/sessions/<id>/logs], which matches none of the routes [server.py]
    declares, and the client returns [None] for every answer whose status is
    not 200; the URL [cleanup] asks for has the path [/sessions/<id>], which
    matches the template of the GET and DELETE routes with the id as the
    parameter. *)
Theorem logs_path_matches_no_route repr self authority sid limit :
  api_url self = "http://" +:+ authority ->
  authority <> EmptyString ->
  string_forall authority_char authority = true ->
  client_session_id self = Some (JStr sid) ->
  plain_id sid ->
  (exists url,
     logs_request repr self limit = HttpRequest "GET" url None /\
     url_path url = Some (logs_path sid) /\
     forall verb t, (verb, t) ∈ server_routes -> template_matches t (logs_path sid) = None) /\
  (exists url,
     cleanup_request repr self = HttpRequest "DELETE" url None /\
     url_path url = Some ("/sessions/" +:+ sid) /\
     template_matches (WithParam "/sessions/" "session_id") ("/sessions/" +:+ sid)
       = Some [("session_id", sid)]) /\
  (forall net status body,
     net (logs_request repr self limit) = inr (status, body) -> status <> 200 ->
     BrowserClient_get_session_logs repr net self limit
       = (inr None, [Http (logs_request repr self limit)])).
Proof.
  intros Hurl Hauth Hclean Hsid [Hne Hplain].
  apply (string_forall_impl _ (fun c => negb (ends_authority c))) in Hclean;
    [|apply authority_char_in_authority].
  assert (string_forall (fun c => negb (ends_authority c)) sid = true) as Hsid_auth.
  { revert Hplain. apply string_forall_impl, plain_char_in_path. }
  assert (string_forall (fun c => negb (ends_path c)) sid = true) as Hsid_path.
  { revert Hsid_auth. apply string_forall_impl, ends_path_authority. }
  split; [|split].
  - eexists. split; [reflexivity|]. split; [|apply logs_path_no_route].
    rewrite Hurl, Hsid. unfold url_path, logs_path. simpl py_str.
    rewrite !string_app_assoc, strip_prefix_app.
    change ("/sessions/" +:+ sid +:+ "/logs" +:+ "?limit=" +:+ pretty limit)
      with (String "/" ("sessions/" +:+ sid +:+ "/logs" +:+ "?limit=" +:+ pretty limit)).
    rewrite drop_until_app by done.
    change (String "/" ("sessions/" +:+ sid +:+ "/logs" +:+ "?limit=" +:+ pretty limit))
      with ("/sessions/" +:+ sid +:+ "/logs" +:+ String "?" ("limit=" +:+ pretty limit)).
    rewrite <- !string_app_assoc.
    rewrite take_until_app; [|by rewrite !string_forall_app, Hsid_path|done].
    rewrite !string_app_assoc. reflexivity.
  - eexists. split; [reflexivity|]. split.
    + rewrite Hurl, Hsid. unfold url_path. simpl py_str.
      rewrite !string_app_assoc, strip_prefix_app.
      change ("/sessions/" +:+ sid) with (String "/" ("sessions/" +:+ sid)).
      rewrite drop_until_app by done.
      change (String "/" ("sessions/" +:+ sid)) with ("/sessions/" +:+ sid).
      rewrite take_until_all by (by rewrite string_forall_app, Hsid_path).
      reflexivity.
    + unfold template_matches. rewrite strip_prefix_app.
      rewrite decide_True; [done|]. split; [done|]. by apply no_slash_occurs.
  - intros net status body Hnet Hst.
    unfold BrowserClient_get_session_logs. rewrite Hsid, Hnet. simpl.
    rewrite (bool_decide_eq_true_2 _ Hne). simpl. by rewrite decide_False.
Qed.

Lemma logs_path_matches_no_route_witness :
  url_path "http://localhost:8000/sessions/9f1c/logs?limit=20" = Some "/sessions/9f1c/logs" /\
  template_matches (WithParam "/sessions/" "session_id") ("/sessions/" +:+ "9f1c")
    = Some [("session_id", "9f1c")] /\
  BrowserClient_get_session_logs (fun _ => "") (answering 404 (JObj [("detail", JStr "Not Found")]))
    connected_client 20
    = (inr None, [Http (logs_request (fun _ => "") connected_client 20)]).
Proof.
  destruct (logs_path_matches_no_route (fun _ => "") connected_client "localhost:8000" "9f1c" 20)
    as ((url & Hrq & Hpath & _) & (_ & _ & _ & Hitem) & Hlogs).
  - reflexivity.
  - discriminate.
  - reflexivity.
  - reflexivity.
  - split; [discriminate|reflexivity].
  - split; [|split].
    + injection Hrq as <-. exact Hpath.
    + exact Hitem.
    + eapply Hlogs; [reflexivity|lia].
Defined.

(** ** main *)

Lemma except_Exception_caught e :
  is_Exception e = true -> exists c, except_Exception e = inr c.
Proof. destruct e; try discriminate; intros _; eexists; reflexivity. Qed.

Lemma except_Exception_passed e :
  is_Exception e = false -> except_Exception e = inl e.
Proof. by destruct e. Qed.

(** X23. When the POST is not answered with status 201, [main] sends nothing
    more, and in particular no DELETE. It then returns, unless the POST or
    the read of its answer raised an error that [except Exception] does not
    catch, a cancellation: that error leaves [main]. Every answer this server
    gives to [create_session], a success included, is such an answer: [main]
    returns after the POST, and a session the server made stays registered. *)
Theorem main_sends_no_delete_without_201 environ repr net pw :
  let url := match environ !! "MANAGEMENT_API_URL" with
             | Some u => u
             | None => "http://localhost:8000"
             end in
  let rq := create_session_request
              {| api_url := url; client_session_id := None; client_cdp_url := None |}
              "demo-user" in
  ((forall body, net rq <> inr (201, body)) ->
   (main environ repr net pw).2 = [Http rq] /\
   forall e,
     (main environ repr net pw).1 = Some e <->
     is_Exception e = false /\
     (net rq = inl e \/ exists status, net rq = inr (status, inl e))) /\
  (forall env env' request settle w,
     net rq = inr ((http_answer create_session_route
                      (create_session env env' request settle w).1.2).1,
                   inr (http_answer create_session_route
                          (create_session env env' request settle w).1.2).2) ->
     main environ repr net pw = (None, [Http rq])).
Proof.
  intros url rq.
  assert (forall status data, status <> 201 -> net rq = inr (status, inr data) ->
          main environ repr net pw = (None, [Http rq])) as Hanswered.
  { intros status data Hst Hnet. unfold main. fold url. fold rq. rewrite Hnet. simpl.
    by rewrite decide_True. }
  split.
  - intros Hno. unfold main. fold url. fold rq.
    destruct (net rq) as [e|[status [e|data]]] eqn:Hnet.
    + unfold create_answer. destruct (is_Exception e) eqn:He.
      * destruct (except_Exception_caught e He) as [c ->]. simpl. split; [done|].
        intros e0. split; [discriminate|].
        intros [He0 [[= <-]|(st & [=])]]. congruence.
      * rewrite (except_Exception_passed e He). simpl. split; [done|].
        intros e0. split.
        -- intros [= <-]. split; [done|]. by left.
        -- by intros [_ [[= <-]|(st & [=])]].
    + unfold create_answer. destruct (is_Exception e) eqn:He.
      * destruct (except_Exception_caught e He) as [c ->].
        destruct (decide (status <> 201)) as [Hst|Hst].
        -- simpl. rewrite decide_True by done. split; [done|].
           intros e0. split; [discriminate|].
           intros [He0 [[=]|(st & [= _ <-])]]. congruence.
        -- destruct (Hno (inl e)). f_equal. f_equal. lia.
      * rewrite (except_Exception_passed e He). simpl. split; [done|].
        intros e0. split.
        -- intros [= <-]. split; [done|]. right. by exists status.
        -- by intros [_ [[=]|(st & [= _ <-])]].
    + destruct (decide (status = 201)) as [->|Hst]; [by destruct (Hno (inr data))|].
      simpl. rewrite decide_True by done. simpl. split; [done|].
      intros e0. split; [discriminate|]. by intros [_ [[=]|(st & [=])]].
  - intros env env' request settle w Hnet.
    destruct (create_session_answer_status env env' request settle w) as [Hne _].
    by eapply Hanswered.
Qed.

Lemma main_sends_no_delete_without_201_witness :
  (main ∅ (fun _ => "")
     (answering 200 (SessionResponse_json
                       {| SessionResponse.session_id := "9f1c";
                          SessionResponse.cdp_url := "ws://host.docker.internal:9222";
                          SessionResponse.created_at := "2025-01-01T00:00:00" |}))
     flaky_playwright).2
    = [Http (HttpRequest "POST" "http://localhost:8000/sessions"
               (Some (JObj [("user_id", JStr "demo-user")])))] /\
  (main ∅ (fun _ => "") cancelled flaky_playwright).1 = Some CancelledError.
Proof.
  split.
  - refine (proj1 (proj1 (main_sends_no_delete_without_201 ∅ (fun _ => "") _ flaky_playwright)
                     _)).
    intros body. discriminate.
  - refine (proj2 (proj2 (proj1 (main_sends_no_delete_without_201 ∅ (fun _ => "") cancelled
                                   flaky_playwright) _) CancelledError) _).
    + intros body. discriminate.
    + split; [reflexivity|]. left. reflexivity.
Defined.

(** X24. When the POST is answered 201 with an object whose [session_id] is
    a value Python takes for true, [main] ends by sending DELETE for that
    id, followed at most by log records, whatever became of the automation
    and of the logs, and also when the answer had no [cdp_url]. *)
Theorem main_deletes_the_session_it_got environ repr net pw items sid :
  let url := match environ !! "MANAGEMENT_API_URL" with
             | Some u => u
             | None => "http://localhost:8000"
             end in
  net (create_session_request
         {| api_url := url; client_session_id := None; client_cdp_url := None |}
         "demo-user") = inr (201, inr (JObj items)) ->
  dict_item items "session_id" = Some sid ->
  json_truthy sid = true ->
  exists ev tail,
    (main environ repr net pw).2 =
      ev ++ Http (HttpRequest "DELETE" (url +:+ "/sessions/" +:+ py_str repr (Some sid)) None)
         :: tail /\
    Forall is_log tail.
Proof.
  intros url Hnet Hsid Htrue. unfold main. fold url. rewrite Hnet. simpl create_answer.
  assert (exists c1 created,
            BrowserClient_create_session
              {| api_url := url; client_session_id := None; client_cdp_url := None |}
              (inr (201, JObj items)) = (c1, created) /\
            api_url c1 = url /\ client_session_id c1 = Some sid) as (c1 & created & -> & Hu & Hs).
  { simpl. rewrite Hsid. destruct (dict_item items "cdp_url"); eexists _, _; done. }
  destruct (main_body repr net pw c1 created) as [r ev].
  unfold BrowserClient_cleanup, cleanup_request. rewrite Hs, Hu. simpl. rewrite Htrue. simpl.
  match goal with
  | |- context [net (HttpRequest "DELETE" ?u None)] =>
      destruct (net (HttpRequest "DELETE" u None)) as [e|answer]
  end.
  - destruct (is_Exception e); simpl.
    + exists ([Http (create_session_request
                       {| api_url := url; client_session_id := None;
                          client_cdp_url := None |} "demo-user")] ++ ev), [Log ERROR (CleanupFailed e)].
      split; [by rewrite <- app_assoc|]. repeat constructor. by eexists _, _.
    + exists ([Http (create_session_request
                       {| api_url := url; client_session_id := None;
                          client_cdp_url := None |} "demo-user")] ++ ev), [].
      split; [by rewrite <- app_assoc|]. constructor.
  - simpl.
    exists ([Http (create_session_request
                     {| api_url := url; client_session_id := None;
                        client_cdp_url := None |} "demo-user")] ++ ev),
           [Log INFO (SessionTerminated (Some sid))].
    split; [by rewrite <- app_assoc|]. repeat constructor. by eexists _, _.
Qed.

Lemma main_deletes_the_session_it_got_witness :
  exists ev tail,
    (main ∅ (fun _ => "")
       (answering 201 (JObj [("session_id", JStr "9f1c")])) flaky_playwright).2 =
      ev ++ Http (HttpRequest "DELETE"
                    ("http://localhost:8000" +:+ "/sessions/"
                       +:+ py_str (fun _ => "") (Some (JStr "9f1c"))) None) :: tail /\
    Forall is_log tail.
Proof.
  pose proof (main_deletes_the_session_it_got ∅ (fun _ => "")
                (answering 201 (JObj [("session_id", JStr "9f1c")])) flaky_playwright
                [("session_id", JStr "9f1c")] (JStr "9f1c") eq_refl eq_refl eq_refl) as H.
  cbv zeta in H. rewrite lookup_empty in H. exact H.
Defined.
